(** * AndersenEV: schedule validation and the SQLite record store

    A shallow embedding of the application logic of the repository:

    - [JS]: the JavaScript built-ins the code relies on ([String.prototype.trim],
      [parseInt], truthiness, [JSON.stringify] of a string array);
    - [ScheduleForm]: [handleDayToggle] and [handleSubmit] of
      src/components/ScheduleForm.tsx;
    - [SQLite]: the two tables of the store and the statements the services run;
    - [DatabaseService]: the service of src/services (the one [AuthContext]
      initialises through [initialize]);
    - [LegacyDatabaseService]: the older copy of the service, which never
      creates its schedules table;
    - [ScheduleService], [AuthContext], [ScheduleScreen]: the callers;
    - [ValidationSpec], [UpdateSpec]: validation and partial update as the
      specification words them, for comparison with the code.

    The definitions come first; the properties follow them. *)

From Stdlib Require Import ZArith List String Ascii Bool Lia.
From Stdlib Require Import Permutation Sorted Orders RelationClasses.
From Stdlib Require Import DecimalString OrderedTypeEx DecimalPos.
Import ListNotations.

Local Open Scope string_scope.
Local Open Scope list_scope.
Local Open Scope Z_scope.

(* ================================================================= *)
(** ** JavaScript built-ins *)

Module JS.

(** Strings are sequences of code units; the model covers the code units below
    256, one [ascii] each. *)
Definition code (c : ascii) : Z := Z.of_N (N_of_ascii c).

(** WhiteSpace and LineTerminator code points below 256: TAB, LF, VT, FF, CR,
    SP and NBSP. *)
Definition isWhiteSpace (c : ascii) : bool :=
  let n := code c in
  ((9 <=? n) && (n <=? 13)) || (n =? 32) || (n =? 160).

Fixpoint trimStart (s : string) : string :=
  match s with
  | String c s' => if isWhiteSpace c then trimStart s' else s
  | EmptyString => EmptyString
  end.

Fixpoint trimEnd (s : string) : string :=
  match s with
  | String c s' =>
      let t := trimEnd s' in
      if isWhiteSpace c && (t =? "")%string then "" else String c t
  | EmptyString => EmptyString
  end.

(** [s.trim()] *)
Definition trim (s : string) : string := trimStart (trimEnd s).

(** ToBoolean on a string: only the empty string is falsy. *)
Definition truthy (s : string) : bool := negb (s =? "")%string.

(** Value of a digit in a radix up to 16 ([0-9], [a-f], [A-F]). *)
Definition digitValue (c : ascii) : option Z :=
  let n := code c in
  if (48 <=? n) && (n <=? 57) then Some (n - 48)
  else if (97 <=? n) && (n <=? 102) then Some (n - 87)
  else if (65 <=? n) && (n <=? 70) then Some (n - 55)
  else None.

Definition radixDigit (R : Z) (c : ascii) : option Z :=
  match digitValue c with
  | Some d => if d <? R then Some d else None
  | None => None
  end.

(** The digits of the longest prefix of [s] made of radix-[R] digits. *)
Fixpoint digitsPrefix (R : Z) (s : string) : list Z :=
  match s with
  | String c s' =>
      match radixDigit R c with
      | Some d => d :: digitsPrefix R s'
      | None => []
      end
  | EmptyString => []
  end.

Definition mathInt (R : Z) (ds : list Z) : Z :=
  fold_left (fun acc d => acc * R + d) ds 0.

Definition stripSign (s : string) : Z * string :=
  match s with
  | String "-" r => (-1, r)
  | String "+" r => (1, r)
  | _ => (1, s)
  end.

Definition stripPrefix (s : string) : Z * string :=
  match s with
  | String "0" (String "x" r) => (16, r)
  | String "0" (String "X" r) => (16, r)
  | _ => (10, s)
  end.

(** [parseInt(s)] with no radix argument.  [None] is NaN.  The result of the
    built-in is a Number; the model keeps the exact integer, which agrees with
    it on every comparison against the bounds the callers use and on every
    value those bounds let through (and identifies -0 with 0). *)
Definition parseInt (s : string) : option Z :=
  let '(sign, s1) := stripSign (trimStart s) in
  let '(R, s2) := stripPrefix s1 in
  match digitsPrefix R s2 with
  | [] => None
  | ds => Some (sign * mathInt R ds)
  end.

Definition hexDigit (n : Z) : ascii :=
  ascii_of_N (Z.to_N (if n <? 10 then 48 + n else 87 + n)).

Definition quoteChar : ascii := "034"%char.
Definition backslash : ascii := "092"%char.

(** One code unit of QuoteJSONString. *)
Definition quoteJSONChar (c : ascii) : string :=
  let n := code c in
  if n =? 8 then String backslash "b"
  else if n =? 9 then String backslash "t"
  else if n =? 10 then String backslash "n"
  else if n =? 12 then String backslash "f"
  else if n =? 13 then String backslash "r"
  else if n =? 34 then String backslash (String quoteChar "")
  else if n =? 92 then String backslash (String backslash "")
  else if n <? 32 then
    String backslash (String "u" (String "0" (String "0"
      (String (hexDigit (n / 16)) (String (hexDigit (n mod 16)) "")))))
  else String c "".

Fixpoint quoteJSONBody (s : string) : string :=
  match s with
  | String c s' => (quoteJSONChar c ++ quoteJSONBody s')%string
  | EmptyString => EmptyString
  end.

Definition quoteJSONString (s : string) : string :=
  String quoteChar (quoteJSONBody s ++ String quoteChar "")%string.

Fixpoint joinComma (l : list string) : string :=
  match l with
  | [] => ""
  | [x] => x
  | x :: rest => (x ++ "," ++ joinComma rest)%string
  end.

(** [JSON.stringify] of an array of strings. *)
Definition JSON_stringify (l : list string) : string :=
  ("[" ++ joinComma (map quoteJSONString l) ++ "]")%string.

(** [Number.MAX_SAFE_INTEGER]: up to it, in absolute value, every integer is a
    Number of its own. *)
Definition MAX_SAFE_INTEGER : Z := 9007199254740991.

Definition isSafeInteger (n : Z) : Prop := Z.abs n <= MAX_SAFE_INTEGER.

(** [n.toString()] of a safe integer: its decimal digits, with a minus sign
    when it is negative.  (Beyond the safe integers the built-in rounds to the
    shortest digits that give the Number back, and from 10^21 on it writes an
    exponent; the numbers the application turns into text are rowids, charge
    levels and mileages.) *)
Definition toString (n : Z) : string := NilZero.string_of_int (Z.to_int n).

End JS.

(* ================================================================= *)
(** ** The exported interfaces [User] and [Schedule] *)

(** [type: 'time' | 'charge' | 'mileage'] *)
Inductive ScheduleType : Set := time | charge | mileage.

Definition ScheduleType_eqb (a b : ScheduleType) : bool :=
  match a, b with
  | time, time | charge, charge | mileage, mileage => true
  | _, _ => false
  end.

Module User.
Record t : Set := mk {
  id : Z;
  username : string;
  email : string;
  password : string;
  createdAt : string
}.
End User.

(** A schedule as a row of the table gives it back: a nullable column is an
    [option], [None] being SQL NULL. *)
Module Schedule.
Record t : Set := mk {
  id : Z;
  userId : Z;
  type : ScheduleType;
  name : string;
  days : string;
  startTime : option string;
  endTime : option string;
  readyByTime : option string;
  desiredChargeLevel : option Z;
  desiredMileage : option Z;
  isActive : bool;
  createdAt : string
}.
End Schedule.

(** [Omit<Schedule, 'id' | 'createdAt'>]: the argument of [createSchedule].  An
    optional property is an [option], [None] being [undefined]. *)
Module NewSchedule.
Record t : Set := mk {
  userId : Z;
  type : ScheduleType;
  name : string;
  days : string;
  startTime : option string;
  endTime : option string;
  readyByTime : option string;
  desiredChargeLevel : option Z;
  desiredMileage : option Z;
  isActive : bool
}.
End NewSchedule.

(** [Partial<Schedule>]: every property may be missing or [undefined]; both are
    [None], the code reads them the same way. *)
Module PartialSchedule.
Record t : Set := mk {
  id : option Z;
  userId : option Z;
  type : option ScheduleType;
  name : option string;
  days : option string;
  startTime : option string;
  endTime : option string;
  readyByTime : option string;
  desiredChargeLevel : option Z;
  desiredMileage : option Z;
  isActive : option bool;
  createdAt : option string
}.

(** The object with no property. *)
Definition empty : t :=
  mk None None None None None None None None None None None None.
End PartialSchedule.

(* ================================================================= *)
(** ** src/components/ScheduleForm.tsx *)

Module ScheduleForm.

(** The state [formData]: every input is kept as the text typed. *)
Record FormData : Set := mkFormData {
  name : string;
  type : ScheduleType;
  days : list string;
  startTime : string;
  endTime : string;
  readyByTime : string;
  desiredChargeLevel : string;
  desiredMileage : string
}.

Definition daysOfWeek : list string :=
  ["Monday"; "Tuesday"; "Wednesday"; "Thursday"; "Friday"; "Saturday"; "Sunday"].

Definition includes (l : list string) (d : string) : bool :=
  existsb (fun x => (x =? d)%string) l.

Definition handleDayToggle (day : string) (prev : FormData) : FormData :=
  mkFormData (name prev) (type prev)
    (if includes (days prev) day
     then filter (fun d => negb (d =? day)%string) (days prev)
     else days prev ++ [day])
    (startTime prev) (endTime prev) (readyByTime prev)
    (desiredChargeLevel prev) (desiredMileage prev).

(** What [handleSubmit] does: an alert, or the call of [onSubmit]. *)
Inductive Outcome : Set :=
| Alert (title message : string)
| Submit (scheduleData : PartialSchedule.t).

(** [isNaN(n) || n < 0 || n > hi] on the result of [parseInt]. *)
Definition outOfRange (n : option Z) (hi : Z) : bool :=
  match n with
  | None => true
  | Some v => (v <? 0) || (v >? hi)
  end.

Definition handleSubmit (formData : FormData) : Outcome :=
  if negb (JS.truthy (JS.trim (name formData))) then
    Alert "Error" "Please enter a schedule name"
  else if (List.length (days formData) =? 0)%nat then
    Alert "Error" "Please select at least one day"
  else if
    match type formData with
    | time => negb (JS.truthy (startTime formData))
              || negb (JS.truthy (endTime formData))
    | _ => false
    end
  then Alert "Error" "Please enter both start and end times"
  else if
    match type formData with
    | time => false
    | _ => negb (JS.truthy (readyByTime formData))
    end
  then Alert "Error" "Please enter a ready by time"
  else if
    match type formData with
    | charge => outOfRange (JS.parseInt (desiredChargeLevel formData)) 100
    | _ => false
    end
  then Alert "Error" "Charge level must be between 0 and 100"
  else if
    match type formData with
    | mileage => outOfRange (JS.parseInt (desiredMileage formData)) 250
    | _ => false
    end
  then Alert "Error" "Mileage must be between 0 and 250"
  else
    let isTime := ScheduleType_eqb (type formData) time in
    Submit {|
      PartialSchedule.id := None;
      PartialSchedule.userId := None;
      PartialSchedule.name := Some (JS.trim (name formData));
      PartialSchedule.type := Some (type formData);
      PartialSchedule.days := Some (JS.JSON_stringify (days formData));
      PartialSchedule.startTime :=
        if isTime then Some (startTime formData) else None;
      PartialSchedule.endTime :=
        if isTime then Some (endTime formData) else None;
      PartialSchedule.readyByTime :=
        if negb isTime then Some (readyByTime formData) else None;
      PartialSchedule.desiredChargeLevel :=
        if ScheduleType_eqb (type formData) charge
        then JS.parseInt (desiredChargeLevel formData) else None;
      PartialSchedule.desiredMileage :=
        if ScheduleType_eqb (type formData) mileage
        then JS.parseInt (desiredMileage formData) else None;
      PartialSchedule.isActive := Some true;
      PartialSchedule.createdAt := None
    |}.

(** The validation failures of the specification, and the alert the form
    shows for each. *)
Inductive ValidationError : Set :=
| MissingField_name
| MissingField_days
| MissingField_startTime_endTime
| MissingField_readyByTime
| OutOfRange_desiredChargeLevel
| OutOfRange_desiredMileage.

Definition alertOf (e : ValidationError) : Outcome :=
  match e with
  | MissingField_name => Alert "Error" "Please enter a schedule name"
  | MissingField_days => Alert "Error" "Please select at least one day"
  | MissingField_startTime_endTime =>
      Alert "Error" "Please enter both start and end times"
  | MissingField_readyByTime => Alert "Error" "Please enter a ready by time"
  | OutOfRange_desiredChargeLevel =>
      Alert "Error" "Charge level must be between 0 and 100"
  | OutOfRange_desiredMileage => Alert "Error" "Mileage must be between 0 and 250"
  end.

End ScheduleForm.

(* ================================================================= *)
(** ** The SQLite store *)

Module SQLite.

(** The two tables, rows in rowid order, and the [sqlite_sequence] entry each
    [AUTOINCREMENT] key keeps (the largest rowid ever handed out).  Rowids are
    unbounded here. *)
Record Db : Set := mkDb {
  users : list User.t;
  schedules : list Schedule.t;
  users_seq : Z;
  schedules_seq : Z
}.

Inductive SqlError : Set :=
| UNIQUE_users_username    (** UNIQUE constraint failed: users.username *)
| UNIQUE_users_email       (** UNIQUE constraint failed: users.email *)
| NOTNULL_schedules        (** NOT NULL constraint failed on schedules *)
| FOREIGNKEY_schedules     (** FOREIGN KEY constraint failed *)
| NOSUCHTABLE_schedules.   (** no such table: schedules *)

Definition max_rowid {A : Type} (rowid : A -> Z) (rows : list A) : Z :=
  fold_right (fun r m => Z.max (rowid r) m) 0 rows.

(** [INTEGER PRIMARY KEY AUTOINCREMENT]: one more than the largest rowid the
    table holds or ever held. *)
Definition next_rowid {A : Type} (rowid : A -> Z) (rows : list A) (seq : Z) : Z :=
  Z.max (max_rowid rowid rows) seq + 1.

(** [SELECT * FROM users WHERE username = ?] *)
Definition select_users_by_username (username : string) (db : Db) : list User.t :=
  filter (fun u => (User.username u =? username)%string) (users db).

(** [SELECT * FROM users WHERE id = ?] *)
Definition select_users_by_id (id : Z) (db : Db) : list User.t :=
  filter (fun u => User.id u =? id) (users db).

(** [INSERT INTO users (username, email, password, createdAt) VALUES (?, ?, ?, ?)]
    under [username TEXT UNIQUE NOT NULL] and [email TEXT UNIQUE NOT NULL].
    The result is [insertId] and the new store.  SQLite tries the index
    declared last first, so a row that breaks both constraints is refused for
    its email. *)
Definition insert_user (username email password createdAt : string) (db : Db)
  : SqlError + Z * Db :=
  if existsb (fun u => (User.email u =? email)%string) (users db) then
    inl UNIQUE_users_email
  else if existsb (fun u => (User.username u =? username)%string) (users db) then
    inl UNIQUE_users_username
  else
    let id := next_rowid User.id (users db) (users_seq db) in
    inr (id, mkDb (users db ++ [User.mk id username email password createdAt])
                  (schedules db) id (schedules_seq db)).

(** [SELECT COUNT( * ) as count FROM schedules WHERE userId = ?] *)
Definition count_schedules (userId : Z) (db : Db) : Z :=
  Z.of_nat (List.length (filter (fun r => Schedule.userId r =? userId) (schedules db))).

(** [SELECT * FROM schedules WHERE id = ?] *)
Definition select_schedules_by_id (id : Z) (db : Db) : list Schedule.t :=
  filter (fun r => Schedule.id r =? id) (schedules db).

(** [ORDER BY createdAt DESC] compares the TEXT column byte by byte. *)
Module CreatedAtDesc <: TotalLeBool.
Definition t : Type := Schedule.t.
Definition leb (a b : t) : bool :=
  String.leb (Schedule.createdAt b) (Schedule.createdAt a).
Lemma leb_total : forall a b, leb a b = true \/ leb b a = true.
Proof. intros a b. unfold leb. apply String.leb_total. Qed.
End CreatedAtDesc.

(** The sort behind [ORDER BY]: SQLite's sorter leaves rows that compare equal
    in the order in which the scan of the table delivers them, so the sort is
    the stable one.  Each row is put before the first row of the sorted rest
    that is not more recent than it. *)
Module Sorter.

Fixpoint insert (x : Schedule.t) (l : list Schedule.t) : list Schedule.t :=
  match l with
  | [] => [x]
  | y :: rest => if CreatedAtDesc.leb x y then x :: l else y :: insert x rest
  end.

Definition sort (l : list Schedule.t) : list Schedule.t := fold_right insert [] l.

Lemma Permuted_insert (x : Schedule.t) (l : list Schedule.t) :
  Permutation (x :: l) (insert x l).
Proof.
  induction l as [|y l IH]; simpl; [reflexivity|].
  destruct (CreatedAtDesc.leb x y); [reflexivity|].
  rewrite perm_swap. now apply perm_skip.
Qed.

Lemma Permuted_sort (l : list Schedule.t) : Permutation l (sort l).
Proof.
  induction l as [|x l IH]; simpl; [constructor|].
  rewrite <- Permuted_insert. now apply perm_skip.
Qed.

Lemma StronglySorted_insert (x : Schedule.t) (l : list Schedule.t) :
  Transitive (fun a b => is_true (CreatedAtDesc.leb a b)) ->
  StronglySorted (fun a b => is_true (CreatedAtDesc.leb a b)) l ->
  StronglySorted (fun a b => is_true (CreatedAtDesc.leb a b)) (insert x l).
Proof.
  intros Htrans Hl. induction Hl as [|y l Hl IH Hy]; simpl.
  - repeat constructor.
  - destruct (CreatedAtDesc.leb x y) eqn:E.
    + constructor; [now constructor|]. constructor; [exact E|].
      apply Forall_forall. intros z Hz. rewrite Forall_forall in Hy.
      exact (Htrans x y z E (Hy z Hz)).
    + constructor; [exact IH|].
      apply (Permutation_Forall (Permuted_insert x l)). constructor; [|exact Hy].
      destruct (CreatedAtDesc.leb_total x y) as [H|H]; [congruence | exact H].
Qed.

Lemma StronglySorted_sort (l : list Schedule.t) :
  Transitive (fun a b => is_true (CreatedAtDesc.leb a b)) ->
  StronglySorted (fun a b => is_true (CreatedAtDesc.leb a b)) (sort l).
Proof.
  intros Htrans. induction l as [|x l IH]; simpl; [constructor|].
  now apply StronglySorted_insert.
Qed.

End Sorter.

(** [SELECT * FROM schedules WHERE userId = ? ORDER BY createdAt DESC] *)
Definition select_schedules_by_userId (userId : Z) (db : Db) : list Schedule.t :=
  Sorter.sort (filter (fun r => Schedule.userId r =? userId) (schedules db)).

(** One [column = ?] of an [UPDATE] with the value bound to it. *)
Inductive Assignment : Set :=
| set_userId (v : Z)
| set_type (v : ScheduleType)
| set_name (v : string)
| set_days (v : string)
| set_startTime (v : string)
| set_endTime (v : string)
| set_readyByTime (v : string)
| set_desiredChargeLevel (v : Z)
| set_desiredMileage (v : Z)
| set_isActive (v : bool)
| set_createdAt (v : string).

Definition assign (r : Schedule.t) (a : Assignment) : Schedule.t :=
  let '(Schedule.mk id userId type name days startTime endTime readyByTime
          desiredChargeLevel desiredMileage isActive createdAt) := r in
  match a with
  | set_userId v =>
      Schedule.mk id v type name days startTime endTime readyByTime
        desiredChargeLevel desiredMileage isActive createdAt
  | set_type v =>
      Schedule.mk id userId v name days startTime endTime readyByTime
        desiredChargeLevel desiredMileage isActive createdAt
  | set_name v =>
      Schedule.mk id userId type v days startTime endTime readyByTime
        desiredChargeLevel desiredMileage isActive createdAt
  | set_days v =>
      Schedule.mk id userId type name v startTime endTime readyByTime
        desiredChargeLevel desiredMileage isActive createdAt
  | set_startTime v =>
      Schedule.mk id userId type name days (Some v) endTime readyByTime
        desiredChargeLevel desiredMileage isActive createdAt
  | set_endTime v =>
      Schedule.mk id userId type name days startTime (Some v) readyByTime
        desiredChargeLevel desiredMileage isActive createdAt
  | set_readyByTime v =>
      Schedule.mk id userId type name days startTime endTime (Some v)
        desiredChargeLevel desiredMileage isActive createdAt
  | set_desiredChargeLevel v =>
      Schedule.mk id userId type name days startTime endTime readyByTime
        (Some v) desiredMileage isActive createdAt
  | set_desiredMileage v =>
      Schedule.mk id userId type name days startTime endTime readyByTime
        desiredChargeLevel (Some v) isActive createdAt
  | set_isActive v =>
      Schedule.mk id userId type name days startTime endTime readyByTime
        desiredChargeLevel desiredMileage v createdAt
  | set_createdAt v =>
      Schedule.mk id userId type name days startTime endTime readyByTime
        desiredChargeLevel desiredMileage isActive v
  end.

(** The row [r] stored under the rowid [id]. *)
Definition with_id (id : Z) (r : Schedule.t) : Schedule.t :=
  Schedule.mk id (Schedule.userId r) (Schedule.type r) (Schedule.name r)
    (Schedule.days r) (Schedule.startTime r) (Schedule.endTime r)
    (Schedule.readyByTime r) (Schedule.desiredChargeLevel r)
    (Schedule.desiredMileage r) (Schedule.isActive r) (Schedule.createdAt r).

(** [FOREIGN KEY (userId) REFERENCES users (id)]: the database library turns
    [PRAGMA foreign_keys] on when it opens a database, so the key is enforced.
    [has_user] looks for the parent row.  ([type IN ('time', 'charge',
    'mileage')] and the [NOT NULL]s of the table hold of every [Schedule.t].) *)
Definition has_user (userId : Z) (db : Db) : bool :=
  existsb (fun u => User.id u =? userId) (users db).

(** [INSERT INTO schedules (...) VALUES (...)]: [row] carries the bound values;
    the rowid assigned becomes its [id].  The result is [insertId] and the new
    store. *)
Definition insert_schedule (row : Schedule.t) (db : Db) : SqlError + Z * Db :=
  let id := next_rowid Schedule.id (schedules db) (schedules_seq db) in
  if has_user (Schedule.userId row) db then
    inr (id, mkDb (users db) (schedules db ++ [with_id id row]) (users_seq db) id)
  else inl FOREIGNKEY_schedules.

(** The statement assigns to the column of the foreign key. *)
Definition writes_userId (sets : list Assignment) : bool :=
  existsb (fun a => match a with set_userId _ => true | _ => false end) sets.

(** [UPDATE schedules SET c1 = ?, ..., cn = ? WHERE id = ?]: the assignments are
    applied to every row the [WHERE] selects.  When [userId] is among the
    columns assigned, each such row must end up with a stored owner, or the
    statement fails. *)
Definition update_schedules (sets : list Assignment) (id : Z) (db : Db)
  : SqlError + Db :=
  let updated :=
    map (fun r => if Schedule.id r =? id then fold_left assign sets r else r)
        (schedules db) in
  if writes_userId sets
     && negb (forallb (fun r => has_user (Schedule.userId r) db)
                (filter (fun r => Schedule.id r =? id) updated))
  then inl FOREIGNKEY_schedules
  else inr (mkDb (users db) updated (users_seq db) (schedules_seq db)).

(** [DELETE FROM schedules WHERE id = ?] *)
Definition delete_schedules (id : Z) (db : Db) : Db :=
  mkDb (users db) (filter (fun r => negb (Schedule.id r =? id)) (schedules db))
       (users_seq db) (schedules_seq db).

End SQLite.

(* ================================================================= *)
(** ** src/services/DatabaseService.ts *)

(** How a promise settles. *)
Inductive Error : Set :=
| LimitError   (** [new Error('You can only have up to 10 schedules.')] *)
| SQLError (e : SQLite.SqlError).

Inductive Promise (A : Type) : Type :=
| Resolved (a : A)
| Rejected (e : Error).
Arguments Resolved {A} a.
Arguments Rejected {A} e.

Definition isRejected {A : Type} (p : Promise A) : bool :=
  match p with Rejected _ => true | Resolved _ => false end.

(** [v || null] on an optional string and on an optional number: [undefined],
    the empty string and zero all give [null]. *)
Definition orNull_string (v : option string) : option string :=
  match v with
  | Some s => if JS.truthy s then Some s else None
  | None => None
  end.

Definition orNull_number (v : option Z) : option Z :=
  match v with
  | Some n => if n =? 0 then None else Some n
  | None => None
  end.

(** [rows.item(0)]: [None] is the [undefined] of an empty result. *)
Definition item0 {A : Type} (rows : list A) : option A := hd_error rows.

(** The values [createSchedule] binds to its [INSERT], as a row whose [id] is
    still to be assigned. *)
Definition insertValues (scheduleData : NewSchedule.t) (createdAt : string)
  : Schedule.t :=
  Schedule.mk 0
    (NewSchedule.userId scheduleData)
    (NewSchedule.type scheduleData)
    (NewSchedule.name scheduleData)
    (NewSchedule.days scheduleData)
    (orNull_string (NewSchedule.startTime scheduleData))
    (orNull_string (NewSchedule.endTime scheduleData))
    (orNull_string (NewSchedule.readyByTime scheduleData))
    (orNull_number (NewSchedule.desiredChargeLevel scheduleData))
    (orNull_number (NewSchedule.desiredMileage scheduleData))
    (if NewSchedule.isActive scheduleData then true else false)
    createdAt.

(** A property of the payload as [Object.entries] lists it: the [id], or a
    column with the assignment its value would make; [None] is [undefined]. *)
Inductive Entry : Set :=
| id_entry (value : option Z)
| column_entry (value : option SQLite.Assignment).

(** [Object.entries(updatedFields)], in the order of the interface (an object
    holds each key once, and assignments to different columns do not
    interfere). *)
Definition entries (updatedFields : PartialSchedule.t) : list Entry :=
  [ id_entry (PartialSchedule.id updatedFields);
    column_entry (option_map SQLite.set_userId (PartialSchedule.userId updatedFields));
    column_entry (option_map SQLite.set_type (PartialSchedule.type updatedFields));
    column_entry (option_map SQLite.set_name (PartialSchedule.name updatedFields));
    column_entry (option_map SQLite.set_days (PartialSchedule.days updatedFields));
    column_entry
      (option_map SQLite.set_startTime (PartialSchedule.startTime updatedFields));
    column_entry
      (option_map SQLite.set_endTime (PartialSchedule.endTime updatedFields));
    column_entry
      (option_map SQLite.set_readyByTime (PartialSchedule.readyByTime updatedFields));
    column_entry
      (option_map SQLite.set_desiredChargeLevel
         (PartialSchedule.desiredChargeLevel updatedFields));
    column_entry
      (option_map SQLite.set_desiredMileage
         (PartialSchedule.desiredMileage updatedFields));
    column_entry
      (option_map SQLite.set_isActive (PartialSchedule.isActive updatedFields));
    column_entry
      (option_map SQLite.set_createdAt (PartialSchedule.createdAt updatedFields)) ].

(** The body of the loop: [if (key !== 'id' && value !== undefined)] the entry
    adds [key = ?] to [fields] and its value to [values]; the two arrays are
    kept here as one list of assignments. *)
Definition push (e : Entry) : list SQLite.Assignment :=
  match e with
  | id_entry _ => []
  | column_entry (Some a) => [a]
  | column_entry None => []
  end.

Definition fieldsAndValues (updatedFields : PartialSchedule.t)
  : list SQLite.Assignment :=
  flat_map push (entries updatedFields).

(** The service once [initialize] has run (the provider of [AuthContext] awaits
    it at start-up; later calls return at once).  Each method runs one
    transaction: it maps the store to the way its promise settles and the store
    left behind; a failed statement rolls the transaction back.  [now] is what
    [new Date().toISOString()] returns during the call. *)
Module DatabaseService.

Import SQLite.

Definition createUser (username email password now : string) (db : Db)
  : Promise (option User.t) * Db :=
  match insert_user username email password now db with
  | inr (userId, db') => (Resolved (item0 (select_users_by_id userId db')), db')
  | inl e => (Rejected (SQLError e), db)
  end.

Definition getUserByUsername (username : string) (db : Db)
  : Promise (option User.t) * Db :=
  (Resolved (item0 (select_users_by_username username db)), db).

Definition getUserById (id : Z) (db : Db) : Promise (option User.t) * Db :=
  (Resolved (item0 (select_users_by_id id db)), db).

Definition createSchedule (scheduleData : NewSchedule.t) (now : string) (db : Db)
  : Promise (option Schedule.t) * Db :=
  let count := count_schedules (NewSchedule.userId scheduleData) db in
  if count >=? 10 then (Rejected LimitError, db)
  else
    match insert_schedule (insertValues scheduleData now) db with
    | inr (scheduleId, db') =>
        (Resolved (item0 (select_schedules_by_id scheduleId db')), db')
    | inl e => (Rejected (SQLError e), db)
    end.

Definition getSchedulesByUserId (userId : Z) (db : Db)
  : Promise (list Schedule.t) * Db :=
  (Resolved (select_schedules_by_userId userId db), db).

Definition updateSchedule (id : Z) (updatedFields : PartialSchedule.t) (db : Db)
  : Promise unit * Db :=
  let fields := fieldsAndValues updatedFields in
  if (List.length fields =? 0)%nat then (Resolved tt, db)
  else
    match update_schedules fields id db with
    | inr db' => (Resolved tt, db')
    | inl e => (Rejected (SQLError e), db)
    end.

Definition deleteSchedule (id : Z) (db : Db) : Promise unit * Db :=
  (Resolved tt, delete_schedules id db).

End DatabaseService.

(** The older copy of the service (src/unnamed/part_000), which opens a
    database file of its own.  Its [createTables] creates [users] in one
    transaction and hands the creation of [schedules] to that transaction as
    its second argument, the error callback, in the branch for a falsy error:
    a transaction that succeeds does not call it, and one that fails calls it
    with its error.  The file therefore never has a table [schedules], and
    every statement on it fails with "no such table"; [db] is the file, left
    as it is. *)
Module LegacyDatabaseService.

Import SQLite.

(** A statement on [schedules]. *)
Definition on_schedules {A : Type} (db : Db) : Promise A * Db :=
  (Rejected (SQLError NOSUCHTABLE_schedules), db).

Definition createSchedule (schedule : NewSchedule.t) (now : string) (db : Db)
  : Promise (option Schedule.t) * Db :=
  on_schedules db.

Definition getSchedulesByUserId (userId : Z) (db : Db)
  : Promise (list Schedule.t) * Db :=
  on_schedules db.

Definition updateSchedule (id : Z) (schedule : PartialSchedule.t) (db : Db)
  : Promise unit * Db :=
  let fields := fieldsAndValues schedule in
  if (List.length fields =? 0)%nat then (Resolved tt, db)
  else on_schedules db.

Definition deleteSchedule (id : Z) (db : Db) : Promise unit * Db :=
  on_schedules db.

Definition getScheduleCount (userId : Z) (db : Db) : Promise Z * Db :=
  on_schedules db.

End LegacyDatabaseService.

(* ================================================================= *)
(** ** src/services/ScheduleService.ts *)

Module ScheduleService.

Definition createSchedule := DatabaseService.createSchedule.
Definition getSchedulesByUserId := DatabaseService.getSchedulesByUserId.
Definition updateSchedule := DatabaseService.updateSchedule.
Definition deleteSchedule := DatabaseService.deleteSchedule.

Definition getScheduleCount (userId : Z) (db : SQLite.Db)
  : Promise Z * SQLite.Db :=
  match DatabaseService.getSchedulesByUserId userId db with
  | (Resolved schedules, db') => (Resolved (Z.of_nat (List.length schedules)), db')
  | (Rejected e, db') => (Rejected e, db')
  end.

End ScheduleService.

(* ================================================================= *)
(** ** src/context/AuthContext.tsx *)

Module AuthContext.

(** A call the provider makes to the database service. *)
Inductive Call : Set :=
| call_getUserByUsername (username : string)
| call_createUser (username email password : string).

(** What the provider's functions read and write: the store behind the
    service, the React state [user], the value AsyncStorage keeps under
    ['user_id'], and the calls made to the service so far (a trace kept for the
    proofs).  AsyncStorage is taken not to fail. *)
Record State : Set := mkState {
  db : SQLite.Db;
  user : option User.t;
  user_id : option string;
  calls : list Call
}.

Definition login (username password : string) (st : State) : bool * State :=
  let '(found, db1) := DatabaseService.getUserByUsername username (db st) in
  let calls1 := calls st ++ [call_getUserByUsername username] in
  match found with
  | Resolved (Some foundUser) =>
      if (User.password foundUser =? password)%string then
        (true, mkState db1 (Some foundUser)
                 (Some (JS.toString (User.id foundUser))) calls1)
      else (false, mkState db1 (user st) (user_id st) calls1)
  | Resolved None => (false, mkState db1 (user st) (user_id st) calls1)
  | Rejected _ => (false, mkState db1 (user st) (user_id st) calls1)
  end.

Definition register (username email password now : string) (st : State)
  : bool * State :=
  let '(existing, db1) := DatabaseService.getUserByUsername username (db st) in
  let calls1 := calls st ++ [call_getUserByUsername username] in
  match existing with
  | Resolved (Some existingUser) =>
      (false, mkState db1 (user st) (user_id st) calls1)
  | Resolved None =>
      let '(created, db2) :=
        DatabaseService.createUser username email password now db1 in
      let calls2 := calls1 ++ [call_createUser username email password] in
      match created with
      | Resolved (Some newUser) =>
          (true, mkState db2 (Some newUser)
                   (Some (JS.toString (User.id newUser))) calls2)
      | Resolved None =>
          (* [newUser.id] throws on [undefined], after [setUser(newUser)] *)
          (false, mkState db2 None (user_id st) calls2)
      | Rejected _ =>
          (false, mkState db2 (user st) (user_id st) calls2)
      end
  | Rejected _ => (false, mkState db1 (user st) (user_id st) calls1)
  end.

Definition logout (st : State) : State :=
  mkState (db st) None None (calls st).

End AuthContext.

(* ================================================================= *)
(** ** The schedule screen *)

Module ScheduleScreen.

(** The store behind the services and the React state of the screen. *)
Record State : Set := mkState {
  db : SQLite.Db;
  user : option User.t;
  schedules : list Schedule.t;
  showForm : bool;
  editingSchedule : option Schedule.t
}.

Inductive Shown : Set :=
| nothing
| alert (title message : string).

Definition loadSchedules (st : State) : Shown * State :=
  match user st with
  | None => (nothing, st)
  | Some u =>
      match ScheduleService.getSchedulesByUserId (User.id u) (db st) with
      | (Resolved userSchedules, db') =>
          (nothing, mkState db' (user st) userSchedules (showForm st)
                      (editingSchedule st))
      | (Rejected _, db') =>
          (alert "Error" "Failed to load schedules",
           mkState db' (user st) (schedules st) (showForm st) (editingSchedule st))
      end
  end.

Definition handleAddSchedule (st : State) : Shown * State :=
  if (10 <=? List.length (schedules st))%nat then
    (alert "Limit Reached" "You can only have up to 10 schedules", st)
  else (nothing, mkState (db st) (user st) (schedules st) true None).

(** [{...scheduleData, userId: user.id} as Omit<Schedule, 'id' | 'createdAt'>]:
    the cast is not checked; [None] stands for an object that lacks a required
    property, which the form never submits. *)
Definition withUserId (scheduleData : PartialSchedule.t) (userId : Z)
  : option NewSchedule.t :=
  match PartialSchedule.type scheduleData, PartialSchedule.name scheduleData,
        PartialSchedule.days scheduleData, PartialSchedule.isActive scheduleData with
  | Some type, Some name, Some days, Some isActive =>
      Some (NewSchedule.mk userId type name days
              (PartialSchedule.startTime scheduleData)
              (PartialSchedule.endTime scheduleData)
              (PartialSchedule.readyByTime scheduleData)
              (PartialSchedule.desiredChargeLevel scheduleData)
              (PartialSchedule.desiredMileage scheduleData)
              isActive)
  | _, _, _, _ => None
  end.

Definition save (scheduleData : PartialSchedule.t) (now : string) (u : User.t)
    (st : State) : Promise unit * SQLite.Db :=
  match editingSchedule st with
  | Some editing =>
      ScheduleService.updateSchedule (Schedule.id editing) scheduleData (db st)
  | None =>
      match withUserId scheduleData (User.id u) with
      | Some data =>
          match ScheduleService.createSchedule data now (db st) with
          | (Resolved _, db') => (Resolved tt, db')
          | (Rejected e, db') => (Rejected e, db')
          end
      | None => (Rejected (SQLError SQLite.NOTNULL_schedules), db st)
      end
  end.

Definition handleFormSubmit (scheduleData : PartialSchedule.t) (now : string)
    (st : State) : Shown * State :=
  match user st with
  | None => (nothing, st)
  | Some u =>
      match save scheduleData now u st with
      | (Resolved _, db') =>
          loadSchedules (mkState db' (user st) (schedules st) false None)
      | (Rejected _, db') =>
          (alert "Error" "Failed to save schedule",
           mkState db' (user st) (schedules st) (showForm st) (editingSchedule st))
      end
  end.

End ScheduleScreen.

(* ================================================================= *)
(** ** Validation as the specification words it *)

(** Modelled on the wording of the specification, to be compared with
    [ScheduleForm.handleSubmit]: five checks applied in order, the first failure
    wins.  The order is what [validate] is about; in its two range checks the
    number is read as the form reads it, with [parseInt] ([inRange]).  What the
    specification calls an integer is defined further down, without
    [parseInt] ([integerValue]). *)
Module ValidationSpec.

Import ScheduleForm.

Definition inRange (s : string) (hi : Z) : Prop :=
  exists n, JS.parseInt s = Some n /\ 0 <= n <= hi.

Definition inRangeb (s : string) (hi : Z) : bool :=
  match JS.parseInt s with
  | Some n => (0 <=? n) && (n <=? hi)
  | None => false
  end.

Definition check_name (f : FormData) : option ValidationError :=
  if (JS.trim (name f) =? "")%string then Some MissingField_name else None.

Definition check_days (f : FormData) : option ValidationError :=
  match days f with
  | [] => Some MissingField_days
  | _ :: _ => None
  end.

Definition check_times (f : FormData) : option ValidationError :=
  match type f with
  | time =>
      if (startTime f =? "")%string || (endTime f =? "")%string
      then Some MissingField_startTime_endTime else None
  | charge | mileage =>
      if (readyByTime f =? "")%string then Some MissingField_readyByTime else None
  end.

Definition check_chargeLevel (f : FormData) : option ValidationError :=
  match type f with
  | charge =>
      if inRangeb (desiredChargeLevel f) 100 then None
      else Some OutOfRange_desiredChargeLevel
  | time | mileage => None
  end.

Definition check_mileage (f : FormData) : option ValidationError :=
  match type f with
  | mileage =>
      if inRangeb (desiredMileage f) 250 then None
      else Some OutOfRange_desiredMileage
  | time | charge => None
  end.

Definition checks (f : FormData) : list (option ValidationError) :=
  [check_name f; check_days f; check_times f; check_chargeLevel f; check_mileage f].

Fixpoint firstFailure (l : list (option ValidationError)) : option ValidationError :=
  match l with
  | [] => None
  | Some e :: _ => Some e
  | None :: rest => firstFailure rest
  end.

Definition validate (f : FormData) : option ValidationError :=
  firstFailure (checks f).

(** Steps 1 to 3 pass. *)
Definition passesPresence (f : FormData) : Prop :=
  JS.trim (name f) <> "" /\ days f <> [] /\
  match type f with
  | time => startTime f <> "" /\ endTime f <> ""
  | charge | mileage => readyByTime f <> ""
  end.

(** A numeral: the text of the decimal digits [ds]. *)
Definition digitChar (d : Z) : ascii := ascii_of_N (Z.to_N (48 + d)).

Fixpoint numeral (ds : list Z) : string :=
  match ds with
  | [] => EmptyString
  | d :: rest => String (digitChar d) (numeral rest)
  end.

Definition isDigits (ds : list Z) : Prop :=
  ds <> [] /\ Forall (fun d => 0 <= d <= 9) ds.

(** [s] has no digit where [parseInt] looks for the first one. *)
Definition noLeadingDigit (s : string) : Prop :=
  match snd (JS.stripSign (JS.trimStart s)) with
  | String c _ => JS.radixDigit 10 c = None
  | EmptyString => True
  end.

(** *** An integer, in the words of the specification

    The text of a numeric field is an integer when it is a run of decimal
    digits with at most a sign before it.  None of the definitions below uses
    [parseInt]. *)

(** The place of the character [c] in the text [s], counted from [i]. *)
Fixpoint placeIn (c : ascii) (s : string) (i : Z) : option Z :=
  match s with
  | EmptyString => None
  | String d rest => if Ascii.eqb c d then Some i else placeIn c rest (i + 1)
  end.

(** The decimal digit a character is: its place among the ten digits. *)
Definition digitOf (c : ascii) : option Z := placeIn c "0123456789" 0.

(** The number that the digits [s] denote when [acc] is the number denoted by
    the digits before them; [None] when a character of [s] is no digit. *)
Fixpoint digitsValue (acc : Z) (s : string) : option Z :=
  match s with
  | EmptyString => Some acc
  | String c rest =>
      match digitOf c with
      | Some d => digitsValue (10 * acc + d) rest
      | None => None
      end
  end.

(** The number a non-empty run of digits denotes. *)
Definition unsignedValue (s : string) : option Z :=
  match s with
  | EmptyString => None
  | String _ _ => digitsValue 0 s
  end.

(** The text after its sign, if it has one. *)
Definition afterSign (s : string) : string :=
  match s with
  | String "-" rest => rest
  | String "+" rest => rest
  | _ => s
  end.

(** The integer the text [s] is; [None] when [s] is not an integer. *)
Definition integerValue (s : string) : option Z :=
  match s with
  | String "-" rest => option_map Z.opp (unsignedValue rest)
  | _ => unsignedValue (afterSign s)
  end.

(** The range check as the specification states it: the text is an integer
    between 0 and [hi]. *)
Definition integerInRange (s : string) (hi : Z) : Prop :=
  exists n, integerValue s = Some n /\ 0 <= n <= hi.

(** White space: TAB, LF, VT, FF, CR, SP and NBSP. *)
Definition spaceChars : list ascii :=
  ["009"; "010"; "011"; "012"; "013"; " "; "160"]%char.

Definition isSpace (c : ascii) : bool := existsb (Ascii.eqb c) spaceChars.

Fixpoint spaces (s : string) : bool :=
  match s with
  | EmptyString => true
  | String c rest => isSpace c && spaces rest
  end.

Definition startsWithSpace (s : string) : bool :=
  match s with
  | String c _ => isSpace c
  | EmptyString => false
  end.

Definition startsWithDigit (s : string) : bool :=
  match s with
  | String c _ => match digitOf c with Some _ => true | None => false end
  | EmptyString => false
  end.

(** The integer text [t] ends where [rest] begins: [rest] does not go on with a
    digit, nor with the [x] that after a lone 0 announces hexadecimal
    digits. *)
Definition endsAt (t rest : string) : Prop :=
  startsWithDigit rest = false
  /\ (afterSign t = "0" ->
      match rest with
      | String c _ => c <> "x"%char /\ c <> "X"%char
      | EmptyString => True
      end).

(** The text [s] begins with the integer [n]: white space, then an integer
    text, then anything that does not continue it. *)
Definition beginsWithInteger (s : string) (n : Z) : Prop :=
  exists ws t rest,
    s = (ws ++ t ++ rest)%string
    /\ spaces ws = true /\ integerValue t = Some n /\ endsAt t rest.

(** The text [s] begins with no integer: after its white space and a sign, if
    there is one, comes no digit. *)
Definition beginsWithNoInteger (s : string) : Prop :=
  exists ws rest,
    s = (ws ++ rest)%string
    /\ spaces ws = true /\ startsWithSpace rest = false
    /\ startsWithDigit (afterSign rest) = false.

End ValidationSpec.

(* ================================================================= *)
(** ** Properties of the validation *)

Section ValidationFacts.

Import ScheduleForm ValidationSpec.

Lemma truthy_true_iff (s : string) : JS.truthy s = true <-> s <> "".
Proof.
  unfold JS.truthy. rewrite negb_true_iff. apply String.eqb_neq.
Qed.

Lemma truthy_false_iff (s : string) : JS.truthy s = false <-> s = "".
Proof.
  unfold JS.truthy. rewrite negb_false_iff. apply String.eqb_eq.
Qed.

Lemma outOfRange_inRangeb (s : string) (hi : Z) :
  outOfRange (JS.parseInt s) hi = negb (inRangeb s hi).
Proof.
  unfold outOfRange, inRangeb. destruct (JS.parseInt s) as [n|]; [|reflexivity].
  rewrite negb_andb. f_equal.
  - rewrite Z.leb_antisym. now rewrite negb_involutive.
  - rewrite Z.gtb_ltb, Z.leb_antisym. now rewrite negb_involutive.
Qed.

Lemma inRangeb_spec (s : string) (hi : Z) : inRangeb s hi = true <-> inRange s hi.
Proof.
  unfold inRangeb, inRange. destruct (JS.parseInt s) as [n|].
  - rewrite andb_true_iff, !Z.leb_le. split.
    + intros H. exists n. auto.
    + intros (m & Hm & H). now injection Hm as ->.
  - split; [discriminate|]. now intros (m & Hm & _).
Qed.

Lemma outOfRange_true_iff (s : string) (hi : Z) :
  outOfRange (JS.parseInt s) hi = true <-> ~ inRange s hi.
Proof.
  rewrite outOfRange_inRangeb, negb_true_iff, <- inRangeb_spec.
  now destruct (inRangeb s hi).
Qed.

Lemma length_eqb_0 {A : Type} (l : list A) :
  (List.length l =? 0)%nat = true <-> l = [].
Proof. destruct l; simpl; split; congruence. Qed.

(** [handleSubmit] once the presence checks are known to pass. *)
Lemma handleSubmit_charge (f : FormData) :
  passesPresence f -> type f = charge ->
  handleSubmit f =
    if outOfRange (JS.parseInt (desiredChargeLevel f)) 100
    then alertOf OutOfRange_desiredChargeLevel
    else Submit
      (PartialSchedule.mk None None (Some charge) (Some (JS.trim (name f)))
         (Some (JS.JSON_stringify (days f))) None None (Some (readyByTime f))
         (JS.parseInt (desiredChargeLevel f)) None (Some true) None).
Proof.
  intros (Hn & Hd & Ht) Hty. rewrite Hty in Ht.
  apply truthy_true_iff in Hn, Ht.
  unfold handleSubmit. rewrite Hty, Hn, Ht. simpl.
  destruct (days f) as [|d ds]; [congruence|]. simpl.
  now destruct (outOfRange _ 100).
Qed.

Lemma handleSubmit_mileage (f : FormData) :
  passesPresence f -> type f = mileage ->
  handleSubmit f =
    if outOfRange (JS.parseInt (desiredMileage f)) 250
    then alertOf OutOfRange_desiredMileage
    else Submit
      (PartialSchedule.mk None None (Some mileage) (Some (JS.trim (name f)))
         (Some (JS.JSON_stringify (days f))) None None (Some (readyByTime f))
         None (JS.parseInt (desiredMileage f)) (Some true) None).
Proof.
  intros (Hn & Hd & Ht) Hty. rewrite Hty in Ht.
  apply truthy_true_iff in Hn, Ht.
  unfold handleSubmit. rewrite Hty, Hn, Ht. simpl.
  destruct (days f) as [|d ds]; [congruence|]. simpl.
  now destruct (outOfRange _ 250).
Qed.

Lemma handleSubmit_time (f : FormData) :
  passesPresence f -> type f = time ->
  handleSubmit f =
    Submit
      (PartialSchedule.mk None None (Some time) (Some (JS.trim (name f)))
         (Some (JS.JSON_stringify (days f))) (Some (startTime f))
         (Some (endTime f)) None None None (Some true) None).
Proof.
  intros (Hn & Hd & Ht) Hty. rewrite Hty in Ht. destruct Ht as [Hs He].
  apply truthy_true_iff in Hn, Hs, He.
  unfold handleSubmit. rewrite Hty, Hn, Hs, He. simpl.
  destruct (days f) as [|d ds]; [congruence|]. reflexivity.
Qed.

(** [parseInt] on a few texts: the integer part of a fraction, a signed number
    behind white space with a unit after it, the hexadecimal prefix, and three
    texts it cannot read. *)
Example parseInt_examples :
  JS.parseInt "2.5" = Some 2
  /\ JS.parseInt "  -12px" = Some (-12)
  /\ JS.parseInt "0x1f" = Some 31
  /\ JS.parseInt "100" = Some 100
  /\ JS.parseInt "" = None
  /\ JS.parseInt "abc" = None
  /\ JS.parseInt ".5" = None.
Proof. repeat split. Qed.

Example trim_examples :
  JS.trim "  Night shift  " = "Night shift" /\ JS.trim "   " = "".
Proof. split; reflexivity. Qed.

(** The alerts tell the failures apart. *)
Lemma alertOf_injective (e1 e2 : ValidationError) :
  alertOf e1 = alertOf e2 -> e1 = e2.
Proof. destruct e1, e2; simpl; intros H; try reflexivity; discriminate H. Qed.

Lemma alertOf_not_Submit (e : ValidationError) (p : PartialSchedule.t) :
  alertOf e <> Submit p.
Proof. destruct e; discriminate. Qed.

(** *** [parseInt] on numerals *)

Ltac digit_cases d H :=
  assert (d = 0 \/ d = 1 \/ d = 2 \/ d = 3 \/ d = 4 \/ d = 5 \/ d = 6 \/ d = 7
          \/ d = 8 \/ d = 9) as digit_cases_H by lia;
  clear H;
  repeat (destruct digit_cases_H as [digit_cases_H | digit_cases_H]);
  subst d.

Lemma radixDigit_digitChar (d : Z) :
  0 <= d <= 9 -> JS.radixDigit 10 (digitChar d) = Some d.
Proof. intros H. digit_cases d H; reflexivity. Qed.

Lemma radixDigit_point : JS.radixDigit 10 "." = None.
Proof. reflexivity. Qed.

Lemma digitsPrefix_numeral (ds : list Z) (frac : string) :
  Forall (fun d => 0 <= d <= 9) ds ->
  JS.digitsPrefix 10 (numeral ds ++ String "." frac)%string = ds.
Proof.
  induction 1 as [|d ds Hd _ IH]; simpl.
  - reflexivity.
  - rewrite (radixDigit_digitChar d Hd). now rewrite IH.
Qed.

Lemma trimStart_numeral (d : Z) (s : string) :
  0 <= d <= 9 -> JS.trimStart (String (digitChar d) s) = String (digitChar d) s.
Proof. intros H. digit_cases d H; reflexivity. Qed.

Lemma stripSign_numeral (d : Z) (s : string) :
  0 <= d <= 9 -> JS.stripSign (String (digitChar d) s) = (1, String (digitChar d) s).
Proof. intros H. digit_cases d H; reflexivity. Qed.

Lemma stripPrefix_numeral (ds : list Z) (frac : string) :
  Forall (fun d => 0 <= d <= 9) ds ->
  JS.stripPrefix (numeral ds ++ String "." frac)%string
  = (10, (numeral ds ++ String "." frac)%string).
Proof.
  intros H. destruct H as [|d ds Hd Hds]; [reflexivity|].
  destruct Hds as [|d' ds Hd' _]; simpl.
  - digit_cases d Hd; reflexivity.
  - digit_cases d Hd; try reflexivity. digit_cases d' Hd'; reflexivity.
Qed.

Lemma parseInt_numeral (ds : list Z) (frac : string) :
  isDigits ds ->
  JS.parseInt (numeral ds ++ String "." frac)%string = Some (JS.mathInt 10 ds).
Proof.
  intros [Hne Hds]. unfold JS.parseInt.
  destruct ds as [|d ds]; [congruence|].
  pose proof (Forall_inv Hds) as Hd.
  change (numeral (d :: ds) ++ String "." frac)%string
    with (String (digitChar d) (numeral ds ++ String "." frac)%string).
  rewrite trimStart_numeral, stripSign_numeral by exact Hd.
  change (String (digitChar d) (numeral ds ++ String "." frac)%string)
    with (numeral (d :: ds) ++ String "." frac)%string.
  rewrite stripPrefix_numeral, digitsPrefix_numeral by exact Hds.
  now rewrite Z.mul_1_l.
Qed.

Lemma fold_digits_nonneg (ds : list Z) (acc : Z) :
  Forall (fun d => 0 <= d <= 9) ds -> 0 <= acc ->
  0 <= fold_left (fun a d => a * 10 + d) ds acc.
Proof.
  intros H. revert acc. induction H as [|d ds Hd _ IH]; simpl; intros acc Hacc.
  - exact Hacc.
  - apply IH. lia.
Qed.

Lemma mathInt_nonneg (ds : list Z) :
  Forall (fun d => 0 <= d <= 9) ds -> 0 <= JS.mathInt 10 ds.
Proof. intros H. apply fold_digits_nonneg; [exact H | lia]. Qed.

Lemma outOfRange_numeral (ds : list Z) (frac : string) (hi : Z) :
  isDigits ds ->
  outOfRange (JS.parseInt (numeral ds ++ String "." frac)%string) hi
  = (hi <? JS.mathInt 10 ds).
Proof.
  intros H. rewrite (parseInt_numeral ds frac H). simpl.
  pose proof (mathInt_nonneg ds (proj2 H)) as Hv.
  rewrite Z.gtb_ltb. destruct (Z.ltb_spec (JS.mathInt 10 ds) 0); [lia|reflexivity].
Qed.

(** *** [parseInt] where no digit leads *)

Lemma stripPrefix_no_digit (c : ascii) (r : string) :
  JS.radixDigit 10 c = None -> JS.stripPrefix (String c r) = (10, String c r).
Proof.
  destruct c as [b0 b1 b2 b3 b4 b5 b6 b7].
  destruct b0, b1, b2, b3, b4, b5, b6, b7; try reflexivity; discriminate.
Qed.

Lemma parseInt_noLeadingDigit (s : string) :
  noLeadingDigit s -> JS.parseInt s = None.
Proof.
  unfold noLeadingDigit, JS.parseInt.
  destruct (JS.stripSign (JS.trimStart s)) as [sign s1]. simpl.
  destruct s1 as [|c r]; [reflexivity|]. intros Hc.
  rewrite (stripPrefix_no_digit c r Hc). simpl. now rewrite Hc.
Qed.

(** *** [parseInt] on texts that begin with an integer *)

Lemma radixDigit_digitOf (c : ascii) : JS.radixDigit 10 c = digitOf c.
Proof.
  destruct c as [b0 b1 b2 b3 b4 b5 b6 b7].
  destruct b0, b1, b2, b3, b4, b5, b6, b7; reflexivity.
Qed.

Lemma isWhiteSpace_isSpace (c : ascii) : JS.isWhiteSpace c = isSpace c.
Proof.
  destruct c as [b0 b1 b2 b3 b4 b5 b6 b7].
  destruct b0, b1, b2, b3, b4, b5, b6, b7; reflexivity.
Qed.

Lemma trimStart_spaces (ws s : string) :
  spaces ws = true -> JS.trimStart (ws ++ s) = JS.trimStart s.
Proof.
  induction ws as [|c ws IH]; simpl; [reflexivity|].
  rewrite andb_true_iff, isWhiteSpace_isSpace. intros [-> H]. now apply IH.
Qed.

Lemma trimStart_no_space (s : string) :
  startsWithSpace s = false -> JS.trimStart s = s.
Proof.
  destruct s as [|c s]; simpl; [reflexivity|].
  rewrite isWhiteSpace_isSpace. now intros ->.
Qed.

Lemma stripSign_afterSign (s : string) : snd (JS.stripSign s) = afterSign s.
Proof.
  destruct s as [|c s]; [reflexivity|].
  destruct c as [b0 b1 b2 b3 b4 b5 b6 b7].
  destruct b0, b1, b2, b3, b4, b5, b6, b7; reflexivity.
Qed.

(** The digits [parseInt] collects from a run of digits and what follows it,
    folded into a number, are the number the run denotes. *)
Lemma digitsPrefix_digitsValue (d rest : string) (acc m : Z) :
  digitsValue acc d = Some m -> startsWithDigit rest = false ->
  fold_left (fun a x => a * 10 + x) (JS.digitsPrefix 10 (d ++ rest)) acc = m.
Proof.
  revert acc. induction d as [|c d IH]; simpl; intros acc Hv Hrest.
  - injection Hv as <-. destruct rest as [|c r]; [reflexivity|]. simpl in *.
    rewrite radixDigit_digitOf. now destruct (digitOf c).
  - rewrite radixDigit_digitOf. destruct (digitOf c) as [x|]; [|discriminate].
    simpl. replace (acc * 10 + x) with (10 * acc + x) by lia. now apply IH.
Qed.

Lemma digitsPrefix_not_nil (c : ascii) (s : string) :
  startsWithDigit (String c s) = true -> JS.digitsPrefix 10 (String c s) <> [].
Proof.
  simpl. rewrite radixDigit_digitOf. now destruct (digitOf c).
Qed.

Lemma unsignedValue_startsWithDigit (d : string) (m : Z) :
  unsignedValue d = Some m -> startsWithDigit d = true.
Proof.
  destruct d as [|c d]; simpl; [discriminate|]. now destruct (digitOf c).
Qed.

Lemma startsWithDigit_app (d rest : string) :
  startsWithDigit d = true -> startsWithDigit (d ++ rest) = true.
Proof. destruct d; simpl; [discriminate | auto]. Qed.

Lemma startsWithDigit_no_space (s : string) :
  startsWithDigit s = true -> startsWithSpace s = false.
Proof.
  destruct s as [|c s]; simpl; [reflexivity|].
  destruct c as [b0 b1 b2 b3 b4 b5 b6 b7].
  destruct b0, b1, b2, b3, b4, b5, b6, b7; vm_compute; congruence.
Qed.

Lemma startsWithDigit_no_sign (s : string) :
  startsWithDigit s = true -> JS.stripSign s = (1, s).
Proof.
  destruct s as [|c s]; simpl; [reflexivity|].
  destruct c as [b0 b1 b2 b3 b4 b5 b6 b7].
  destruct b0, b1, b2, b3, b4, b5, b6, b7; vm_compute; congruence.
Qed.

(** A run of digits is read in base 10 unless it is a lone 0 with an [x]
    after it. *)
Lemma stripPrefix_digits (d rest : string) (m : Z) :
  unsignedValue d = Some m -> startsWithDigit rest = false ->
  (d = "0" -> match rest with
              | String c _ => c <> "x"%char /\ c <> "X"%char
              | EmptyString => True
              end) ->
  JS.stripPrefix (d ++ rest) = (10, (d ++ rest)%string).
Proof.
  intros Hv Hrest Hx. destruct d as [|c d]; [discriminate|].
  destruct d as [|c' d].
  - destruct rest as [|c' r].
    + destruct c as [b0 b1 b2 b3 b4 b5 b6 b7].
      destruct b0, b1, b2, b3, b4, b5, b6, b7; reflexivity.
    + destruct (Ascii.eqb_spec c "0"%char) as [->|Hc].
      * destruct (Hx eq_refl) as [H1 H2]. simpl.
        destruct c' as [b0 b1 b2 b3 b4 b5 b6 b7].
        destruct b0, b1, b2, b3, b4, b5, b6, b7; try reflexivity; congruence.
      * simpl. destruct c as [b0 b1 b2 b3 b4 b5 b6 b7].
        destruct b0, b1, b2, b3, b4, b5, b6, b7; try reflexivity; congruence.
  - simpl in Hv. destruct (digitOf c); [|discriminate].
    destruct (digitOf c') eqn:Hc'; [|discriminate]. simpl.
    destruct c as [b0 b1 b2 b3 b4 b5 b6 b7].
    destruct b0, b1, b2, b3, b4, b5, b6, b7; try reflexivity;
      destruct c' as [a0 a1 a2 a3 a4 a5 a6 a7];
      destruct a0, a1, a2, a3, a4, a5, a6, a7; try reflexivity; discriminate Hc'.
Qed.

(** [parseInt] after the white space and the sign. *)
Lemma parseInt_unsigned (sign : Z) (d rest : string) (m : Z) :
  unsignedValue d = Some m -> startsWithDigit rest = false ->
  (d = "0" -> match rest with
              | String c _ => c <> "x"%char /\ c <> "X"%char
              | EmptyString => True
              end) ->
  (let '(R, s2) := JS.stripPrefix (d ++ rest) in
   match JS.digitsPrefix R s2 with
   | [] => None
   | ds => Some (sign * JS.mathInt R ds)
   end) = Some (sign * m).
Proof.
  intros Hv Hrest Hx. rewrite (stripPrefix_digits d rest m Hv Hrest Hx).
  pose proof (unsignedValue_startsWithDigit d m Hv) as Hd.
  assert (Hm : JS.mathInt 10 (JS.digitsPrefix 10 (d ++ rest)) = m).
  { unfold JS.mathInt. apply digitsPrefix_digitsValue; [|exact Hrest].
    destruct d; [discriminate | exact Hv]. }
  destruct (JS.digitsPrefix 10 (d ++ rest)) as [|x ds] eqn:E.
  - destruct d as [|c d]; [discriminate|].
    exfalso. apply (digitsPrefix_not_nil c (d ++ rest)); [|exact E].
    exact (startsWithDigit_app (String c d) rest Hd).
  - now rewrite Hm.
Qed.

Lemma parseInt_integer (t rest : string) (n : Z) :
  integerValue t = Some n -> endsAt t rest -> JS.parseInt (t ++ rest) = Some n.
Proof.
  intros Hv [Hrest Hx]. unfold JS.parseInt.
  destruct t as [|c t]; [discriminate|].
  destruct (Ascii.eqb_spec c "-"%char) as [->|Hminus].
  - simpl in Hv, Hx. destruct (unsignedValue t) as [m|] eqn:Hm; [|discriminate].
    injection Hv as <-.
    change (JS.trimStart (String "-" t ++ rest))
      with (String "-"%char (t ++ rest)).
    change (JS.stripSign (String "-"%char (t ++ rest))) with (-1, (t ++ rest)%string).
    cbv beta iota.
    rewrite (parseInt_unsigned (-1) t rest m Hm Hrest Hx). f_equal; lia.
  - destruct (Ascii.eqb_spec c "+"%char) as [->|Hplus].
    + simpl in Hv, Hx.
      change (JS.trimStart (String "+" t ++ rest))
        with (String "+"%char (t ++ rest)).
      change (JS.stripSign (String "+"%char (t ++ rest))) with (1, (t ++ rest)%string).
      cbv beta iota.
      rewrite (parseInt_unsigned 1 t rest n Hv Hrest Hx). f_equal; lia.
    + assert (Ha : afterSign (String c t) = String c t).
      { destruct c as [b0 b1 b2 b3 b4 b5 b6 b7].
        destruct b0, b1, b2, b3, b4, b5, b6, b7; try reflexivity; congruence. }
      assert (Hu : unsignedValue (String c t) = Some n).
      { revert Hv. unfold integerValue. rewrite Ha.
        destruct c as [b0 b1 b2 b3 b4 b5 b6 b7].
        destruct b0, b1, b2, b3, b4, b5, b6, b7; try (intros H; exact H); congruence. }
      rewrite Ha in Hx.
      pose proof (unsignedValue_startsWithDigit _ _ Hu) as Hd.
      pose proof (startsWithDigit_app _ rest Hd) as Hd'.
      rewrite (trimStart_no_space _ (startsWithDigit_no_space _ Hd')).
      rewrite (startsWithDigit_no_sign _ Hd').
      cbv beta iota.
      rewrite (parseInt_unsigned 1 (String c t) rest n Hu Hrest Hx). f_equal; lia.
Qed.

Lemma integerValue_no_space (t : string) (n : Z) :
  integerValue t = Some n -> forall rest, startsWithSpace (t ++ rest) = false.
Proof.
  intros Hv rest. destruct t as [|c t]; [discriminate|]. simpl.
  destruct (isSpace c) eqn:Hc; [|reflexivity]. exfalso. revert Hv Hc.
  destruct c as [b0 b1 b2 b3 b4 b5 b6 b7].
  destruct b0, b1, b2, b3, b4, b5, b6, b7; simpl; try discriminate;
    unfold integerValue; simpl; discriminate.
Qed.

(** A text that begins with an integer is read by [parseInt] as that
    integer. *)
Lemma parseInt_beginsWithInteger (s : string) (n : Z) :
  beginsWithInteger s n -> JS.parseInt s = Some n.
Proof.
  intros (ws & t & rest & -> & Hws & Hv & Hend).
  pose proof (parseInt_integer t rest n Hv Hend) as H.
  unfold JS.parseInt in *. rewrite (trimStart_spaces ws _ Hws). exact H.
Qed.

(** A text that is an integer begins with it. *)
Lemma integerValue_begins (s : string) (n : Z) :
  integerValue s = Some n -> beginsWithInteger s n.
Proof.
  intros H. exists "", s, "". repeat split; try assumption.
  symmetry. clear H. induction s; simpl in *; congruence.
Qed.

(** A text that begins with no integer is not read by [parseInt]. *)
Lemma parseInt_beginsWithNoInteger (s : string) :
  beginsWithNoInteger s -> JS.parseInt s = None.
Proof.
  intros (ws & rest & -> & Hws & Hsp & Hd). apply parseInt_noLeadingDigit.
  unfold noLeadingDigit. rewrite (trimStart_spaces ws _ Hws).
  rewrite (trimStart_no_space _ Hsp), stripSign_afterSign.
  destruct (afterSign rest) as [|c r]; [exact I|]. simpl in Hd.
  rewrite radixDigit_digitOf. now destruct (digitOf c).
Qed.

End ValidationFacts.

Section ValidationClaims.

Import ScheduleForm ValidationSpec.

(** The range checks in terms of [parseInt]: on a submission that passes the
    presence checks, the alert is shown exactly when [parseInt] reads no number
    between the bounds from the text. *)
Lemma handleSubmit_range_parseInt (f : FormData) (Hp : passesPresence f) :
  (type f = charge ->
     (handleSubmit f = alertOf OutOfRange_desiredChargeLevel
      <-> ~ inRange (desiredChargeLevel f) 100))
  /\
  (type f = mileage ->
     (handleSubmit f = alertOf OutOfRange_desiredMileage
      <-> ~ inRange (desiredMileage f) 250)).
Proof.
  split; intros Hty.
  - rewrite (handleSubmit_charge f Hp Hty). split.
    + intros H. apply outOfRange_true_iff.
      destruct (outOfRange _ 100); [reflexivity | discriminate H].
    + intros H. apply outOfRange_true_iff in H. now rewrite H.
  - rewrite (handleSubmit_mileage f Hp Hty). split.
    + intros H. apply outOfRange_true_iff.
      destruct (outOfRange _ 250); [reflexivity | discriminate H].
    + intros H. apply outOfRange_true_iff in H. now rewrite H.
Qed.

Definition chargeForm (level : string) : FormData :=
  mkFormData "Night" charge ["Monday"; "Wednesday"] "" "" "07:00" level "".

Definition mileageForm (miles : string) : FormData :=
  mkFormData "Trip" mileage ["Friday"] "" "" "06:30" "" miles.

Lemma chargeForm_passesPresence (level : string) : passesPresence (chargeForm level).
Proof. repeat split; discriminate. Qed.

Lemma mileageForm_passesPresence (miles : string) : passesPresence (mileageForm miles).
Proof. repeat split; discriminate. Qed.

(** The range check of the submission [f] is decided by the number [n]: the
    alert for [e] is shown exactly when [n] is outside [0, hi], and otherwise
    [f] is submitted with [n] in the field. *)
Definition decidedBy (f : FormData) (n hi : Z) (e : ValidationError)
    (field : PartialSchedule.t -> option Z) : Prop :=
  (handleSubmit f = alertOf e <-> ~ 0 <= n <= hi)
  /\ (0 <= n <= hi ->
      exists p, handleSubmit f = Submit p /\ field p = Some n).

Lemma outOfRange_Some (n hi : Z) :
  outOfRange (Some n) hi = true <-> ~ 0 <= n <= hi.
Proof.
  unfold outOfRange. rewrite orb_true_iff, Z.ltb_lt, Z.gtb_ltb, Z.ltb_lt. lia.
Qed.

Lemma decidedBy_charge (f : FormData) (n : Z) :
  passesPresence f -> type f = charge ->
  JS.parseInt (desiredChargeLevel f) = Some n ->
  decidedBy f n 100 OutOfRange_desiredChargeLevel PartialSchedule.desiredChargeLevel.
Proof.
  intros Hp Hty Hn. unfold decidedBy. rewrite (handleSubmit_charge f Hp Hty), Hn.
  pose proof (outOfRange_Some n 100) as Ho.
  destruct (outOfRange (Some n) 100); split.
  - split; [intros _; now apply Ho | reflexivity].
  - intros H. exfalso. now apply (proj1 Ho).
  - split; [discriminate | intros H; apply Ho in H; discriminate H].
  - intros _. eexists. split; reflexivity.
Qed.

Lemma decidedBy_mileage (f : FormData) (n : Z) :
  passesPresence f -> type f = mileage ->
  JS.parseInt (desiredMileage f) = Some n ->
  decidedBy f n 250 OutOfRange_desiredMileage PartialSchedule.desiredMileage.
Proof.
  intros Hp Hty Hn. unfold decidedBy. rewrite (handleSubmit_mileage f Hp Hty), Hn.
  pose proof (outOfRange_Some n 250) as Ho.
  destruct (outOfRange (Some n) 250); split.
  - split; [intros _; now apply Ho | reflexivity].
  - intros H. exfalso. now apply (proj1 Ho).
  - split; [discriminate | intros H; apply Ho in H; discriminate H].
  - intros _. eexists. split; reflexivity.
Qed.

(** C4, as stated, fails: "80%" is not an integer, so it does not parse as an
    integer in [0,100], and yet validation does not fail: the submission goes
    through with charge level 80.  Likewise "120 miles" as a mileage. *)
Lemma range_check_accepts_non_integer :
  integerValue "80%" = None
  /\ ~ integerInRange "80%" 100
  /\ handleSubmit (chargeForm "80%") <> alertOf OutOfRange_desiredChargeLevel
  /\ (exists p, handleSubmit (chargeForm "80%") = Submit p
                /\ PartialSchedule.desiredChargeLevel p = Some 80)
  /\ integerValue "120 miles" = None
  /\ ~ integerInRange "120 miles" 250
  /\ handleSubmit (mileageForm "120 miles") <> alertOf OutOfRange_desiredMileage
  /\ (exists p, handleSubmit (mileageForm "120 miles") = Submit p
                /\ PartialSchedule.desiredMileage p = Some 120).
Proof.
  repeat apply conj.
  - reflexivity.
  - intros (n & H & _). discriminate H.
  - discriminate.
  - eexists. split; reflexivity.
  - reflexivity.
  - intros (n & H & _). discriminate H.
  - discriminate.
  - eexists. split; reflexivity.
Qed.

(** C4, amended.  On a submission that passes the presence checks (name, days,
    ready-by time), the range check of [type = charge] reads the integer the
    text of desiredChargeLevel begins with, after white space, and ignores what
    follows it: validation fails with OutOfRange(desiredChargeLevel) exactly
    when that integer is outside [0,100].  So a text that is an integer fails
    exactly when it is outside [0,100], with "0" and "100" accepted; a text
    that begins with no integer fails; and whatever is submitted carries a
    level in [0,100].  Likewise for [type = mileage], desiredMileage and
    [0,250], with "0" and "250" accepted. *)
Theorem range_checks_leading_integer (f : FormData) (Hp : passesPresence f) :
  (type f = charge ->
     (forall n, beginsWithInteger (desiredChargeLevel f) n ->
        decidedBy f n 100 OutOfRange_desiredChargeLevel
          PartialSchedule.desiredChargeLevel)
     /\ (forall n, integerValue (desiredChargeLevel f) = Some n ->
           decidedBy f n 100 OutOfRange_desiredChargeLevel
             PartialSchedule.desiredChargeLevel)
     /\ (beginsWithNoInteger (desiredChargeLevel f) ->
         handleSubmit f = alertOf OutOfRange_desiredChargeLevel)
     /\ (forall p, handleSubmit f = Submit p ->
           exists n, PartialSchedule.desiredChargeLevel p = Some n /\ 0 <= n <= 100)
     /\ (desiredChargeLevel f = "0" ->
         exists p, handleSubmit f = Submit p
                   /\ PartialSchedule.desiredChargeLevel p = Some 0)
     /\ (desiredChargeLevel f = "100" ->
         exists p, handleSubmit f = Submit p
                   /\ PartialSchedule.desiredChargeLevel p = Some 100))
  /\
  (type f = mileage ->
     (forall n, beginsWithInteger (desiredMileage f) n ->
        decidedBy f n 250 OutOfRange_desiredMileage PartialSchedule.desiredMileage)
     /\ (forall n, integerValue (desiredMileage f) = Some n ->
           decidedBy f n 250 OutOfRange_desiredMileage PartialSchedule.desiredMileage)
     /\ (beginsWithNoInteger (desiredMileage f) ->
         handleSubmit f = alertOf OutOfRange_desiredMileage)
     /\ (forall p, handleSubmit f = Submit p ->
           exists n, PartialSchedule.desiredMileage p = Some n /\ 0 <= n <= 250)
     /\ (desiredMileage f = "0" ->
         exists p, handleSubmit f = Submit p
                   /\ PartialSchedule.desiredMileage p = Some 0)
     /\ (desiredMileage f = "250" ->
         exists p, handleSubmit f = Submit p
                   /\ PartialSchedule.desiredMileage p = Some 250)).
Proof.
  split; intros Hty.
  - assert (Hbegins : forall n, beginsWithInteger (desiredChargeLevel f) n ->
              decidedBy f n 100 OutOfRange_desiredChargeLevel
                PartialSchedule.desiredChargeLevel).
    { intros n Hn. apply (decidedBy_charge f n Hp Hty).
      now apply parseInt_beginsWithInteger. }
    assert (Hinteger : forall n, integerValue (desiredChargeLevel f) = Some n ->
              decidedBy f n 100 OutOfRange_desiredChargeLevel
                PartialSchedule.desiredChargeLevel).
    { intros n Hn. apply Hbegins. now apply integerValue_begins. }
    split; [exact Hbegins|]. split; [exact Hinteger|]. split; [|split; [|split]].
    + intros Hno. rewrite (handleSubmit_charge f Hp Hty).
      now rewrite (parseInt_beginsWithNoInteger _ Hno).
    + intros p. rewrite (handleSubmit_charge f Hp Hty).
      destruct (JS.parseInt (desiredChargeLevel f)) as [n|]; [|discriminate].
      pose proof (outOfRange_Some n 100) as Ho.
      destruct (outOfRange (Some n) 100) eqn:E; [discriminate|].
      intros H. injection H as <-. exists n. split; [reflexivity|].
      destruct (Z_le_dec 0 n) as [H0|H0]; [destruct (Z_le_dec n 100) as [H1|H1]|].
      * lia.
      * assert (Hf : false = true) by (apply Ho; lia). discriminate Hf.
      * assert (Hf : false = true) by (apply Ho; lia). discriminate Hf.
    + intros E. apply (Hinteger 0); [now rewrite E | lia].
    + intros E. apply (Hinteger 100); [now rewrite E | lia].
  - assert (Hbegins : forall n, beginsWithInteger (desiredMileage f) n ->
              decidedBy f n 250 OutOfRange_desiredMileage
                PartialSchedule.desiredMileage).
    { intros n Hn. apply (decidedBy_mileage f n Hp Hty).
      now apply parseInt_beginsWithInteger. }
    assert (Hinteger : forall n, integerValue (desiredMileage f) = Some n ->
              decidedBy f n 250 OutOfRange_desiredMileage
                PartialSchedule.desiredMileage).
    { intros n Hn. apply Hbegins. now apply integerValue_begins. }
    split; [exact Hbegins|]. split; [exact Hinteger|]. split; [|split; [|split]].
    + intros Hno. rewrite (handleSubmit_mileage f Hp Hty).
      now rewrite (parseInt_beginsWithNoInteger _ Hno).
    + intros p. rewrite (handleSubmit_mileage f Hp Hty).
      destruct (JS.parseInt (desiredMileage f)) as [n|]; [|discriminate].
      pose proof (outOfRange_Some n 250) as Ho.
      destruct (outOfRange (Some n) 250) eqn:E; [discriminate|].
      intros H. injection H as <-. exists n. split; [reflexivity|].
      destruct (Z_le_dec 0 n) as [H0|H0]; [destruct (Z_le_dec n 250) as [H1|H1]|].
      * lia.
      * assert (Hf : false = true) by (apply Ho; lia). discriminate Hf.
      * assert (Hf : false = true) by (apply Ho; lia). discriminate Hf.
    + intros E. apply (Hinteger 0); [now rewrite E | lia].
    + intros E. apply (Hinteger 250); [now rewrite E | lia].
Qed.

(** On the texts "100" (an integer) and "  80 %" (white space, an integer, a
    space and a sign). *)
Lemma range_checks_leading_integer_witness :
  passesPresence (chargeForm "  80 %")
  /\ (exists p, handleSubmit (chargeForm "  80 %") = Submit p
                /\ PartialSchedule.desiredChargeLevel p = Some 80)
  /\ passesPresence (mileageForm "251")
  /\ handleSubmit (mileageForm "251") = alertOf OutOfRange_desiredMileage.
Proof.
  split; [apply chargeForm_passesPresence|]. split.
  - destruct (range_checks_leading_integer (chargeForm "  80 %")
                (chargeForm_passesPresence "  80 %")) as [Hc _].
    destruct (Hc eq_refl) as (Hbegins & _).
    apply (Hbegins 80); [|lia].
    exists "  ", "80", " %". repeat split; discriminate.
  - split; [apply mileageForm_passesPresence|].
    destruct (range_checks_leading_integer (mileageForm "251")
                (mileageForm_passesPresence "251")) as [_ Hm].
    destruct (Hm eq_refl) as (_ & Hinteger & _).
    apply (Hinteger 251); [reflexivity | lia].
Defined.
(** C5, as stated, fails: the fractional text "2.5" is accepted as charge level
    2 (and as mileage 2), and the non-numeric text "12abc" is accepted as 12. *)
Lemma fractional_input_accepted :
  (exists p, handleSubmit (chargeForm "2.5") = Submit p
             /\ PartialSchedule.desiredChargeLevel p = Some 2)
  /\ (exists p, handleSubmit (mileageForm "2.5") = Submit p
                /\ PartialSchedule.desiredMileage p = Some 2)
  /\ (exists p, handleSubmit (chargeForm "12abc") = Submit p
                /\ PartialSchedule.desiredChargeLevel p = Some 12).
Proof. repeat split; eexists; split; reflexivity. Qed.

(** C5, amended.  On a submission that passes the presence checks, a fractional
    text (decimal digits, a point, anything after) is read as its integer part
    [v]: a [charge] submission is rejected with OutOfRange(desiredChargeLevel)
    exactly when [v > 100] and is otherwise accepted with value [v]; a [mileage]
    submission likewise with 250.  A text with no decimal digit after its leading
    white space and optional sign is rejected, because parsing fails. *)
Theorem fractional_input_truncated
  (f : FormData) (ds : list Z) (frac : string)
  (Hp : passesPresence f) (Hds : isDigits ds) :
  (type f = charge ->
   desiredChargeLevel f = (numeral ds ++ String "." frac)%string ->
     (handleSubmit f = alertOf OutOfRange_desiredChargeLevel
      <-> 100 < JS.mathInt 10 ds)
     /\ (JS.mathInt 10 ds <= 100 ->
         exists p, handleSubmit f = Submit p
                   /\ PartialSchedule.desiredChargeLevel p = Some (JS.mathInt 10 ds)))
  /\
  (type f = mileage ->
   desiredMileage f = (numeral ds ++ String "." frac)%string ->
     (handleSubmit f = alertOf OutOfRange_desiredMileage
      <-> 250 < JS.mathInt 10 ds)
     /\ (JS.mathInt 10 ds <= 250 ->
         exists p, handleSubmit f = Submit p
                   /\ PartialSchedule.desiredMileage p = Some (JS.mathInt 10 ds)))
  /\
  (type f = charge -> noLeadingDigit (desiredChargeLevel f) ->
   JS.parseInt (desiredChargeLevel f) = None
   /\ handleSubmit f = alertOf OutOfRange_desiredChargeLevel)
  /\
  (type f = mileage -> noLeadingDigit (desiredMileage f) ->
   JS.parseInt (desiredMileage f) = None
   /\ handleSubmit f = alertOf OutOfRange_desiredMileage).
Proof.
  repeat apply conj.
  - intros Hty Hs. rewrite (handleSubmit_charge f Hp Hty), Hs.
    rewrite (outOfRange_numeral ds frac 100 Hds), (parseInt_numeral ds frac Hds).
    destruct (Z.ltb_spec 100 (JS.mathInt 10 ds)) as [Hlt|Hle]; split.
    + split; [intros _; exact Hlt | reflexivity].
    + lia.
    + split; [intros H; discriminate H | lia].
    + intros _. eexists. split; reflexivity.
  - intros Hty Hs. rewrite (handleSubmit_mileage f Hp Hty), Hs.
    rewrite (outOfRange_numeral ds frac 250 Hds), (parseInt_numeral ds frac Hds).
    destruct (Z.ltb_spec 250 (JS.mathInt 10 ds)) as [Hlt|Hle]; split.
    + split; [intros _; exact Hlt | reflexivity].
    + lia.
    + split; [intros H; discriminate H | lia].
    + intros _. eexists. split; reflexivity.
  - intros Hty Hs. rewrite (handleSubmit_charge f Hp Hty).
    now rewrite (parseInt_noLeadingDigit _ Hs).
  - intros Hty Hs. rewrite (handleSubmit_mileage f Hp Hty).
    now rewrite (parseInt_noLeadingDigit _ Hs).
Qed.

Lemma fractional_input_truncated_witness :
  (passesPresence (chargeForm "2.5") /\ isDigits [2])
  /\ exists p, handleSubmit (chargeForm "2.5") = Submit p
               /\ PartialSchedule.desiredChargeLevel p = Some 2.
Proof.
  assert (Hds : isDigits [2]).
  { split; [discriminate | repeat constructor; lia]. }
  split.
  - split; [apply chargeForm_passesPresence | exact Hds].
  - destruct (fractional_input_truncated (chargeForm "2.5") [2] "5"
                (chargeForm_passesPresence "2.5") Hds) as [Hc _].
    destruct (Hc eq_refl eq_refl) as [_ Hacc]. apply Hacc.
    vm_compute. discriminate.
Defined.

(** C6.  [handleSubmit] reports the first failure of the five checks taken in
    the order of the specification (name, days, time fields, charge level,
    mileage) and submits when none fails; a submission whose trimmed name is
    empty and whose days are empty is told about the name, not the days. *)
Theorem handleSubmit_first_failure :
  (forall f : FormData,
     match validate f with
     | Some e => handleSubmit f = alertOf e
     | None => exists p, handleSubmit f = Submit p
     end)
  /\ validate (mkFormData "  " time [] "" "" "" "" "") = Some MissingField_name
  /\ handleSubmit (mkFormData "  " time [] "" "" "" "" "")
     = alertOf MissingField_name
  /\ handleSubmit (mkFormData "  " time [] "" "" "" "" "")
     <> alertOf MissingField_days.
Proof.
  split; [|repeat split; discriminate].
  intros f. unfold validate, checks, firstFailure, check_name, check_days,
    check_times, check_chargeLevel, check_mileage, handleSubmit, JS.truthy.
  rewrite !negb_involutive.
  destruct (JS.trim (name f) =? "")%string; [reflexivity|].
  destruct (days f) as [|d ds]; [reflexivity|]. simpl.
  destruct (type f); simpl.
  - destruct (startTime f =? "")%string; [reflexivity|].
    destruct (endTime f =? "")%string; [reflexivity|]. simpl. eauto.
  - destruct (readyByTime f =? "")%string; [reflexivity|].
    rewrite outOfRange_inRangeb.
    destruct (inRangeb (desiredChargeLevel f) 100); simpl; eauto.
  - destruct (readyByTime f =? "")%string; [reflexivity|].
    rewrite outOfRange_inRangeb.
    destruct (inRangeb (desiredMileage f) 250); simpl; eauto.
Qed.

End ValidationClaims.

(* ================================================================= *)
(** ** Facts about the store *)

Section StoreFacts.

Import SQLite.

Lemma max_rowid_ge {A : Type} (rowid : A -> Z) (rows : list A) (r : A) :
  In r rows -> rowid r <= max_rowid rowid rows.
Proof.
  induction rows as [|x rows IH]; simpl; [tauto|].
  intros [->|H]; [lia|]. specialize (IH H). lia.
Qed.

Lemma next_rowid_fresh {A : Type} (rowid : A -> Z) (rows : list A) (seq : Z) (r : A) :
  In r rows -> rowid r <> next_rowid rowid rows seq.
Proof.
  intros H. pose proof (max_rowid_ge rowid rows r H). unfold next_rowid. lia.
Qed.


Lemma filter_none {A : Type} (f : A -> bool) (l : list A) :
  (forall x, In x l -> f x = false) -> filter f l = [].
Proof.
  induction l as [|x l IH]; simpl; intros H; [reflexivity|].
  rewrite (H x (or_introl eq_refl)). apply IH. intros y Hy. apply H. now right.
Qed.

Lemma filter_all {A : Type} (f : A -> bool) (l : list A) :
  (forall x, In x l -> f x = true) -> filter f l = l.
Proof.
  induction l as [|x l IH]; simpl; intros H; [reflexivity|].
  rewrite (H x (or_introl eq_refl)). f_equal. apply IH. intros y Hy. apply H. now right.
Qed.

Lemma map_unchanged {A : Type} (f : A -> A) (l : list A) :
  (forall x, In x l -> f x = x) -> map f l = l.
Proof.
  induction l as [|x l IH]; simpl; intros H; [reflexivity|].
  rewrite (H x (or_introl eq_refl)). f_equal. apply IH. intros y Hy. apply H. now right.
Qed.

Lemma with_id_id (id : Z) (r : Schedule.t) : Schedule.id (with_id id r) = id.
Proof. reflexivity. Qed.

(** The [SELECT] by the rowid just assigned finds the row just inserted. *)
Lemma select_inserted (rows : list Schedule.t) (seq : Z) (row : Schedule.t) :
  let id := next_rowid Schedule.id rows seq in
  filter (fun r => Schedule.id r =? id) (rows ++ [with_id id row]) = [with_id id row].
Proof.
  intros id. rewrite filter_app. simpl. rewrite Z.eqb_refl.
  rewrite filter_none; [reflexivity|].
  intros x Hx. apply Z.eqb_neq. now apply next_rowid_fresh.
Qed.

Lemma count_schedules_app (userId : Z) (db : Db) (row : Schedule.t) (u s : Z) :
  count_schedules userId (mkDb (users db) (schedules db ++ [row]) u s)
  = count_schedules userId db + (if Schedule.userId row =? userId then 1 else 0).
Proof.
  unfold count_schedules. simpl. rewrite filter_app, length_app. simpl.
  destruct (Schedule.userId row =? userId); simpl; lia.
Qed.

Lemma has_user_true_iff (userId : Z) (db : Db) :
  has_user userId db = true <-> exists u, In u (users db) /\ User.id u = userId.
Proof.
  unfold has_user. rewrite existsb_exists.
  split; intros (u & Hin & H); exists u; split; auto; now apply Z.eqb_eq.
Qed.

Lemma has_user_false_iff (userId : Z) (db : Db) :
  has_user userId db = false <-> forall u, In u (users db) -> User.id u <> userId.
Proof.
  split.
  - intros H u Hu E.
    assert (Ht : has_user userId db = true) by (apply has_user_true_iff; eauto).
    congruence.
  - intros H. destruct (has_user userId db) eqn:E; [|reflexivity].
    apply has_user_true_iff in E. destruct E as (u & Hu & E). now apply H in Hu.
Qed.

(** The user just inserted is there for the foreign key. *)
Lemma has_user_inserted (id : Z) (username email password createdAt : string)
      (us : list User.t) (ss : list Schedule.t) (a b : Z) :
  has_user id (mkDb (us ++ [User.mk id username email password createdAt]) ss a b)
  = true.
Proof.
  unfold has_user. simpl. rewrite existsb_app. simpl.
  rewrite Z.eqb_refl. now rewrite orb_true_r.
Qed.

(** The rows an [UPDATE ... WHERE id = ?] has written, when what it writes
    leaves the id alone. *)
Lemma touched_rows (g : Schedule.t -> Schedule.t) (id : Z) (l : list Schedule.t) :
  (forall r, Schedule.id (g r) = Schedule.id r) ->
  filter (fun r => Schedule.id r =? id)
    (map (fun r => if Schedule.id r =? id then g r else r) l)
  = map g (filter (fun r => Schedule.id r =? id) l).
Proof.
  intros Hg. induction l as [|r l IH]; simpl; [reflexivity|].
  destruct (Schedule.id r =? id) eqn:E; simpl.
  - rewrite Hg, E. simpl. now f_equal.
  - now rewrite E.
Qed.

(** *** The order of [ORDER BY createdAt DESC] *)

Lemma string_leb_trans (a b c : string) :
  String.leb a b = true -> String.leb b c = true -> String.leb a c = true.
Proof.
  unfold String.leb.
  destruct (String.compare a b) eqn:Hab; try discriminate; intros _.
  - apply String_as_OT.cmp_eq in Hab. now subst b.
  - destruct (String.compare b c) eqn:Hbc; try discriminate; intros _.
    + apply String_as_OT.cmp_eq in Hbc. subst c. now rewrite Hab.
    + apply String_as_OT.cmp_lt in Hab, Hbc.
      pose proof (String_as_OT.lt_trans _ _ _ Hab Hbc) as Hac.
      apply String_as_OT.cmp_lt in Hac. unfold String_as_OT.cmp in Hac.
      now rewrite Hac.
Qed.

(** [a] comes no later than [b] in the result when it is at least as recent. *)
Definition notOlder (a b : Schedule.t) : Prop :=
  String.leb (Schedule.createdAt b) (Schedule.createdAt a) = true.

Lemma CreatedAtDesc_transitive :
  Transitive (fun a b => is_true (CreatedAtDesc.leb a b)).
Proof.
  intros a b c Hab Hbc. unfold is_true, CreatedAtDesc.leb in *.
  exact (string_leb_trans _ _ _ Hbc Hab).
Qed.

End StoreFacts.

(* ================================================================= *)
(** ** Partial update as the specification words it *)

(** Modelled on the wording of the specification, to be compared with
    [DatabaseService.updateSchedule]: a field present in the payload takes the
    payload's value, a field left out keeps its value, and [id] is never
    written. *)
Module UpdateSpec.

Definition present {A : Type} (new : option A) (old : A) : A :=
  match new with
  | Some v => v
  | None => old
  end.

Definition presentNullable {A : Type} (new : option A) (old : option A) : option A :=
  match new with
  | Some v => Some v
  | None => old
  end.

Definition patch (p : PartialSchedule.t) (r : Schedule.t) : Schedule.t :=
  Schedule.mk
    (Schedule.id r)
    (present (PartialSchedule.userId p) (Schedule.userId r))
    (present (PartialSchedule.type p) (Schedule.type r))
    (present (PartialSchedule.name p) (Schedule.name r))
    (present (PartialSchedule.days p) (Schedule.days r))
    (presentNullable (PartialSchedule.startTime p) (Schedule.startTime r))
    (presentNullable (PartialSchedule.endTime p) (Schedule.endTime r))
    (presentNullable (PartialSchedule.readyByTime p) (Schedule.readyByTime r))
    (presentNullable (PartialSchedule.desiredChargeLevel p)
       (Schedule.desiredChargeLevel r))
    (presentNullable (PartialSchedule.desiredMileage p) (Schedule.desiredMileage r))
    (present (PartialSchedule.isActive p) (Schedule.isActive r))
    (present (PartialSchedule.createdAt p) (Schedule.createdAt r)).

(** The payload names no field to write. *)
Definition nothingToWrite (p : PartialSchedule.t) : Prop :=
  PartialSchedule.userId p = None /\ PartialSchedule.type p = None /\
  PartialSchedule.name p = None /\ PartialSchedule.days p = None /\
  PartialSchedule.startTime p = None /\ PartialSchedule.endTime p = None /\
  PartialSchedule.readyByTime p = None /\
  PartialSchedule.desiredChargeLevel p = None /\
  PartialSchedule.desiredMileage p = None /\
  PartialSchedule.isActive p = None /\ PartialSchedule.createdAt p = None.

(** The payload would hand a stored schedule with the id to an owner that is
    not stored, against the invariant that every schedule references an
    existing user. *)
Definition ownerMissing (id : Z) (p : PartialSchedule.t) (db : SQLite.Db) : Prop :=
  exists v r,
    PartialSchedule.userId p = Some v
    /\ In r (SQLite.schedules db) /\ Schedule.id r = id
    /\ forall u, In u (SQLite.users db) -> User.id u <> v.

End UpdateSpec.

Section UpdateFacts.

Import SQLite UpdateSpec.

Lemma fold_entry {A : Type} (set : A -> Assignment) (v : option A)
      (rest : list Assignment) (r : Schedule.t) :
  fold_left assign (push (column_entry (option_map set v)) ++ rest) r
  = fold_left assign rest (match v with Some x => assign r (set x) | None => r end).
Proof. destruct v; reflexivity. Qed.

(** The assignments built from a payload, applied in turn, write what [patch]
    writes. *)
Lemma fold_assign_patch (p : PartialSchedule.t) (r : Schedule.t) :
  fold_left assign (fieldsAndValues p) r = patch p r.
Proof.
  destruct p as [pid puser ptype pname pdays pstart pend pready plevel pmiles
                   pactive pcreated].
  unfold fieldsAndValues, entries, patch.
  cbn [flat_map PartialSchedule.id PartialSchedule.userId PartialSchedule.type
    PartialSchedule.name PartialSchedule.days PartialSchedule.startTime
    PartialSchedule.endTime PartialSchedule.readyByTime
    PartialSchedule.desiredChargeLevel PartialSchedule.desiredMileage
    PartialSchedule.isActive PartialSchedule.createdAt].
  change (push (id_entry pid)) with (@nil Assignment). rewrite app_nil_l.
  rewrite !fold_entry. cbn [fold_left].
  destruct r as [id userId type name days startTime endTime readyByTime
                   desiredChargeLevel desiredMileage isActive createdAt].
  destruct puser; cbn [assign]; destruct ptype; cbn [assign];
  destruct pname; cbn [assign]; destruct pdays; cbn [assign];
  destruct pstart; cbn [assign]; destruct pend; cbn [assign];
  destruct pready; cbn [assign]; destruct plevel; cbn [assign];
  destruct pmiles; cbn [assign]; destruct pactive; cbn [assign];
  destruct pcreated; reflexivity.
Qed.

Lemma fieldsAndValues_nil (p : PartialSchedule.t) :
  fieldsAndValues p = [] <-> nothingToWrite p.
Proof.
  destruct p as [pid puser ptype pname pdays pstart pend pready plevel pmiles
                   pactive pcreated].
  unfold fieldsAndValues, entries, nothingToWrite; simpl. split.
  - destruct puser, ptype, pname, pdays, pstart, pend, pready, plevel, pmiles,
      pactive, pcreated; simpl; intros H; try discriminate H.
    repeat split.
  - intros (-> & -> & -> & -> & -> & -> & -> & -> & -> & -> & ->). reflexivity.
Qed.

Lemma patch_nothing (p : PartialSchedule.t) (r : Schedule.t) :
  nothingToWrite p -> patch p r = r.
Proof.
  intros H. apply fieldsAndValues_nil in H.
  rewrite <- fold_assign_patch, H. reflexivity.
Qed.

Lemma writes_userId_fields (p : PartialSchedule.t) :
  writes_userId (fieldsAndValues p)
  = match PartialSchedule.userId p with Some _ => true | None => false end.
Proof.
  destruct p as [pid puser ptype pname pdays pstart pend pready plevel pmiles
                   pactive pcreated].
  unfold fieldsAndValues, entries, writes_userId. simpl.
  destruct puser; [reflexivity|]. simpl.
  destruct ptype, pname, pdays, pstart, pend, pready, plevel, pmiles, pactive,
    pcreated; reflexivity.
Qed.

Lemma forallb_map_const {A B : Type} (f : B -> bool) (g : A -> B) (b : bool)
      (l : list A) :
  (forall x, f (g x) = b) -> forallb f (map g l) = match l with [] => true | _ => b end.
Proof.
  intros H. induction l as [|x l IH]; simpl; [reflexivity|].
  rewrite H, IH. destruct b; [|reflexivity]. now destruct l.
Qed.

(** Whether the foreign key lets the [UPDATE] through. *)
Lemma update_schedules_refused (id : Z) (p : PartialSchedule.t) (db : Db) :
  (writes_userId (fieldsAndValues p)
   && negb (forallb (fun r => has_user (Schedule.userId r) db)
              (filter (fun r => Schedule.id r =? id)
                 (map (fun r => if Schedule.id r =? id
                                then fold_left assign (fieldsAndValues p) r else r)
                    (schedules db))))) = true
  <-> ownerMissing id p db.
Proof.
  rewrite writes_userId_fields, touched_rows
    by (intros r; now rewrite fold_assign_patch).
  unfold ownerMissing. destruct (PartialSchedule.userId p) as [v|] eqn:Hv.
  - rewrite (forallb_map_const _ _ (has_user v db))
      by (intros r; rewrite fold_assign_patch; unfold patch; simpl; now rewrite Hv).
    simpl. destruct (filter (fun r => Schedule.id r =? id) (schedules db))
      as [|r rows] eqn:Hrows.
    + split; [discriminate|]. intros (v' & r & _ & Hin & Hid & _). exfalso.
      assert (H : In r (filter (fun r => Schedule.id r =? id) (schedules db))).
      { apply filter_In. split; [exact Hin | now apply Z.eqb_eq]. }
      now rewrite Hrows in H.
    + rewrite negb_true_iff, has_user_false_iff. split.
      * intros Hno. exists v, r. split; [reflexivity|].
        assert (H : In r (filter (fun r => Schedule.id r =? id) (schedules db))).
        { rewrite Hrows. now left. }
        apply filter_In in H. destruct H as [Hin Hid]. apply Z.eqb_eq in Hid. auto.
      * intros (v' & r' & E & _ & _ & Hno). now injection E as <-.
  - simpl. split; [discriminate|]. intros (v & r & E & _). discriminate E.
Qed.

Lemma ownerMissing_dec (id : Z) (p : PartialSchedule.t) (db : Db) :
  ownerMissing id p db \/ ~ ownerMissing id p db.
Proof.
  rewrite <- update_schedules_refused. destruct (_ && _); [now left|].
  right. discriminate.
Qed.

(** [updateSchedule] refused by the foreign key. *)
Lemma updateSchedule_refused (id : Z) (p : PartialSchedule.t) (db : Db) :
  ownerMissing id p db ->
  DatabaseService.updateSchedule id p db
  = (Rejected (SQLError FOREIGNKEY_schedules), db).
Proof.
  intros H. unfold DatabaseService.updateSchedule.
  destruct (List.length (fieldsAndValues p) =? 0)%nat eqn:Hlen.
  - apply length_eqb_0, fieldsAndValues_nil in Hlen.
    destruct H as (v & _ & E & _). destruct Hlen as [Hn _]. congruence.
  - unfold update_schedules.
    apply update_schedules_refused in H. now rewrite H.
Qed.

(** [updateSchedule] let through, in closed form. *)
Lemma updateSchedule_patch (id : Z) (p : PartialSchedule.t) (db : Db) :
  ~ ownerMissing id p db ->
  DatabaseService.updateSchedule id p db
  = (Resolved tt,
     mkDb (users db)
          (map (fun r => if Schedule.id r =? id then patch p r else r) (schedules db))
          (users_seq db) (schedules_seq db)).
Proof.
  intros Hok. unfold DatabaseService.updateSchedule.
  destruct (List.length (fieldsAndValues p) =? 0)%nat eqn:Hlen.
  - apply length_eqb_0, fieldsAndValues_nil in Hlen.
    f_equal. destruct db as [us ss useq sseq]; simpl. f_equal.
    symmetry. apply map_unchanged. intros r _.
    destruct (Schedule.id r =? id); [now apply patch_nothing | reflexivity].
  - unfold update_schedules.
    destruct (_ && _) eqn:E; [now apply update_schedules_refused in E|].
    do 2 f_equal. apply map_ext. intros r. now rewrite fold_assign_patch.
Qed.

(** A payload that names no owner is never refused. *)
Lemma no_owner_not_missing (id : Z) (p : PartialSchedule.t) (db : Db) :
  PartialSchedule.userId p = None -> ~ ownerMissing id p db.
Proof. intros H (v & r & E & _). congruence. Qed.

(** Nor is any payload when no row has the id. *)
Lemma no_row_not_missing (id : Z) (p : PartialSchedule.t) (db : Db) :
  (forall r, In r (schedules db) -> Schedule.id r <> id) -> ~ ownerMissing id p db.
Proof. intros H (v & r & _ & Hin & Hid & _). now apply H in Hin. Qed.

End UpdateFacts.

(* ================================================================= *)
(** ** Properties of the schedule operations *)

Section ScheduleClaims.

Import SQLite UpdateSpec.

(** [createSchedule] for a stored owner below the limit, in closed form. *)
Lemma createSchedule_below_limit (d : NewSchedule.t) (now : string) (db : Db) :
  count_schedules (NewSchedule.userId d) db < 10 ->
  (exists u, In u (users db) /\ User.id u = NewSchedule.userId d) ->
  let id := next_rowid Schedule.id (schedules db) (schedules_seq db) in
  let row := with_id id (insertValues d now) in
  DatabaseService.createSchedule d now db
  = (Resolved (Some row),
     mkDb (users db) (schedules db ++ [row]) (users_seq db) id).
Proof.
  intros Hlt Howner id row. unfold DatabaseService.createSchedule.
  destruct (Z.geb_spec (count_schedules (NewSchedule.userId d) db) 10); [lia|].
  unfold insert_schedule, select_schedules_by_id.
  apply has_user_true_iff in Howner.
  change (Schedule.userId (insertValues d now)) with (NewSchedule.userId d).
  rewrite Howner. simpl.
  fold id. fold row. unfold row, id. now rewrite select_inserted.
Qed.

(** [createSchedule] for an owner that is not stored: the foreign key refuses
    the row. *)
Lemma createSchedule_no_owner (d : NewSchedule.t) (now : string) (db : Db) :
  count_schedules (NewSchedule.userId d) db < 10 ->
  (forall u, In u (users db) -> User.id u <> NewSchedule.userId d) ->
  DatabaseService.createSchedule d now db
  = (Rejected (SQLError FOREIGNKEY_schedules), db).
Proof.
  intros Hlt Hnone. unfold DatabaseService.createSchedule.
  destruct (Z.geb_spec (count_schedules (NewSchedule.userId d) db) 10); [lia|].
  unfold insert_schedule. apply has_user_false_iff in Hnone.
  change (Schedule.userId (insertValues d now)) with (NewSchedule.userId d).
  now rewrite Hnone.
Qed.






Definition demoUser : User.t :=
  User.mk 1 "demo" "demo@andersenev.com" "demo123" "2025-01-01T00:00:00.000Z".

Definition secondUser : User.t :=
  User.mk 2 "ada" "ada@andersenev.com" "secret" "2025-01-01T12:00:00.000Z".

Definition emptyDb : Db := mkDb [] [] 0 0.

(** The user [demo] and no schedule. *)
Definition userDb : Db := mkDb [demoUser] [] 1 0.

Definition weekdays : string := JS.JSON_stringify ["Monday"; "Friday"].

Definition nightCharge (level : Z) : NewSchedule.t :=
  NewSchedule.mk 1 charge "Night" weekdays None None (Some "07:00") (Some level)
    None true.

Definition tripMileage (miles : Z) : NewSchedule.t :=
  NewSchedule.mk 1 mileage "Trip" weekdays None None (Some "06:30") None
    (Some miles) true.

Definition timeRow (id userId : Z) (createdAt : string) : Schedule.t :=
  Schedule.mk id userId time "Morning" weekdays (Some "06:00") (Some "08:00")
    None None None true createdAt.

(** User 1 owns ten schedules. *)
Definition fullDb : Db :=
  mkDb [demoUser]
       (map (fun i => timeRow i 1 "2025-01-01T00:00:00.000Z")
          [1; 2; 3; 4; 5; 6; 7; 8; 9; 10]) 1 10.

Lemma demoUser_stored (rest : list User.t) (ss : list Schedule.t) (a b : Z) :
  exists u, In u (users (mkDb (demoUser :: rest) ss a b)) /\ User.id u = 1.
Proof. exists demoUser. split; [now left | reflexivity]. Qed.


(** The older copy of the service has no table to write to: [createSchedule]
    is rejected whatever the owner's count, and [updateSchedule] resolves only
    when there is nothing to write.  The store is left as it was. *)
Lemma legacy_schedules_rejected
  (d : NewSchedule.t) (now : string) (id : Z) (p : PartialSchedule.t) (db : Db) :
  LegacyDatabaseService.createSchedule d now db
  = (Rejected (SQLError NOSUCHTABLE_schedules), db)
  /\ snd (LegacyDatabaseService.updateSchedule id p db) = db
  /\ (fst (LegacyDatabaseService.updateSchedule id p db) = Resolved tt
      <-> nothingToWrite p).
Proof.
  split; [reflexivity|]. unfold LegacyDatabaseService.updateSchedule.
  destruct (List.length (fieldsAndValues p) =? 0)%nat eqn:Hlen.
  - apply length_eqb_0, fieldsAndValues_nil in Hlen. simpl. tauto.
  - simpl. split; [reflexivity|]. split; [discriminate|].
    intros H. apply fieldsAndValues_nil in H. rewrite H in Hlen. discriminate Hlen.
Qed.

(** C1, at the boundary.  For a stored owner below the limit, [createSchedule]
    followed by [getSchedulesByUserId] gives back the created row, and that row
    has a NULL desiredChargeLevel when 0 was submitted and a NULL desiredMileage
    when 0 was submitted: [0 || null] is [null], so the submitted value is
    lost. *)
Theorem createSchedule_zero_stored_as_null
  (d : NewSchedule.t) (now : string) (db : Db)
  (Hbelow : count_schedules (NewSchedule.userId d) db < 10)
  (Howner : exists u, In u (users db) /\ User.id u = NewSchedule.userId d) :
  exists row l,
    fst (DatabaseService.createSchedule d now db) = Resolved (Some row)
    /\ fst (DatabaseService.getSchedulesByUserId (NewSchedule.userId d)
              (snd (DatabaseService.createSchedule d now db))) = Resolved l
    /\ In row l
    /\ Schedule.type row = NewSchedule.type d
    /\ (NewSchedule.desiredChargeLevel d = Some 0 ->
        Schedule.desiredChargeLevel row = None)
    /\ (NewSchedule.desiredMileage d = Some 0 ->
        Schedule.desiredMileage row = None).
Proof.
  rewrite (createSchedule_below_limit d now db Hbelow Howner).
  do 2 eexists. split; [reflexivity|]. split; [reflexivity|]. split.
  - apply (Permutation_in _ (Sorter.Permuted_sort _)).
    apply filter_In. split.
    + simpl. apply in_or_app. right. left. reflexivity.
    + simpl. apply Z.eqb_refl.
  - simpl. repeat split; intros ->; reflexivity.
Qed.

Lemma createSchedule_zero_stored_as_null_witness :
  count_schedules 1 userDb < 10
  /\ (exists u, In u (users userDb) /\ User.id u = 1)
  /\ exists row l,
       fst (DatabaseService.createSchedule (nightCharge 0)
              "2025-01-02T00:00:00.000Z" userDb) = Resolved (Some row)
       /\ fst (DatabaseService.getSchedulesByUserId 1
                 (snd (DatabaseService.createSchedule (nightCharge 0)
                         "2025-01-02T00:00:00.000Z" userDb))) = Resolved l
       /\ In row l
       /\ Schedule.type row = charge
       /\ Schedule.desiredChargeLevel row = None.
Proof.
  assert (Hbelow : count_schedules 1 userDb < 10) by (vm_compute; reflexivity).
  assert (Howner : exists u, In u (users userDb) /\ User.id u = 1)
    by apply demoUser_stored.
  split; [exact Hbelow|]. split; [exact Howner|].
  destruct (createSchedule_zero_stored_as_null (nightCharge 0)
              "2025-01-02T00:00:00.000Z" userDb Hbelow Howner)
    as (row & l & Hc & Hl & Hin & Hty & Hlevel & _).
  exists row, l. repeat split; try assumption. apply Hlevel. reflexivity.
Defined.

(** The two boundary submissions, run on the store of one user: the only
    schedule read back is the one created, with its ready-by time and without
    its number. *)
Lemma createSchedule_zero_examples :
  (exists row,
     fst (DatabaseService.getSchedulesByUserId 1
            (snd (DatabaseService.createSchedule (nightCharge 0)
                    "2025-01-02T00:00:00.000Z" userDb)))
     = Resolved [row]
     /\ Schedule.type row = charge
     /\ Schedule.readyByTime row = Some "07:00"
     /\ Schedule.desiredChargeLevel row = None)
  /\
  (exists row,
     fst (DatabaseService.getSchedulesByUserId 1
            (snd (DatabaseService.createSchedule (tripMileage 0)
                    "2025-01-02T00:00:00.000Z" userDb)))
     = Resolved [row]
     /\ Schedule.type row = mileage
     /\ Schedule.readyByTime row = Some "06:30"
     /\ Schedule.desiredMileage row = None).
Proof. split; eexists; repeat split. Qed.

(** From the form to the list on the screen: the user types 0 as the charge
    level, validation accepts it, and the schedule listed afterwards has no
    level. *)
Lemma form_zero_level_lost :
  exists scheduleData st' row,
    ScheduleForm.handleSubmit
      (ScheduleForm.mkFormData "Night" charge ["Monday"] "" "" "07:00" "0" "")
    = ScheduleForm.Submit scheduleData
    /\ PartialSchedule.desiredChargeLevel scheduleData = Some 0
    /\ ScheduleScreen.handleFormSubmit scheduleData "2025-01-02T00:00:00.000Z"
         (ScheduleScreen.mkState userDb (Some demoUser) [] true None)
       = (ScheduleScreen.nothing, st')
    /\ ScheduleScreen.schedules st' = [row]
    /\ Schedule.desiredChargeLevel row = None.
Proof. do 3 eexists. repeat split. Qed.

(** A payload as validation produces it: exactly the fields of its type are
    set, the texts are not empty and the numbers are in range. *)
Definition validPayload (d : NewSchedule.t) : Prop :=
  let nonEmpty v := exists s : string, v = Some s /\ s <> "" in
  let within hi v := exists n : Z, v = Some n /\ 0 <= n <= hi in
  match NewSchedule.type d with
  | time =>
      nonEmpty (NewSchedule.startTime d) /\ nonEmpty (NewSchedule.endTime d)
      /\ NewSchedule.readyByTime d = None
      /\ NewSchedule.desiredChargeLevel d = None
      /\ NewSchedule.desiredMileage d = None
  | charge =>
      NewSchedule.startTime d = None /\ NewSchedule.endTime d = None
      /\ nonEmpty (NewSchedule.readyByTime d)
      /\ within 100 (NewSchedule.desiredChargeLevel d)
      /\ NewSchedule.desiredMileage d = None
  | mileage =>
      NewSchedule.startTime d = None /\ NewSchedule.endTime d = None
      /\ nonEmpty (NewSchedule.readyByTime d)
      /\ NewSchedule.desiredChargeLevel d = None
      /\ within 250 (NewSchedule.desiredMileage d)
  end.

Lemma orNull_string_nonEmpty (v : option string) :
  (exists s : string, v = Some s /\ s <> "") -> orNull_string v = v.
Proof.
  intros (s & -> & Hs). simpl. apply truthy_true_iff in Hs. now rewrite Hs.
Qed.

Lemma orNull_number_nonzero (v : option Z) :
  v <> Some 0 -> orNull_number v = v.
Proof.
  destruct v as [n|]; [|reflexivity]. simpl. intros H.
  destruct (Z.eqb_spec n 0); [subst; congruence | reflexivity].
Qed.

(** Away from the boundary the round trip holds: a valid payload whose number is
    not 0, created for a stored owner below the limit, is among the owner's
    schedules read back, with every optional field as submitted. *)
Lemma createSchedule_roundtrip_nonzero (d : NewSchedule.t) (now : string) (db : Db) :
  validPayload d ->
  count_schedules (NewSchedule.userId d) db < 10 ->
  (exists u, In u (users db) /\ User.id u = NewSchedule.userId d) ->
  NewSchedule.desiredChargeLevel d <> Some 0 ->
  NewSchedule.desiredMileage d <> Some 0 ->
  exists row l,
    fst (DatabaseService.createSchedule d now db) = Resolved (Some row)
    /\ fst (DatabaseService.getSchedulesByUserId (NewSchedule.userId d)
              (snd (DatabaseService.createSchedule d now db))) = Resolved l
    /\ In row l
    /\ Schedule.type row = NewSchedule.type d
    /\ Schedule.startTime row = NewSchedule.startTime d
    /\ Schedule.endTime row = NewSchedule.endTime d
    /\ Schedule.readyByTime row = NewSchedule.readyByTime d
    /\ Schedule.desiredChargeLevel row = NewSchedule.desiredChargeLevel d
    /\ Schedule.desiredMileage row = NewSchedule.desiredMileage d.
Proof.
  intros Hv Hlt Howner Hc Hm.
  rewrite (createSchedule_below_limit d now db Hlt Howner).
  do 2 eexists. split; [reflexivity|]. split; [reflexivity|]. split.
  - apply (Permutation_in _ (Sorter.Permuted_sort _)).
    apply filter_In. split.
    + simpl. apply in_or_app. right. left. reflexivity.
    + simpl. apply Z.eqb_refl.
  - simpl. rewrite (orNull_number_nonzero _ Hc), (orNull_number_nonzero _ Hm).
    unfold validPayload in Hv.
    destruct (NewSchedule.type d);
      destruct Hv as (H1 & H2 & H3 & H4 & H5);
      repeat match goal with
             | H : exists s : string, _ |- _ => apply orNull_string_nonEmpty in H
             | H : ?v = None |- _ => rewrite H in *
             end;
      repeat split; simpl; auto.
Qed.

(** Two users; two schedules of user 1 and one of user 2. *)
Definition sampleDb : Db :=
  mkDb [demoUser; secondUser]
    [ timeRow 1 1 "2025-01-01T08:00:00.000Z";
      Schedule.mk 2 1 charge "Night" weekdays None None (Some "07:00") (Some 80) None
        true "2025-01-03T08:00:00.000Z";
      timeRow 3 2 "2025-01-02T08:00:00.000Z" ]
    2 3.

Definition levelOnly (level : Z) : PartialSchedule.t :=
  PartialSchedule.mk None None None None None None None None (Some level) None
    None None.

(** A payload that only moves the schedule to another owner. *)
Definition ownerOnly (userId : Z) : PartialSchedule.t :=
  PartialSchedule.mk None (Some userId) None None None None None None None None
    None None.

(** C3, as stated, fails: updating an id that no row has, with a payload that
    names a field, resolves; no rejection of any kind reaches the caller. *)
Lemma updateSchedule_missing_id_resolves :
  (forall r, In r (schedules sampleDb) -> Schedule.id r <> 7)
  /\ fieldsAndValues (levelOnly 50) <> []
  /\ DatabaseService.updateSchedule 7 (levelOnly 50) sampleDb
     = (Resolved tt, sampleDb)
  /\ isRejected (fst (DatabaseService.updateSchedule 7 (levelOnly 50) sampleDb))
     = false.
Proof.
  repeat split; try discriminate.
  intros r [<-|[<-|[<-|[]]]]; discriminate.
Qed.

(** C3, amended.  When no row has the id, [updateSchedule] resolves and leaves
    the store as it was, whatever the payload. *)
Theorem updateSchedule_missing_id_noop
  (id : Z) (p : PartialSchedule.t) (db : Db)
  (Hmissing : forall r, In r (schedules db) -> Schedule.id r <> id) :
  DatabaseService.updateSchedule id p db = (Resolved tt, db).
Proof.
  rewrite (updateSchedule_patch id p db (no_row_not_missing id p db Hmissing)).
  f_equal. destruct db as [us ss useq sseq]; simpl in *. f_equal.
  apply map_unchanged. intros r Hr.
  destruct (Z.eqb_spec (Schedule.id r) id) as [E|_]; [|reflexivity].
  now apply Hmissing in Hr.
Qed.

Lemma updateSchedule_missing_id_noop_witness :
  DatabaseService.updateSchedule 7 (levelOnly 50) sampleDb = (Resolved tt, sampleDb).
Proof.
  apply (updateSchedule_missing_id_noop 7 (levelOnly 50) sampleDb).
  intros r [<-|[<-|[<-|[]]]]; discriminate.
Defined.

(** C7.  [updateSchedule] ends in one of two ways.  When the payload would hand
    a stored schedule with the id to an owner that is not stored, it is
    rejected by the foreign key and the store is left as it was.  Otherwise it
    resolves, and in the store it leaves the row with the given id has, field
    by field, the payload's value where the payload names the field and its
    previous value where it does not, and keeps its id.  Either way every row
    with another id, the users and the rowid counters are as before; and a
    payload that names no field to write resolves and leaves the whole store
    as it was. *)
Theorem updateSchedule_frame (id : Z) (p : PartialSchedule.t) (db : Db) :
  (ownerMissing id p db ->
     DatabaseService.updateSchedule id p db
     = (Rejected (SQLError FOREIGNKEY_schedules), db))
  /\ (~ ownerMissing id p db ->
      exists db',
        DatabaseService.updateSchedule id p db = (Resolved tt, db')
        /\ schedules db'
           = map (fun r => if Schedule.id r =? id then patch p r else r)
               (schedules db)
        /\ (forall r, In r (schedules db) -> Schedule.id r = id ->
              In (patch p r) (schedules db')
              /\ Schedule.id (patch p r) = id
              /\ (PartialSchedule.name p = None ->
                  Schedule.name (patch p r) = Schedule.name r)
              /\ (PartialSchedule.days p = None ->
                  Schedule.days (patch p r) = Schedule.days r)
              /\ (forall v, PartialSchedule.desiredChargeLevel p = Some v ->
                  Schedule.desiredChargeLevel (patch p r) = Some v)))
  /\ (forall r, In r (schedules db) -> Schedule.id r <> id ->
        In r (schedules (snd (DatabaseService.updateSchedule id p db))))
  /\ (forall r', In r' (schedules (snd (DatabaseService.updateSchedule id p db))) ->
        Schedule.id r' <> id -> In r' (schedules db))
  /\ users (snd (DatabaseService.updateSchedule id p db)) = users db
  /\ users_seq (snd (DatabaseService.updateSchedule id p db)) = users_seq db
  /\ schedules_seq (snd (DatabaseService.updateSchedule id p db)) = schedules_seq db
  /\ (nothingToWrite p -> DatabaseService.updateSchedule id p db = (Resolved tt, db)).
Proof.
  split; [apply updateSchedule_refused|]. split.
  - intros Hok. eexists. split; [now apply updateSchedule_patch|]. simpl.
    split; [reflexivity|].
    intros r Hr Hid. repeat apply conj.
    + apply in_map_iff. exists r. split; [|exact Hr].
      subst id. now rewrite Z.eqb_refl.
    + exact Hid.
    + intros H. simpl. now rewrite H.
    + intros H. simpl. now rewrite H.
    + intros v H. simpl. now rewrite H.
  - destruct (ownerMissing_dec id p db) as [Hno|Hok].
    + rewrite (updateSchedule_refused id p db Hno). simpl.
      repeat apply conj; auto.
      intros Hn. destruct Hno as (v & _ & E & _), Hn as [Hn _]. congruence.
    + rewrite (updateSchedule_patch id p db Hok). simpl.
      repeat apply conj; try reflexivity.
      * intros r Hr Hid. apply in_map_iff. exists r. split; [|exact Hr].
        now destruct (Z.eqb_spec (Schedule.id r) id).
      * intros r' Hr' Hid. apply in_map_iff in Hr'. destruct Hr' as (r & Hr & Hin).
        destruct (Z.eqb_spec (Schedule.id r) id) as [E|_].
        -- subst r'. simpl in Hid. congruence.
        -- now subst r'.
      * intros Hn. f_equal. destruct db as [us ss useq sseq]; simpl. f_equal.
        apply map_unchanged. intros r _.
        destruct (Schedule.id r =? id); [now apply patch_nothing | reflexivity].
Qed.

(** The scenario of the specification: [updateSchedule(2, {desiredChargeLevel:
    50})] on the charge schedule of [sampleDb]; and a payload that hands the
    schedule to a user 9 that is not stored. *)
Lemma updateSchedule_frame_witness :
  (~ ownerMissing 2 (levelOnly 50) sampleDb
   /\ exists db',
        DatabaseService.updateSchedule 2 (levelOnly 50) sampleDb = (Resolved tt, db')
        /\ schedules db'
           = [ timeRow 1 1 "2025-01-01T08:00:00.000Z";
               Schedule.mk 2 1 charge "Night" weekdays None None (Some "07:00")
                 (Some 50) None true "2025-01-03T08:00:00.000Z";
               timeRow 3 2 "2025-01-02T08:00:00.000Z" ])
  /\ (ownerMissing 2 (ownerOnly 9) sampleDb
      /\ DatabaseService.updateSchedule 2 (ownerOnly 9) sampleDb
         = (Rejected (SQLError FOREIGNKEY_schedules), sampleDb)).
Proof.
  assert (Hok : ~ ownerMissing 2 (levelOnly 50) sampleDb).
  { intros (v & r & E & _). discriminate E. }
  assert (Hno : ownerMissing 2 (ownerOnly 9) sampleDb).
  { exists 9, (Schedule.mk 2 1 charge "Night" weekdays None None (Some "07:00")
                 (Some 80) None true "2025-01-03T08:00:00.000Z").
    split; [reflexivity|]. split; [right; left; reflexivity|].
    split; [reflexivity|]. intros u [<-|[<-|[]]]; discriminate. }
  split.
  - split; [exact Hok|].
    destruct (updateSchedule_frame 2 (levelOnly 50) sampleDb) as (_ & Hres & _).
    destruct (Hres Hok) as (db' & Hr & Hs & _).
    exists db'. split; [exact Hr | exact Hs].
  - split; [exact Hno|].
    destruct (updateSchedule_frame 2 (ownerOnly 9) sampleDb) as (Hrej & _).
    exact (Hrej Hno).
Defined.

(** A payload that only carries an [id] writes nothing: the row keeps its id. *)
Lemma updateSchedule_id_not_written :
  DatabaseService.updateSchedule 2
    (PartialSchedule.mk (Some 99) None None None None None None None None None
       None None) sampleDb
  = (Resolved tt, sampleDb).
Proof. reflexivity. Qed.

(** A payload that hands the schedule to the other stored user goes through. *)
Lemma updateSchedule_stored_owner :
  exists db',
    DatabaseService.updateSchedule 2 (ownerOnly 2) sampleDb = (Resolved tt, db')
    /\ map Schedule.userId (schedules db') = [1; 2; 2].
Proof. eexists. split; reflexivity. Qed.

(** C8.  [deleteSchedule] always resolves; when no row has the id the store is
    left as it was; rows with another id and the users are never touched; and
    deleting the same id again changes nothing more. *)
Theorem deleteSchedule_idempotent (id : Z) (db : Db) :
  fst (DatabaseService.deleteSchedule id db) = Resolved tt
  /\ ((forall r, In r (schedules db) -> Schedule.id r <> id) ->
      DatabaseService.deleteSchedule id db = (Resolved tt, db))
  /\ (forall r, In r (schedules (snd (DatabaseService.deleteSchedule id db)))
                <-> In r (schedules db) /\ Schedule.id r <> id)
  /\ users (snd (DatabaseService.deleteSchedule id db)) = users db
  /\ DatabaseService.deleteSchedule id (snd (DatabaseService.deleteSchedule id db))
     = DatabaseService.deleteSchedule id db.
Proof.
  unfold DatabaseService.deleteSchedule, delete_schedules. simpl.
  repeat apply conj; try reflexivity.
  - intros H. f_equal. destruct db as [us ss useq sseq]; simpl in *. f_equal.
    apply filter_all. intros r Hr. apply negb_true_iff, Z.eqb_neq. now apply H.
  - intros r. rewrite filter_In, negb_true_iff, Z.eqb_neq. tauto.
  - do 2 f_equal. apply filter_all. intros r Hr.
    apply filter_In in Hr. tauto.
Qed.

Lemma deleteSchedule_idempotent_witness :
  (forall r, In r (schedules sampleDb) -> Schedule.id r <> 7)
  /\ DatabaseService.deleteSchedule 7 sampleDb = (Resolved tt, sampleDb).
Proof.
  assert (H : forall r, In r (schedules sampleDb) -> Schedule.id r <> 7).
  { intros r [<-|[<-|[<-|[]]]]; discriminate. }
  split; [exact H|].
  destruct (deleteSchedule_idempotent 7 sampleDb) as (_ & Hnoop & _).
  exact (Hnoop H).
Defined.

(** C9.  [getSchedulesByUserId] resolves, without touching the store, with a
    list that holds exactly the stored schedules of that user (each as often as
    it is stored, none of another user) in descending order of [createdAt]. *)
Theorem getSchedulesByUserId_sorted (userId : Z) (db : Db) :
  exists l,
    DatabaseService.getSchedulesByUserId userId db = (Resolved l, db)
    /\ Permutation l (filter (fun r => Schedule.userId r =? userId) (schedules db))
    /\ (forall r, In r l <-> In r (schedules db) /\ Schedule.userId r = userId)
    /\ StronglySorted notOlder l.
Proof.
  eexists. split; [reflexivity|]. unfold select_schedules_by_userId.
  repeat apply conj.
  - symmetry. apply Sorter.Permuted_sort.
  - intros r. split.
    + intros H.
      apply (Permutation_in _ (Permutation_sym (Sorter.Permuted_sort _))) in H.
      apply filter_In in H. now rewrite Z.eqb_eq in H.
    + intros [Hin Hu]. apply (Permutation_in _ (Sorter.Permuted_sort _)).
      apply filter_In. split; [exact Hin | now apply Z.eqb_eq].
  - apply (Sorter.StronglySorted_sort _ CreatedAtDesc_transitive).
Qed.

(** On [sampleDb] user 1 gets the schedule of 3 January before that of
    1 January, and not the schedule of user 2. *)
Lemma getSchedulesByUserId_sample :
  map Schedule.id (select_schedules_by_userId 1 sampleDb) = [2; 1].
Proof. reflexivity. Qed.

End ScheduleClaims.

(* ================================================================= *)
(** ** Properties of registration *)

Section RegisterClaims.

Import SQLite AuthContext.

Lemma item0_filter_some {A : Type} (f : A -> bool) (l : list A) :
  (exists x, In x l /\ f x = true) -> exists y, item0 (filter f l) = Some y.
Proof.
  intros (x & Hin & Hf).
  assert (Hx : In x (filter f l)) by (apply filter_In; auto).
  destruct (filter f l) as [|y rest]; [destruct Hx|]. now exists y.
Qed.

Lemma existsb_username (username : string) (l : list User.t) :
  existsb (fun u => (User.username u =? username)%string) l = true
  <-> exists u, In u l /\ User.username u = username.
Proof.
  rewrite existsb_exists. split; intros (u & Hin & H); exists u; split; auto;
    now apply String.eqb_eq.
Qed.

Lemma existsb_email (email : string) (l : list User.t) :
  existsb (fun u => (User.email u =? email)%string) l = true
  <-> exists u, In u l /\ User.email u = email.
Proof.
  rewrite existsb_exists. split; intros (u & Hin & H); exists u; split; auto;
    now apply String.eqb_eq.
Qed.

Lemma getUserByUsername_found (username : string) (db : Db) :
  (exists u, In u (users db) /\ User.username u = username) ->
  exists u, DatabaseService.getUserByUsername username db = (Resolved (Some u), db).
Proof.
  intros (u & Hin & Hu). unfold DatabaseService.getUserByUsername.
  destruct (item0_filter_some (fun u => (User.username u =? username)%string)
              (users db)) as [y Hy].
  - exists u. split; [exact Hin | now apply String.eqb_eq].
  - exists y. unfold select_users_by_username. now rewrite Hy.
Qed.

Lemma getUserByUsername_not_found (username : string) (db : Db) :
  (forall u, In u (users db) -> User.username u <> username) ->
  DatabaseService.getUserByUsername username db = (Resolved None, db).
Proof.
  intros H. unfold DatabaseService.getUserByUsername, select_users_by_username.
  rewrite filter_none; [reflexivity|].
  intros u Hu. apply String.eqb_neq. now apply H.
Qed.

(** [createUser] is refused by the UNIQUE constraints and leaves the store as it
    was when the username or the email is already stored. *)
Lemma createUser_duplicate (username email password now : string) (db : Db) :
  (exists u, In u (users db)
             /\ (User.username u = username \/ User.email u = email)) ->
  exists e, DatabaseService.createUser username email password now db
            = (Rejected (SQLError e), db).
Proof.
  intros (u & Hin & H). unfold DatabaseService.createUser, insert_user.
  destruct (existsb (fun u => (User.email u =? email)%string) (users db)) eqn:He;
    [eexists; reflexivity|].
  destruct (existsb (fun u => (User.username u =? username)%string) (users db))
    eqn:Hn; [eexists; reflexivity|].
  exfalso. destruct H as [H|H].
  - assert (Ht : existsb (fun u => (User.username u =? username)%string) (users db)
                 = true) by (apply existsb_username; eauto).
    congruence.
  - assert (Ht : existsb (fun u => (User.email u =? email)%string) (users db)
                 = true) by (apply existsb_email; eauto).
    congruence.
Qed.

(** C10.  When a user with the username is stored, [register] returns false,
    leaves the store, the session and the signed-in user as they were, and its
    only call to the service is [getUserByUsername] ([createUser] is not
    called).  When the username is new but the email is stored, the pre-check
    finds nothing, [createUser] is called and refused by the UNIQUE constraint
    on the email, and [register] again returns false with the store as it
    was. *)
Theorem register_duplicate (username email password now : string) (st : State) :
  ((exists u, In u (users (db st)) /\ User.username u = username) ->
     register username email password now st
     = (false, mkState (db st) (user st) (user_id st)
                 (calls st ++ [call_getUserByUsername username])))
  /\
  ((forall u, In u (users (db st)) -> User.username u <> username) ->
   (exists u, In u (users (db st)) /\ User.email u = email) ->
     DatabaseService.createUser username email password now (db st)
     = (Rejected (SQLError UNIQUE_users_email), db st)
     /\ register username email password now st
        = (false, mkState (db st) (user st) (user_id st)
                    (calls st ++ [call_getUserByUsername username]
                       ++ [call_createUser username email password]))).
Proof.
  split.
  - intros H. destruct (getUserByUsername_found username (db st) H) as [u Hu].
    unfold register. now rewrite Hu.
  - intros Hnew Hemail.
    assert (Hc : DatabaseService.createUser username email password now (db st)
                 = (Rejected (SQLError UNIQUE_users_email), db st)).
    { unfold DatabaseService.createUser, insert_user.
      apply existsb_email in Hemail. now rewrite Hemail. }
    split; [exact Hc|].
    unfold register. rewrite (getUserByUsername_not_found _ _ Hnew), Hc.
    now rewrite <- app_assoc.
Qed.

Definition demoState : State := mkState userDb None None [].

Lemma register_duplicate_witness :
  register "demo" "other@andersenev.com" "secret" "2025-02-01T00:00:00.000Z" demoState
  = (false, mkState (db demoState) None None [call_getUserByUsername "demo"])
  /\ register "other" "demo@andersenev.com" "secret" "2025-02-01T00:00:00.000Z"
       demoState
     = (false, mkState (db demoState) None None
                 [call_getUserByUsername "other";
                  call_createUser "other" "demo@andersenev.com" "secret"]).
Proof.
  split.
  - apply (register_duplicate "demo" "other@andersenev.com" "secret"
             "2025-02-01T00:00:00.000Z" demoState).
    exists demoUser. split; [left|]; reflexivity.
  - apply (register_duplicate "other" "demo@andersenev.com" "secret"
             "2025-02-01T00:00:00.000Z" demoState).
    + intros u [<-|[]]. discriminate.
    + exists demoUser. split; [left|]; reflexivity.
Defined.

(** A registration with a new username and a new email succeeds, stores the
    user and signs it in. *)
Lemma register_new_user :
  exists st',
    register "ada" "ada@andersenev.com" "secret" "2025-02-01T00:00:00.000Z" demoState
    = (true, st')
    /\ map User.username (users (db st')) = ["demo"; "ada"]
    /\ user_id st' = Some "2".
Proof. eexists. repeat split. Qed.

End RegisterClaims.

(* ================================================================= *)
(** * The rest of the code: reading back, sessions, start-up, the login form *)

(** ** More built-ins *)

Module Builtins.

(** [parseInt(s, 10)]: as [JS.parseInt], but a [0x] prefix is not looked for. *)
Definition parseInt10 (s : string) : option Z :=
  let '(sign, s1) := JS.stripSign (JS.trimStart s) in
  match JS.digitsPrefix 10 s1 with
  | [] => None
  | ds => Some (sign * JS.mathInt 10 ds)
  end.

(** *** [JSON.parse] of the text of an array of strings

    The reader is a state machine over the text.  Its result is [None] when
    [JSON.parse] throws, when the value is not an array of strings, and when a
    string holds a code unit above 255 (outside the strings modelled). *)
Inductive ParseState : Set :=
| AtStart                        (** before the opening bracket *)
| AfterOpen                      (** after the opening bracket *)
| InString                       (** inside a string *)
| InEscape                       (** after a backslash *)
| InUnicode (todo : nat) (v : Z) (** inside the four digits of a [\u] escape *)
| AfterElement                   (** after a string *)
| AfterComma                     (** after a comma *)
| AtEnd.                         (** after the closing bracket *)

(** JSON white space: space, tab, line feed, carriage return. *)
Definition isJSONSpace (c : ascii) : bool :=
  let n := JS.code c in
  (n =? 32) || (n =? 9) || (n =? 10) || (n =? 13).

Definition hexValue (c : ascii) : option Z := JS.radixDigit 16 c.

Definition charOf (n : Z) : ascii := ascii_of_N (Z.to_N n).

Definition snoc (s : string) (c : ascii) : string := (s ++ String c "")%string.

(** The character an escape letter stands for. *)
Definition escaped (c : ascii) : option ascii :=
  let n := JS.code c in
  if n =? 34 then Some JS.quoteChar
  else if n =? 92 then Some JS.backslash
  else if n =? 47 then Some "/"%char
  else if n =? 98 then Some (charOf 8)
  else if n =? 102 then Some (charOf 12)
  else if n =? 110 then Some (charOf 10)
  else if n =? 114 then Some (charOf 13)
  else if n =? 116 then Some (charOf 9)
  else None.

Fixpoint parseFrom (st : ParseState) (done : list string) (cur : string)
    (text : string) : option (list string) :=
  match text with
  | EmptyString =>
      match st with
      | AtEnd => Some done
      | _ => None
      end
  | String c rest =>
      let n := JS.code c in
      match st with
      | AtStart =>
          if isJSONSpace c then parseFrom AtStart done cur rest
          else if n =? 91 then parseFrom AfterOpen done cur rest
          else None
      | AfterOpen =>
          if isJSONSpace c then parseFrom AfterOpen done cur rest
          else if n =? 93 then parseFrom AtEnd done cur rest
          else if n =? 34 then parseFrom InString done "" rest
          else None
      | InString =>
          if n =? 34 then parseFrom AfterElement (done ++ [cur]) "" rest
          else if n =? 92 then parseFrom InEscape done cur rest
          else if n <? 32 then None
          else parseFrom InString done (snoc cur c) rest
      | InEscape =>
          if n =? 117 then parseFrom (InUnicode 4 0) done cur rest
          else
            match escaped c with
            | Some e => parseFrom InString done (snoc cur e) rest
            | None => None
            end
      | InUnicode todo v =>
          match hexValue c with
          | Some h =>
              match todo with
              | S O =>
                  if v * 16 + h <? 256
                  then parseFrom InString done (snoc cur (charOf (v * 16 + h))) rest
                  else None
              | S todo' => parseFrom (InUnicode todo' (v * 16 + h)) done cur rest
              | O => None
              end
          | None => None
          end
      | AfterElement =>
          if isJSONSpace c then parseFrom AfterElement done cur rest
          else if n =? 44 then parseFrom AfterComma done cur rest
          else if n =? 93 then parseFrom AtEnd done cur rest
          else None
      | AfterComma =>
          if isJSONSpace c then parseFrom AfterComma done cur rest
          else if n =? 34 then parseFrom InString done "" rest
          else None
      | AtEnd =>
          if isJSONSpace c then parseFrom AtEnd done cur rest else None
      end
  end.

Definition JSON_parse (text : string) : option (list string) :=
  parseFrom AtStart [] "" text.

(** *** Regular expressions made of single characters and [+] runs

    An item matches one character of a class, or one or more of them; a pattern
    is a sequence of items.  [matchHere] tries the pattern at the start of the
    text, [test] anywhere in it, as [RegExp.prototype.test] does for a pattern
    with no anchor. *)
Inductive Item : Type :=
| One (class : ascii -> bool)
| Plus (class : ascii -> bool).

Fixpoint matchHere (text : string) (pattern : list Item) : bool :=
  match pattern with
  | [] => true
  | item :: more =>
      match text with
      | EmptyString => false
      | String c rest =>
          match item with
          | One class => class c && matchHere rest more
          | Plus class =>
              class c && (matchHere rest (Plus class :: more) || matchHere rest more)
          end
      end
  end.

Fixpoint test (pattern : list Item) (text : string) : bool :=
  matchHere text pattern
  || match text with
     | String _ rest => test pattern rest
     | EmptyString => false
     end.

(** [\S] *)
Definition nonSpace (c : ascii) : bool := negb (JS.isWhiteSpace c).

Definition isChar (x : ascii) (c : ascii) : bool := Ascii.eqb c x.

End Builtins.

(* ================================================================= *)
(** ** ScheduleForm: loading a schedule into the form *)

Module ScheduleFormEffect.

Import ScheduleForm.

(** [v || ''] on a nullable text. *)
Definition orEmpty (v : option string) : string :=
  match v with
  | Some s => if JS.truthy s then s else ""
  | None => ""
  end.

(** [v?.toString() || ''] on a nullable number. *)
Definition numberText (v : option Z) : string :=
  match v with
  | Some n => if JS.truthy (JS.toString n) then JS.toString n else ""
  | None => ""
  end.

(** The effect that runs when the form is given a schedule to edit: the state
    it sets, or [None] when [JSON.parse(schedule.days)] does not give a list of
    strings. *)
Definition populate (schedule : Schedule.t) : option FormData :=
  match Builtins.JSON_parse (Schedule.days schedule) with
  | Some days =>
      Some (mkFormData (Schedule.name schedule) (Schedule.type schedule) days
              (orEmpty (Schedule.startTime schedule))
              (orEmpty (Schedule.endTime schedule))
              (orEmpty (Schedule.readyByTime schedule))
              (numberText (Schedule.desiredChargeLevel schedule))
              (numberText (Schedule.desiredMileage schedule)))
  | None => None
  end.

End ScheduleFormEffect.

(* ================================================================= *)
(** ** DatabaseService: start-up, demo data, shut-down *)

Module Lifecycle.

Import SQLite.

(** The service object: the store on disk and the flag [isInitialized]. *)
Record Service : Set := mkService {
  store : Db;
  isInitialized : bool
}.

(** What [new Date().toISOString()] returns at the three inserts of the demo
    data. *)
Record DemoTimes : Set := mkDemoTimes {
  userTime : string;
  morningTime : string;
  weekendTime : string
}.

(** [CREATE TABLE IF NOT EXISTS] for both tables: a [Db] has both, so nothing
    changes. *)
Definition createTables (db : Db) : Promise unit * Db := (Resolved tt, db).

Definition morningCharge (userId : Z) (createdAt : string) : Schedule.t :=
  Schedule.mk 0 userId time "Morning Charge"
    (JS.JSON_stringify ["Mon"; "Tue"; "Wed"; "Thu"; "Fri"])
    (Some "06:00") (Some "08:00") None None None true createdAt.

Definition weekendFullCharge (userId : Z) (createdAt : string) : Schedule.t :=
  Schedule.mk 0 userId charge "Weekend Full Charge"
    (JS.JSON_stringify ["Sat"; "Sun"])
    None None (Some "09:00") (Some 100) None true createdAt.

(** One transaction: look for the user [demo]; when there is none, insert it
    and then its two schedules.  The promise is resolved as soon as the lookup
    returns, so a failing insert only rolls the transaction back. *)
Definition insertDemoData (t : DemoTimes) (db : Db) : Promise unit * Db :=
  match select_users_by_username "demo" db with
  | [] =>
      match insert_user "demo" "demo@andersenev.com" "demo123" (userTime t) db with
      | inr (userId, db1) =>
          match insert_schedule (morningCharge userId (morningTime t)) db1 with
          | inr (_, db2) =>
              match insert_schedule (weekendFullCharge userId (weekendTime t))
                      db2 with
              | inr (_, db3) => (Resolved tt, db3)
              | inl _ => (Resolved tt, db)
              end
          | inl _ => (Resolved tt, db)
          end
      | inl _ => (Resolved tt, db)
      end
  | _ :: _ => (Resolved tt, db)
  end.

Definition initialize (t : DemoTimes) (svc : Service) : Promise unit * Service :=
  if isInitialized svc then (Resolved tt, svc)
  else
    match createTables (store svc) with
    | (Resolved _, db1) =>
        match insertDemoData t db1 with
        | (Resolved _, db2) => (Resolved tt, mkService db2 true)
        | (Rejected e, db2) => (Rejected e, mkService db2 false)
        end
    | (Rejected e, db1) => (Rejected e, mkService db1 false)
    end.

(** [close]: [this.db.close()] inside a [try]; when the call returns, the flag
    is cleared, and when it throws, the [catch] logs and nothing changes.
    [handleCloses] tells which (the handles of the database library have no
    method [close], so with it the call throws). *)
Definition close (handleCloses : bool) (svc : Service) : Service :=
  if handleCloses then mkService (store svc) false else svc.

(** A method of the service: [await this.initialize()], then its transaction. *)
Definition method {A : Type} (body : Db -> Promise A * Db) (t : DemoTimes)
    (svc : Service) : Promise A * Service :=
  match initialize t svc with
  | (Resolved _, svc1) =>
      let '(result, db') := body (store svc1) in
      (result, mkService db' (isInitialized svc1))
  | (Rejected e, svc1) => (Rejected e, svc1)
  end.

End Lifecycle.

(* ================================================================= *)
(** ** AuthContext: restoring the session at start-up *)

Module Session.

Import AuthContext.

(** After [DatabaseService.initialize()]: read ['user_id'] from AsyncStorage,
    look the user up, sign it in or forget the id. *)
Definition restore (st : State) : State :=
  match user_id st with
  | Some savedUserId =>
      if JS.truthy savedUserId then
        match Builtins.parseInt10 savedUserId with
        | Some userId =>
            match DatabaseService.getUserById userId (db st) with
            | (Resolved (Some savedUser), db1) =>
                mkState db1 (Some savedUser) (user_id st) (calls st)
            | (Resolved None, db1) => mkState db1 (user st) None (calls st)
            | (Rejected _, db1) => mkState db1 (user st) None (calls st)
            end
        | None =>
            (* [getUserById(NaN)] selects no row *)
            mkState (db st) (user st) None (calls st)
        end
      else st
  | None => st
  end.

(** The effect [initApp] of the provider.  [initialized] is the flag of the
    service before the effect; the result carries the flag after it.  A failure
    anywhere clears ['user_id']. *)
Definition initApp (t : Lifecycle.DemoTimes) (initialized : bool) (st : State)
  : State * bool :=
  match Lifecycle.initialize t (Lifecycle.mkService (db st) initialized) with
  | (Resolved _, svc) =>
      (restore (mkState (Lifecycle.store svc) (user st) (user_id st) (calls st)),
       Lifecycle.isInitialized svc)
  | (Rejected _, svc) =>
      (mkState (Lifecycle.store svc) (user st) None (calls st),
       Lifecycle.isInitialized svc)
  end.

(** The application is closed and opened again: the React state is lost,
    AsyncStorage and the store are kept. *)
Definition restart (st : State) : State :=
  mkState (db st) None (user_id st) (calls st).

End Session.

(* ================================================================= *)
(** ** src/screens/LoginScreen.tsx *)

Module LoginScreen.

Import Builtins.

Record Form : Set := mkForm {
  username : string;
  password : string;
  email : string;
  isRegistering : bool
}.

(** The object [errors]: a key is present when its field is [Some]. *)
Record Errors : Set := mkErrors {
  err_username : option string;
  err_password : option string;
  err_email : option string;
  err_general : option string
}.

Definition noErrors : Errors := mkErrors None None None None.

(** [/\S+@\S+\.\S+/] *)
Definition emailPattern : list Item :=
  [Plus nonSpace; One (isChar "@"); Plus nonSpace; One (isChar "."); Plus nonSpace].

Definition blank (s : string) : bool := negb (JS.truthy (JS.trim s)).

Definition validateForm (f : Form) : Errors * bool :=
  let e_username :=
    if blank (username f) then Some "Username field is required" else None in
  let e_password :=
    if blank (password f) then Some "Password field is required" else None in
  let e_email :=
    if isRegistering f then
      if blank (email f) then Some "Email field is required"
      else if negb (test emailPattern (email f))
      then Some "Please enter a valid email address"
      else None
    else None in
  let e_password' :=
    if isRegistering f && (String.length (password f) <? 6)%nat
    then Some "Password must be at least 6 characters"
    else e_password in
  let newErrors := mkErrors e_username e_password' e_email None in
  (newErrors,
   match e_username, e_password', e_email with
   | None, None, None => true
   | _, _, _ => false
   end).

Definition general (message : string) : Errors :=
  mkErrors None None None (Some message).

Definition handleLogin (f : Form) (st : AuthContext.State)
  : Errors * AuthContext.State :=
  let '(newErrors, ok) := validateForm f in
  if ok then
    let '(success, st') := AuthContext.login (JS.trim (username f)) (password f) st in
    if success then (newErrors, st')
    else (general "Invalid username or password", st')
  else (newErrors, st).

Definition handleRegister (f : Form) (now : string) (st : AuthContext.State)
  : Errors * AuthContext.State :=
  let '(newErrors, ok) := validateForm f in
  if ok then
    let '(success, st') :=
      AuthContext.register (JS.trim (username f)) (JS.trim (email f))
        (password f) now st in
    if success then (newErrors, st')
    else (general "Username already exists", st')
  else (newErrors, st).

End LoginScreen.

(* ================================================================= *)
(** * Properties of the rest of the code *)

Section StringFacts.

Lemma append_nil_r (s : string) : (s ++ "")%string = s.
Proof. induction s as [|c s IH]; simpl; [reflexivity | now rewrite IH]. Qed.

Lemma append_assoc (s t u : string) : ((s ++ t) ++ u)%string = (s ++ t ++ u)%string.
Proof. induction s as [|c s IH]; simpl; [reflexivity | now rewrite IH]. Qed.

End StringFacts.

Section JsonFacts.

Import Builtins.

Lemma snoc_append (s t : string) (c : ascii) :
  (snoc s c ++ t)%string = (s ++ String c t)%string.
Proof. unfold snoc. now rewrite append_assoc. Qed.

(** Reading one quoted character puts the character itself at the end of the
    string being read. *)
Lemma parseFrom_quoteJSONChar (c : ascii) (done : list string) (cur rest : string) :
  parseFrom InString done cur (JS.quoteJSONChar c ++ rest)%string
  = parseFrom InString done (snoc cur c) rest.
Proof.
  destruct c as [b0 b1 b2 b3 b4 b5 b6 b7].
  destruct b0, b1, b2, b3, b4, b5, b6, b7; reflexivity.
Qed.

Lemma parseFrom_quoteJSONBody (s : string) (done : list string) (cur rest : string) :
  parseFrom InString done cur (JS.quoteJSONBody s ++ rest)%string
  = parseFrom InString done (cur ++ s)%string rest.
Proof.
  revert cur. induction s as [|c s IH]; intros cur; simpl.
  - now rewrite append_nil_r.
  - rewrite append_assoc, parseFrom_quoteJSONChar, IH.
    unfold snoc. now rewrite append_assoc.
Qed.

(** A quoted string, read from its opening quote on, is the string. *)
Lemma parseFrom_quoteJSONString (s : string) (done : list string) (rest : string) :
  parseFrom InString done "" (JS.quoteJSONBody s ++ String JS.quoteChar rest)%string
  = parseFrom AfterElement (done ++ [s]) "" rest.
Proof. rewrite parseFrom_quoteJSONBody. reflexivity. Qed.

Lemma parseFrom_elements (l : list string) (s : string) (done : list string) :
  parseFrom InString done ""
    (JS.quoteJSONBody s
     ++ String JS.quoteChar
          (match l with
           | [] => ""
           | _ :: _ => "," ++ JS.joinComma (map JS.quoteJSONString l)
           end ++ "]"))%string
  = Some (done ++ s :: l).
Proof.
  revert s done. induction l as [|x l IH]; intros s done.
  - rewrite parseFrom_quoteJSONString. reflexivity.
  - rewrite parseFrom_quoteJSONString.
    replace (done ++ s :: x :: l) with ((done ++ [s]) ++ x :: l)
      by now rewrite <- app_assoc.
    rewrite <- (IH x (done ++ [s])).
    cbn [map JS.joinComma]. unfold JS.quoteJSONString at 1.
    destruct l as [|y l]; cbn [map JS.joinComma].
    + simpl. now rewrite !append_assoc.
    + simpl. rewrite !append_assoc. reflexivity.
Qed.

Lemma JSON_parse_stringify (l : list string) :
  JSON_parse (JS.JSON_stringify l) = Some l.
Proof.
  destruct l as [|s l]; [reflexivity|].
  unfold JSON_parse, JS.JSON_stringify.
  etransitivity; [|exact (parseFrom_elements l s [])].
  destruct l as [|x l]; cbn [map JS.joinComma]; unfold JS.quoteJSONString at 1;
    simpl; now rewrite ?append_assoc.
Qed.

End JsonFacts.

Section TrimFacts.

Lemma trimStart_idempotent (s : string) : JS.trimStart (JS.trimStart s) = JS.trimStart s.
Proof.
  induction s as [|c s IH]; simpl; [reflexivity|].
  destruct (JS.isWhiteSpace c) eqn:Hc; [exact IH|]. simpl. now rewrite Hc.
Qed.

Lemma trimEnd_idempotent (s : string) : JS.trimEnd (JS.trimEnd s) = JS.trimEnd s.
Proof.
  induction s as [|c s IH]; simpl; [reflexivity|].
  destruct (JS.isWhiteSpace c && (JS.trimEnd s =? "")%string) eqn:Hc; [reflexivity|].
  simpl. rewrite IH, Hc. reflexivity.
Qed.

Lemma trimStart_trimEnd (s : string) :
  JS.trimEnd (JS.trimStart s) = JS.trimStart (JS.trimEnd s).
Proof.
  induction s as [|c s IH]; simpl; [reflexivity|].
  destruct (JS.isWhiteSpace c) eqn:Hc; simpl.
  - rewrite IH. destruct (JS.trimEnd s =? "")%string eqn:He; simpl.
    + apply String.eqb_eq in He. now rewrite He.
    + now rewrite Hc.
  - now rewrite Hc.
Qed.

Lemma trim_idempotent (s : string) : JS.trim (JS.trim s) = JS.trim s.
Proof.
  unfold JS.trim.
  now rewrite trimStart_trimEnd, trimStart_idempotent, trimEnd_idempotent.
Qed.

End TrimFacts.

Section NumberFacts.

(** The digits of a decimal numeral of the library. *)
Fixpoint uintDigits (d : Decimal.uint) : list Z :=
  match d with
  | Decimal.Nil => []
  | Decimal.D0 d => 0 :: uintDigits d
  | Decimal.D1 d => 1 :: uintDigits d
  | Decimal.D2 d => 2 :: uintDigits d
  | Decimal.D3 d => 3 :: uintDigits d
  | Decimal.D4 d => 4 :: uintDigits d
  | Decimal.D5 d => 5 :: uintDigits d
  | Decimal.D6 d => 6 :: uintDigits d
  | Decimal.D7 d => 7 :: uintDigits d
  | Decimal.D8 d => 8 :: uintDigits d
  | Decimal.D9 d => 9 :: uintDigits d
  end.

Lemma digitsPrefix_string_of_uint (d : Decimal.uint) :
  JS.digitsPrefix 10 (NilEmpty.string_of_uint d) = uintDigits d.
Proof. induction d; simpl; [reflexivity | now rewrite IHd ..]. Qed.

Lemma of_uint_acc_digits (d : Decimal.uint) (acc : positive) :
  Z.pos (Pos.of_uint_acc d acc)
  = fold_left (fun a x => a * 10 + x) (uintDigits d) (Z.pos acc).
Proof.
  revert acc.
  induction d; intros acc; cbn [Pos.of_uint_acc uintDigits fold_left];
    [reflexivity | rewrite IHd; f_equal; lia ..].
Qed.

Lemma of_uint_digits (d : Decimal.uint) :
  Z.of_N (Pos.of_uint d) = JS.mathInt 10 (uintDigits d).
Proof.
  unfold JS.mathInt.
  induction d; cbn [Pos.of_uint uintDigits fold_left Z.of_N];
    [reflexivity | exact IHd | rewrite of_uint_acc_digits; reflexivity ..].
Qed.

Lemma string_of_uint_not_empty (p : positive) :
  exists c s, NilEmpty.string_of_uint (Pos.to_uint p) = String c s
              /\ JS.isWhiteSpace c = false /\ c <> "-"%char /\ c <> "+"%char
              /\ JS.radixDigit 10 c <> None.
Proof.
  pose proof (DecimalPos.Unsigned.to_uint_nonnil p) as H.
  destruct (Pos.to_uint p); [congruence | ..]; simpl;
    do 2 eexists; (split; [reflexivity|]); repeat split; discriminate.
Qed.

Lemma uintDigits_to_uint (p : positive) : uintDigits (Pos.to_uint p) <> [].
Proof.
  pose proof (DecimalPos.Unsigned.to_uint_nonnil p) as H.
  destruct (Pos.to_uint p); [congruence | discriminate ..].
Qed.

Lemma mathInt_to_uint (p : positive) :
  JS.mathInt 10 (uintDigits (Pos.to_uint p)) = Z.pos p.
Proof.
  rewrite <- of_uint_digits, DecimalPos.Unsigned.of_to. reflexivity.
Qed.

(** Reading the decimal text of a positive number gives its digits. *)
Lemma parse_unsigned (p : positive) :
  JS.stripSign (JS.trimStart (NilEmpty.string_of_uint (Pos.to_uint p)))
  = (1, NilEmpty.string_of_uint (Pos.to_uint p)).
Proof.
  destruct (string_of_uint_not_empty p) as (c & s & -> & Hw & Hm & Hp & _).
  simpl. rewrite Hw. 
  destruct c as [b0 b1 b2 b3 b4 b5 b6 b7].
  destruct b0, b1, b2, b3, b4, b5, b6, b7; try reflexivity; congruence.
Qed.

Lemma stripPrefix_decimal (d : Decimal.uint) :
  JS.stripPrefix (NilEmpty.string_of_uint d) = (10, NilEmpty.string_of_uint d).
Proof.
  destruct d; try reflexivity. simpl. destruct d; reflexivity.
Qed.

Lemma parseInt10_toString (n : Z) : Builtins.parseInt10 (JS.toString n) = Some n.
Proof.
  unfold Builtins.parseInt10, JS.toString, NilZero.string_of_int.
  destruct n as [|p|p]; [reflexivity | |].
  - simpl Z.to_int. cbv iota.
    replace (NilZero.string_of_uint (Pos.to_uint p))
      with (NilEmpty.string_of_uint (Pos.to_uint p)).
    2:{ pose proof (DecimalPos.Unsigned.to_uint_nonnil p).
        unfold NilZero.string_of_uint. now destruct (Pos.to_uint p). }
    rewrite parse_unsigned, digitsPrefix_string_of_uint.
    pose proof (uintDigits_to_uint p). pose proof (mathInt_to_uint p) as Hv.
    destruct (uintDigits (Pos.to_uint p)); [congruence|]. rewrite Hv. reflexivity.
  - simpl Z.to_int. cbv iota.
    replace (NilZero.string_of_uint (Pos.to_uint p))
      with (NilEmpty.string_of_uint (Pos.to_uint p)).
    2:{ pose proof (DecimalPos.Unsigned.to_uint_nonnil p).
        unfold NilZero.string_of_uint. now destruct (Pos.to_uint p). }
    destruct (string_of_uint_not_empty p) as (c & s & Hs & _ & _ & _ & _).
    simpl. rewrite digitsPrefix_string_of_uint.
    pose proof (uintDigits_to_uint p). pose proof (mathInt_to_uint p) as Hv.
    destruct (uintDigits (Pos.to_uint p)); [congruence|]. rewrite Hv. reflexivity.
Qed.

Lemma parseInt_toString (n : Z) : JS.parseInt (JS.toString n) = Some n.
Proof.
  unfold JS.parseInt, JS.toString, NilZero.string_of_int.
  destruct n as [|p|p]; [reflexivity | |].
  - simpl Z.to_int. cbv iota.
    replace (NilZero.string_of_uint (Pos.to_uint p))
      with (NilEmpty.string_of_uint (Pos.to_uint p)).
    2:{ pose proof (DecimalPos.Unsigned.to_uint_nonnil p).
        unfold NilZero.string_of_uint. now destruct (Pos.to_uint p). }
    rewrite parse_unsigned, stripPrefix_decimal, digitsPrefix_string_of_uint.
    pose proof (uintDigits_to_uint p). pose proof (mathInt_to_uint p) as Hv.
    destruct (uintDigits (Pos.to_uint p)); [congruence|]. rewrite Hv. reflexivity.
  - simpl Z.to_int. cbv iota.
    replace (NilZero.string_of_uint (Pos.to_uint p))
      with (NilEmpty.string_of_uint (Pos.to_uint p)).
    2:{ pose proof (DecimalPos.Unsigned.to_uint_nonnil p).
        unfold NilZero.string_of_uint. now destruct (Pos.to_uint p). }
    simpl. rewrite stripPrefix_decimal, digitsPrefix_string_of_uint.
    pose proof (uintDigits_to_uint p). pose proof (mathInt_to_uint p) as Hv.
    destruct (uintDigits (Pos.to_uint p)); [congruence|]. rewrite Hv. reflexivity.
Qed.

Lemma toString_truthy (n : Z) : JS.truthy (JS.toString n) = true.
Proof.
  pose proof (parseInt_toString n) as H.
  destruct (JS.toString n); [discriminate H | reflexivity].
Qed.

Lemma toString_injective (n m : Z) : JS.toString n = JS.toString m -> n = m.
Proof.
  intros H. pose proof (parseInt_toString n) as Hn. rewrite H in Hn.
  rewrite parseInt_toString in Hn. now injection Hn.
Qed.

(** X4.  Safe integers survive being written as text.  Whatever safe integer
    [toString] writes (the user id kept for the session, a charge level or a
    mileage loaded into the form), [parseInt] reads back, with and without the
    radix 10; the text is never empty, so [numberText] never falls back to the
    empty field; and two safe integers are never written as the same text.
    (Beyond the safe integers [toString] is not the plain decimal text: 10^21
    is written with an exponent, which [parseInt] reads as 1.) *)
Theorem number_text_roundtrip (n m : Z)
  (Hn : JS.isSafeInteger n) (Hm : JS.isSafeInteger m) :
  JS.parseInt (JS.toString n) = Some n
  /\ Builtins.parseInt10 (JS.toString n) = Some n
  /\ JS.toString n <> ""
  /\ ScheduleFormEffect.numberText (Some n) = JS.toString n
  /\ ScheduleFormEffect.numberText None = ""
  /\ (JS.toString n = JS.toString m <-> n = m).
Proof.
  split; [apply parseInt_toString|]. split; [apply parseInt10_toString|].
  split; [apply truthy_true_iff, toString_truthy|].
  split; [simpl; now rewrite toString_truthy|]. split; [reflexivity|].
  split; [apply toString_injective | now intros ->].
Qed.

Lemma number_text_roundtrip_witness :
  (JS.isSafeInteger 250 /\ JS.isSafeInteger (-7))
  /\ JS.parseInt (JS.toString 250) = Some 250
  /\ (JS.toString 250 = JS.toString (-7) <-> 250 = -7).
Proof.
  assert (H250 : JS.isSafeInteger 250) by (vm_compute; discriminate).
  assert (H7 : JS.isSafeInteger (-7)) by (vm_compute; discriminate).
  split; [split; assumption|].
  destruct (number_text_roundtrip 250 (-7) H250 H7) as (H & _ & _ & _ & _ & Hinj).
  split; [exact H | exact Hinj].
Defined.

End NumberFacts.

Section FormFacts.

Import ScheduleForm ValidationSpec.

Lemma includes_In (l : list string) (d : string) : includes l d = true <-> In d l.
Proof.
  unfold includes. rewrite existsb_exists. split.
  - intros (x & Hx & E). apply String.eqb_eq in E. now subst.
  - intros H. exists d. split; [exact H | apply String.eqb_refl].
Qed.

Lemma includes_false (l : list string) (d : string) : includes l d = false <-> ~ In d l.
Proof.
  rewrite <- includes_In. destruct (includes l d); split; congruence.
Qed.

Lemma filter_other_days (l : list string) (day : string) :
  ~ In day l -> filter (fun d => negb (d =? day)%string) l = l.
Proof.
  intros H. apply filter_all. intros x Hx. apply negb_true_iff, String.eqb_neq.
  intros ->. contradiction.
Qed.

(** X1.  Day toggling.  A press on a day flips whether that day is selected and
    nothing else: every other day stays selected or unselected, the selected
    days stay free of repetitions, the other inputs are untouched, and pressing
    an unselected day twice gives the form back. *)
Theorem handleDayToggle_flips (day : string) (f : FormData) :
  includes (days (handleDayToggle day f)) day = negb (includes (days f) day)
  /\ (forall d, d <> day ->
        includes (days (handleDayToggle day f)) d = includes (days f) d)
  /\ (NoDup (days f) -> NoDup (days (handleDayToggle day f)))
  /\ (includes (days f) day = false ->
        days (handleDayToggle day f) = days f ++ [day]
        /\ handleDayToggle day (handleDayToggle day f) = f)
  /\ (name (handleDayToggle day f), type (handleDayToggle day f),
      startTime (handleDayToggle day f), endTime (handleDayToggle day f),
      readyByTime (handleDayToggle day f),
      desiredChargeLevel (handleDayToggle day f),
      desiredMileage (handleDayToggle day f))
     = (name f, type f, startTime f, endTime f, readyByTime f,
        desiredChargeLevel f, desiredMileage f).
Proof.
  destruct f as [n ty ds st en rb cl mi]. unfold handleDayToggle. simpl.
  repeat apply conj; try reflexivity.
  - destruct (includes ds day) eqn:Hin; simpl.
    + apply includes_false. intros H. apply filter_In in H.
      destruct H as [_ H]. now rewrite String.eqb_refl in H.
    + apply includes_In. apply in_or_app. right. now left.
  - intros d Hd. destruct (includes ds day) eqn:Hin.
    + destruct (includes ds d) eqn:Hd'.
      * apply includes_In. apply includes_In in Hd'. apply filter_In.
        split; [exact Hd'|]. now apply negb_true_iff, String.eqb_neq.
      * apply includes_false. apply includes_false in Hd'.
        intros H. apply filter_In in H. tauto.
    + unfold includes. rewrite existsb_app. simpl.
      assert (E : (day =? d)%string = false) by (apply String.eqb_neq; congruence).
      rewrite E. now rewrite !orb_false_r.
  - intros Hnd. destruct (includes ds day) eqn:Hin.
    + now apply NoDup_filter.
    + apply includes_false in Hin. apply NoDup_app; [exact Hnd | repeat constructor; auto |].
      intros x Hx [<-|[]]. contradiction.
  - intros Hin. rewrite Hin. split; [reflexivity|].
    assert (Hyes : includes (ds ++ [day]) day = true).
    { apply includes_In, in_or_app. right. now left. }
    rewrite Hyes. f_equal. rewrite filter_app. simpl. rewrite String.eqb_refl. simpl.
    rewrite app_nil_r. apply filter_other_days. now apply includes_false.
Qed.

Lemma handleDayToggle_flips_witness :
  days (handleDayToggle "Friday" (chargeForm "80")) = ["Monday"; "Wednesday"; "Friday"]
  /\ handleDayToggle "Friday" (handleDayToggle "Friday" (chargeForm "80"))
     = chargeForm "80".
Proof.
  destruct (handleDayToggle_flips "Friday" (chargeForm "80")) as (_ & _ & _ & H & _).
  apply H. reflexivity.
Defined.

(** What a submitted form has passed. *)
Lemma handleSubmit_Submit_inv (f : FormData) (p : PartialSchedule.t) :
  handleSubmit f = Submit p ->
  passesPresence f
  /\ match type f with
     | time => True
     | charge => inRange (desiredChargeLevel f) 100
     | mileage => inRange (desiredMileage f) 250
     end.
Proof.
  unfold handleSubmit, passesPresence.
  destruct (JS.truthy (JS.trim (name f))) eqn:Hn; simpl; [|discriminate].
  destruct (days f) as [|d ds] eqn:Hd; simpl; [discriminate|].
  apply truthy_true_iff in Hn.
  destruct (type f); simpl.
  - destruct (JS.truthy (startTime f)) eqn:Hs; simpl; [|discriminate].
    destruct (JS.truthy (endTime f)) eqn:He; simpl; [|discriminate].
    apply truthy_true_iff in Hs, He. intros _. repeat split; auto; discriminate.
  - destruct (JS.truthy (readyByTime f)) eqn:Hr; simpl; [|discriminate].
    destruct (outOfRange _ 100) eqn:Ho; [discriminate|].
    apply truthy_true_iff in Hr. intros _. repeat split; auto; try discriminate.
    apply inRangeb_spec. rewrite outOfRange_inRangeb in Ho.
    now apply negb_false_iff in Ho.
  - destruct (JS.truthy (readyByTime f)) eqn:Hr; simpl; [|discriminate].
    destruct (outOfRange _ 250) eqn:Ho; [discriminate|].
    apply truthy_true_iff in Hr. intros _. repeat split; auto; try discriminate.
    apply inRangeb_spec. rewrite outOfRange_inRangeb in Ho.
    now apply negb_false_iff in Ho.
Qed.

Lemma inRange_not_outOfRange (s : string) (hi : Z) :
  inRange s hi -> outOfRange (JS.parseInt s) hi = false.
Proof.
  intros H. destruct (outOfRange (JS.parseInt s) hi) eqn:E; [|reflexivity].
  apply outOfRange_true_iff in E. contradiction.
Qed.

(** The form submits no owner: the screen adds it. *)
Lemma handleSubmit_no_userId (f : FormData) (p : PartialSchedule.t) :
  handleSubmit f = Submit p -> PartialSchedule.userId p = None.
Proof.
  intros Hsubmit. destruct (handleSubmit_Submit_inv f p Hsubmit) as [Hp Hr].
  destruct (type f) eqn:Hty.
  - rewrite (handleSubmit_time f Hp Hty) in Hsubmit. now injection Hsubmit as <-.
  - rewrite (handleSubmit_charge f Hp Hty) in Hsubmit.
    rewrite (inRange_not_outOfRange _ _ Hr) in Hsubmit. now injection Hsubmit as <-.
  - rewrite (handleSubmit_mileage f Hp Hty) in Hsubmit.
    rewrite (inRange_not_outOfRange _ _ Hr) in Hsubmit. now injection Hsubmit as <-.
Qed.

(** X2.  Validation is sound for the store.  Whatever the form submits has a
    trimmed, non-empty name, the JSON text of a non-empty list of days, exactly
    the fields of its type (texts non-empty, numbers within their range), every
    other optional field undefined, [isActive] true, and no [id], [userId] or
    [createdAt]; with the user's id added it is a payload [createSchedule]
    can take. *)
Theorem handleSubmit_payload_sound
  (f : FormData) (p : PartialSchedule.t) (userId : Z)
  (Hsubmit : handleSubmit f = Submit p) :
  PartialSchedule.id p = None
  /\ PartialSchedule.userId p = None
  /\ PartialSchedule.createdAt p = None
  /\ PartialSchedule.isActive p = Some true
  /\ PartialSchedule.type p = Some (type f)
  /\ PartialSchedule.name p = Some (JS.trim (name f))
  /\ JS.trim (name f) <> ""
  /\ JS.trim (JS.trim (name f)) = JS.trim (name f)
  /\ PartialSchedule.days p = Some (JS.JSON_stringify (days f))
  /\ days f <> []
  /\ exists d,
       ScheduleScreen.withUserId p userId = Some d
       /\ NewSchedule.userId d = userId
       /\ NewSchedule.type d = type f
       /\ validPayload d.
Proof.
  destruct (handleSubmit_Submit_inv f p Hsubmit) as [Hp Hr].
  pose proof Hp as (Hn & Hd & Ht).
  destruct (type f) eqn:Hty.
  - rewrite (handleSubmit_time f Hp Hty) in Hsubmit. injection Hsubmit as <-.
    simpl. repeat split; auto using trim_idempotent.
    eexists. split; [reflexivity|]. simpl.
    split; [reflexivity|]. split; [reflexivity|].
    unfold validPayload. simpl. destruct Ht as [Hs He].
    repeat split; eauto.
  - rewrite (handleSubmit_charge f Hp Hty) in Hsubmit.
    rewrite (inRange_not_outOfRange _ _ Hr) in Hsubmit. injection Hsubmit as <-.
    simpl. repeat split; auto using trim_idempotent.
    eexists. split; [reflexivity|]. simpl.
    split; [reflexivity|]. split; [reflexivity|].
    unfold validPayload. simpl. destruct Hr as (n & -> & Hn').
    repeat split; eauto.
  - rewrite (handleSubmit_mileage f Hp Hty) in Hsubmit.
    rewrite (inRange_not_outOfRange _ _ Hr) in Hsubmit. injection Hsubmit as <-.
    simpl. repeat split; auto using trim_idempotent.
    eexists. split; [reflexivity|]. simpl.
    split; [reflexivity|]. split; [reflexivity|].
    unfold validPayload. simpl. destruct Hr as (n & -> & Hn').
    repeat split; eauto.
Qed.

Lemma handleSubmit_payload_sound_witness :
  exists p d,
    handleSubmit (chargeForm "80") = Submit p
    /\ ScheduleScreen.withUserId p 1 = Some d
    /\ validPayload d.
Proof.
  assert (H : handleSubmit (chargeForm "80")
              = Submit (PartialSchedule.mk None None (Some charge) (Some "Night")
                          (Some (JS.JSON_stringify ["Monday"; "Wednesday"]))
                          None None (Some "07:00") (Some 80) None (Some true) None))
    by reflexivity.
  destruct (handleSubmit_payload_sound _ _ 1 H)
    as (_ & _ & _ & _ & _ & _ & _ & _ & _ & _ & d & Hd & _ & _ & Hv).
  eexists. exists d. split; [exact H|]. split; [exact Hd | exact Hv].
Defined.

End FormFacts.

Section EditFacts.

Import ScheduleForm ValidationSpec ScheduleFormEffect.

(** A row as the form writes it: the JSON text of a non-empty list of days, a
    trimmed non-empty name, and the fields of its type filled in, the numbers
    within range.  Fields of other types may hold anything. *)
Definition formWritten (r : Schedule.t) (selected : list string) : Prop :=
  Schedule.days r = JS.JSON_stringify selected
  /\ selected <> []
  /\ JS.trim (Schedule.name r) = Schedule.name r
  /\ Schedule.name r <> ""
  /\ match Schedule.type r with
     | time =>
         exists s e, Schedule.startTime r = Some s /\ s <> ""
                     /\ Schedule.endTime r = Some e /\ e <> ""
     | charge =>
         exists t n, Schedule.readyByTime r = Some t /\ t <> ""
                     /\ Schedule.desiredChargeLevel r = Some n /\ 0 <= n <= 100
     | mileage =>
         exists t n, Schedule.readyByTime r = Some t /\ t <> ""
                     /\ Schedule.desiredMileage r = Some n /\ 0 <= n <= 250
     end.

Lemma orEmpty_some (s : string) : s <> "" -> orEmpty (Some s) = s.
Proof. intros H. simpl. apply truthy_true_iff in H. now rewrite H. Qed.

Lemma numberText_some (n : Z) : numberText (Some n) = JS.toString n.
Proof. simpl. now rewrite toString_truthy. Qed.

(** X3.  The selected days survive being stored.  The text [handleSubmit]
    stores for a selection is read back by [JSON.parse] as the same selection,
    in the same order; two selections are stored as the same text only when
    they are the same; and the form opened on a row whose [days] is that text
    shows exactly the stored days as selected. *)
Theorem days_text_roundtrip (selected other : list string) (r : Schedule.t) :
  Builtins.JSON_parse (JS.JSON_stringify selected) = Some selected
  /\ (JS.JSON_stringify selected = JS.JSON_stringify other <-> selected = other)
  /\ (Schedule.days r = JS.JSON_stringify selected ->
      exists f,
        populate r = Some f
        /\ days f = selected
        /\ forall day, includes (days f) day = true <-> In day selected).
Proof.
  split; [apply JSON_parse_stringify|]. split.
  - split; [|now intros ->]. intros H.
    pose proof (JSON_parse_stringify selected) as Hs. rewrite H in Hs.
    rewrite JSON_parse_stringify in Hs. now injection Hs.
  - intros H. unfold populate. rewrite H, JSON_parse_stringify.
    eexists. split; [reflexivity|]. split; [reflexivity|].
    intros day. apply includes_In.
Qed.

Lemma days_text_roundtrip_witness :
  exists f,
    populate (Schedule.mk 5 1 time "Morning" (JS.JSON_stringify ["Monday"; "Friday"])
                (Some "06:00") (Some "08:00") None None None true
                "2025-01-01T08:00:00.000Z") = Some f
    /\ days f = ["Monday"; "Friday"].
Proof.
  destruct (days_text_roundtrip ["Monday"; "Friday"] []
              (Schedule.mk 5 1 time "Morning" (JS.JSON_stringify ["Monday"; "Friday"])
                 (Some "06:00") (Some "08:00") None None None true
                 "2025-01-01T08:00:00.000Z")) as (_ & _ & H).
  destruct (H eq_refl) as (f & Hf & Hd & _). exists f. split; assumption.
Defined.

Lemma inRange_toString (n hi : Z) : 0 <= n <= hi -> inRange (JS.toString n) hi.
Proof. intros H. exists n. split; [apply parseInt_toString | exact H]. Qed.

(** X5.  Opening a schedule in the form and saving it untouched.  For a row as the
    form writes it, the form loads (the days come back as they were selected),
    validation passes, and the payload submitted writes back the values the row
    already has, except that it sets [isActive]; so when the row is active and
    is the only one with its id, the update leaves the store as it was. *)
Theorem edit_unchanged_roundtrip
  (r : Schedule.t) (selected : list string) (db : SQLite.Db)
  (Hrow : formWritten r selected) :
  exists f p,
    populate r = Some f
    /\ days f = selected
    /\ handleSubmit f = Submit p
    /\ UpdateSpec.patch p r = SQLite.assign r (SQLite.set_isActive true)
    /\ (Schedule.isActive r = true ->
        (forall r', In r' (SQLite.schedules db) ->
                    Schedule.id r' = Schedule.id r -> r' = r) ->
        DatabaseService.updateSchedule (Schedule.id r) p db = (Resolved tt, db)).
Proof.
  destruct Hrow as (Hdays & Hsel & Htrim & Hname & Hty).
  unfold populate. rewrite Hdays, JSON_parse_stringify.
  assert (Hload : forall p,
    PartialSchedule.userId p = None ->
    UpdateSpec.patch p r = SQLite.assign r (SQLite.set_isActive true) ->
    Schedule.isActive r = true ->
    (forall r', In r' (SQLite.schedules db) ->
                Schedule.id r' = Schedule.id r -> r' = r) ->
    DatabaseService.updateSchedule (Schedule.id r) p db = (Resolved tt, db)).
  { intros p Hu Hp Hact Huniq.
    rewrite updateSchedule_patch by now apply no_owner_not_missing.
    f_equal.
    destruct db as [us ss useq sseq]; simpl in *. f_equal.
    apply map_unchanged. intros r' Hr'.
    destruct (Z.eqb_spec (Schedule.id r') (Schedule.id r)) as [E|_]; [|reflexivity].
    rewrite (Huniq r' Hr' E), Hp. destruct r. simpl in *. now subst. }
  destruct r as [id userId ty name days0 st en rb cl mi act created].
  simpl in *. subst days0. destruct ty.
  - destruct Hty as (s & e & -> & Hs & -> & He).
    do 2 eexists. split; [reflexivity|]. split; [reflexivity|].
    rewrite handleSubmit_time; [ | | reflexivity].
    2:{ repeat split; rewrite ?orEmpty_some by assumption; simpl;
        rewrite ?Htrim; assumption. }
    split; [reflexivity|]. rewrite !orEmpty_some by assumption. simpl. rewrite Htrim.
    split; [reflexivity|]. apply Hload; reflexivity.
  - destruct Hty as (t & n & -> & Ht & -> & Hn).
    do 2 eexists. split; [reflexivity|]. split; [reflexivity|].
    rewrite handleSubmit_charge; [ | | reflexivity].
    2:{ repeat split; rewrite ?orEmpty_some by assumption; simpl;
        rewrite ?Htrim; assumption. }
    cbn [desiredChargeLevel]. rewrite numberText_some.
    rewrite (inRange_not_outOfRange _ _ (inRange_toString n 100 Hn)).
    split; [reflexivity|]. rewrite parseInt_toString, !orEmpty_some by assumption.
    simpl. rewrite Htrim.
    split; [reflexivity|]. apply Hload; reflexivity.
  - destruct Hty as (t & n & -> & Ht & -> & Hn).
    do 2 eexists. split; [reflexivity|]. split; [reflexivity|].
    rewrite handleSubmit_mileage; [ | | reflexivity].
    2:{ repeat split; rewrite ?orEmpty_some by assumption; simpl;
        rewrite ?Htrim; assumption. }
    cbn [desiredMileage]. rewrite numberText_some.
    rewrite (inRange_not_outOfRange _ _ (inRange_toString n 250 Hn)).
    split; [reflexivity|]. rewrite parseInt_toString, !orEmpty_some by assumption.
    simpl. rewrite Htrim.
    split; [reflexivity|]. apply Hload; reflexivity.
Qed.

End EditFacts.

Section EditFacts2.

Import ScheduleForm ValidationSpec ScheduleFormEffect.

Definition morningRow : Schedule.t :=
  Schedule.mk 5 1 time "Morning" (JS.JSON_stringify ["Monday"; "Friday"])
    (Some "06:00") (Some "08:00") None None None true "2025-01-01T08:00:00.000Z".

Lemma morningRow_formWritten : formWritten morningRow ["Monday"; "Friday"].
Proof.
  repeat split; try discriminate. simpl. exists "06:00", "08:00".
  repeat split; discriminate.
Qed.

Lemma edit_unchanged_roundtrip_witness :
  formWritten morningRow ["Monday"; "Friday"]
  /\ exists f p,
       populate morningRow = Some f
       /\ days f = ["Monday"; "Friday"]
       /\ handleSubmit f = Submit p
       /\ UpdateSpec.patch p morningRow = morningRow.
Proof.
  split; [exact morningRow_formWritten|].
  destruct (edit_unchanged_roundtrip morningRow ["Monday"; "Friday"]
              (SQLite.mkDb [demoUser] [morningRow] 1 5)
              morningRow_formWritten) as (f & p & Hf & Hd & Hs & Hp & _).
  exists f, p. repeat split; assumption.
Defined.

(** X6.  A charge schedule whose level is NULL (which is how a level of 0 is
    created) does not pass validation when it is opened in the form and saved
    untouched: the level field is loaded empty. *)
Theorem edit_null_level_rejected
  (r : Schedule.t) (selected : list string)
  (Hdays : Schedule.days r = JS.JSON_stringify selected)
  (Hsel : selected <> [])
  (Hname : JS.trim (Schedule.name r) <> "")
  (Hready : exists t, Schedule.readyByTime r = Some t /\ t <> "")
  (Htype : Schedule.type r = charge)
  (Hnull : Schedule.desiredChargeLevel r = None) :
  exists f,
    populate r = Some f
    /\ desiredChargeLevel f = ""
    /\ handleSubmit f = alertOf OutOfRange_desiredChargeLevel.
Proof.
  unfold populate. rewrite Hdays, JSON_parse_stringify.
  destruct Hready as (t & Ht & Hne).
  eexists. split; [reflexivity|]. rewrite Hnull. split; [reflexivity|].
  rewrite handleSubmit_charge; [reflexivity | | exact Htype].
  repeat split; cbn [name days type readyByTime]; try assumption.
  rewrite Htype, Ht, orEmpty_some; assumption.
Qed.

Definition zeroLevelRow : Schedule.t :=
  Schedule.mk 1 1 charge "Night" (JS.JSON_stringify ["Monday"])
    None None (Some "07:00") None None true "2025-01-02T00:00:00.000Z".

Lemma edit_null_level_rejected_witness :
  exists f,
    populate zeroLevelRow = Some f
    /\ handleSubmit f = alertOf OutOfRange_desiredChargeLevel.
Proof.
  destruct (edit_null_level_rejected zeroLevelRow ["Monday"]) as (f & Hf & _ & Hs);
    try reflexivity; try discriminate.
  - exists "07:00". split; [reflexivity | discriminate].
  - exists f. split; assumption.
Defined.

(** X7.  Saving the form over an existing row never clears a column.  The row keeps
    its id, owner and creation time, takes the name, type and days of the form
    and the fields of the form's type, becomes active, and keeps whatever it
    held in the fields of the other types. *)
Theorem edit_keeps_other_fields
  (f : FormData) (p : PartialSchedule.t) (r : Schedule.t) (db : SQLite.Db)
  (Hsubmit : handleSubmit f = Submit p) (Hin : In r (SQLite.schedules db)) :
  In (UpdateSpec.patch p r)
     (SQLite.schedules (snd (DatabaseService.updateSchedule (Schedule.id r) p db)))
  /\ Schedule.id (UpdateSpec.patch p r) = Schedule.id r
  /\ Schedule.userId (UpdateSpec.patch p r) = Schedule.userId r
  /\ Schedule.createdAt (UpdateSpec.patch p r) = Schedule.createdAt r
  /\ Schedule.isActive (UpdateSpec.patch p r) = true
  /\ Schedule.type (UpdateSpec.patch p r) = type f
  /\ Schedule.name (UpdateSpec.patch p r) = JS.trim (name f)
  /\ Schedule.days (UpdateSpec.patch p r) = JS.JSON_stringify (days f)
  /\ match type f with
     | time =>
         Schedule.startTime (UpdateSpec.patch p r) = Some (startTime f)
         /\ Schedule.endTime (UpdateSpec.patch p r) = Some (endTime f)
         /\ Schedule.readyByTime (UpdateSpec.patch p r) = Schedule.readyByTime r
         /\ Schedule.desiredChargeLevel (UpdateSpec.patch p r)
            = Schedule.desiredChargeLevel r
         /\ Schedule.desiredMileage (UpdateSpec.patch p r) = Schedule.desiredMileage r
     | charge =>
         Schedule.startTime (UpdateSpec.patch p r) = Schedule.startTime r
         /\ Schedule.endTime (UpdateSpec.patch p r) = Schedule.endTime r
         /\ Schedule.readyByTime (UpdateSpec.patch p r) = Some (readyByTime f)
         /\ Schedule.desiredChargeLevel (UpdateSpec.patch p r)
            = JS.parseInt (desiredChargeLevel f)
         /\ Schedule.desiredMileage (UpdateSpec.patch p r) = Schedule.desiredMileage r
     | mileage =>
         Schedule.startTime (UpdateSpec.patch p r) = Schedule.startTime r
         /\ Schedule.endTime (UpdateSpec.patch p r) = Schedule.endTime r
         /\ Schedule.readyByTime (UpdateSpec.patch p r) = Some (readyByTime f)
         /\ Schedule.desiredChargeLevel (UpdateSpec.patch p r)
            = Schedule.desiredChargeLevel r
         /\ Schedule.desiredMileage (UpdateSpec.patch p r)
            = JS.parseInt (desiredMileage f)
     end.
Proof.
  split.
  { rewrite updateSchedule_patch
      by (apply no_owner_not_missing; exact (handleSubmit_no_userId f p Hsubmit)).
    simpl. apply in_map_iff. exists r.
    split; [now rewrite Z.eqb_refl | exact Hin]. }
  destruct (handleSubmit_Submit_inv f p Hsubmit) as [Hp Hr].
  destruct (type f) eqn:Hty.
  - rewrite (handleSubmit_time f Hp Hty) in Hsubmit. injection Hsubmit as <-.
    simpl. repeat split.
  - rewrite (handleSubmit_charge f Hp Hty) in Hsubmit.
    rewrite (inRange_not_outOfRange _ _ Hr) in Hsubmit. injection Hsubmit as <-.
    destruct Hr as (n & Hn & _). rewrite Hn. simpl. repeat split.
  - rewrite (handleSubmit_mileage f Hp Hty) in Hsubmit.
    rewrite (inRange_not_outOfRange _ _ Hr) in Hsubmit. injection Hsubmit as <-.
    destruct Hr as (n & Hn & _). rewrite Hn. simpl. repeat split.
Qed.

(** The morning schedule of [morningRow], saved from the form as a charge
    schedule, keeps its start and end time. *)
Lemma edit_keeps_other_fields_witness :
  exists p,
    handleSubmit (chargeForm "0") = Submit p
    /\ Schedule.type (UpdateSpec.patch p morningRow) = charge
    /\ Schedule.startTime (UpdateSpec.patch p morningRow) = Some "06:00"
    /\ Schedule.desiredChargeLevel (UpdateSpec.patch p morningRow) = Some 0.
Proof.
  assert (H : exists p, handleSubmit (chargeForm "0") = Submit p)
    by (eexists; reflexivity).
  destruct H as [p Hp]. exists p. split; [exact Hp|].
  destruct (edit_keeps_other_fields (chargeForm "0") p morningRow
              (SQLite.mkDb [demoUser] [morningRow] 1 5) Hp (or_introl eq_refl))
    as (_ & _ & _ & _ & _ & Hty & _ & _ & Hst & _ & _ & Hcl & _).
  repeat split; assumption.
Defined.

End EditFacts2.

(* ================================================================= *)
(** ** Invariants of the store *)

Section StoreInvariants.

Import SQLite.

(** Primary keys and UNIQUE columns hold distinct values, and no stored rowid
    is above the counter of its table. *)
Definition UsersWF (db : Db) : Prop :=
  NoDup (map User.id (users db))
  /\ NoDup (map User.username (users db))
  /\ NoDup (map User.email (users db))
  /\ Forall (fun u => User.id u <= users_seq db) (users db).

Definition SchedulesWF (db : Db) : Prop :=
  NoDup (map Schedule.id (schedules db))
  /\ Forall (fun r => Schedule.id r <= schedules_seq db) (schedules db).

Definition WF (db : Db) : Prop := UsersWF db /\ SchedulesWF db.

Lemma NoDup_map_snoc {A B : Type} (f : A -> B) (l : list A) (x : A) :
  NoDup (map f l) -> (forall y, In y l -> f y <> f x) -> NoDup (map f (l ++ [x])).
Proof.
  intros Hnd Hfresh. rewrite map_app. simpl.
  apply NoDup_app; [exact Hnd | repeat constructor; auto |].
  intros b Hb [<-|[]]. apply in_map_iff in Hb. destruct Hb as (y & E & Hy).
  exact (Hfresh y Hy E).
Qed.

Lemma NoDup_map_filter {A B : Type} (f : A -> B) (g : A -> bool) (l : list A) :
  NoDup (map f l) -> NoDup (map f (filter g l)).
Proof.
  induction l as [|x l IH]; simpl; intros H; [constructor|].
  inversion H as [|? ? Hx Hl]; subst. destruct (g x); simpl; [|auto].
  constructor; [|auto]. intros Hin. apply Hx.
  apply in_map_iff in Hin. destruct Hin as (y & E & Hy).
  apply filter_In in Hy. apply in_map_iff. exists y. tauto.
Qed.

Lemma Forall_le_next {A : Type} (rowid : A -> Z) (rows : list A) (seq : Z) :
  Forall (fun r => rowid r <= next_rowid rowid rows seq) rows.
Proof.
  apply Forall_forall. intros r Hr.
  pose proof (max_rowid_ge rowid rows r Hr). unfold next_rowid. lia.
Qed.

Lemma existsb_false_forall {A : Type} (f : A -> bool) (l : list A) :
  existsb f l = false -> forall x, In x l -> f x = false.
Proof.
  intros H x Hx. destruct (f x) eqn:E; [|reflexivity].
  assert (existsb f l = true) by (apply existsb_exists; eauto). congruence.
Qed.

Lemma insert_user_WF (username email password now : string) (db db' : Db) (id : Z) :
  insert_user username email password now db = inr (id, db') ->
  UsersWF db -> UsersWF db' /\ schedules db' = schedules db
                /\ schedules_seq db' = schedules_seq db.
Proof.
  unfold insert_user.
  destruct (existsb (fun u => (User.email u =? email)%string) (users db)) eqn:He;
    [discriminate|].
  destruct (existsb (fun u => (User.username u =? username)%string) (users db))
    eqn:Hn; [discriminate|].
  intros [= <- <-] (Hid & Hname & Hmail & Hseq).
  split; [|split; reflexivity]. unfold UsersWF. simpl. repeat apply conj.
  - apply NoDup_map_snoc; [exact Hid|]. intros y Hy. simpl.
    now apply next_rowid_fresh.
  - apply NoDup_map_snoc; [exact Hname|]. intros y Hy. simpl.
    apply String.eqb_neq. exact (existsb_false_forall _ _ Hn y Hy).
  - apply NoDup_map_snoc; [exact Hmail|]. intros y Hy. simpl.
    apply String.eqb_neq. exact (existsb_false_forall _ _ He y Hy).
  - apply Forall_app. split; [apply Forall_le_next|].
    repeat constructor. simpl. lia.
Qed.

Lemma insert_schedule_WF (row : Schedule.t) (db db' : Db) (id : Z) :
  insert_schedule row db = inr (id, db') ->
  SchedulesWF db -> SchedulesWF db' /\ users db' = users db
                    /\ users_seq db' = users_seq db.
Proof.
  unfold insert_schedule. destruct (has_user _ db); [|discriminate].
  intros [= <- <-] (Hid & Hseq).
  split; [|split; reflexivity]. unfold SchedulesWF. simpl. split.
  - apply NoDup_map_snoc; [exact Hid|]. intros y Hy. simpl.
    now apply next_rowid_fresh.
  - apply Forall_app. split; [apply Forall_le_next|].
    repeat constructor. simpl. lia.
Qed.

Lemma assign_id (r : Schedule.t) (a : Assignment) :
  Schedule.id (assign r a) = Schedule.id r.
Proof. destruct r, a; reflexivity. Qed.

Lemma fold_assign_id (sets : list Assignment) (r : Schedule.t) :
  Schedule.id (fold_left assign sets r) = Schedule.id r.
Proof.
  revert r. induction sets as [|a sets IH]; intros r; simpl; [reflexivity|].
  now rewrite IH, assign_id.
Qed.

Lemma update_schedules_WF (sets : list Assignment) (id : Z) (db db' : Db) :
  update_schedules sets id db = inr db' ->
  map Schedule.id (schedules db') = map Schedule.id (schedules db)
  /\ users db' = users db /\ users_seq db' = users_seq db
  /\ schedules_seq db' = schedules_seq db.
Proof.
  unfold update_schedules. destruct (_ && _); [discriminate|].
  intros [= <-]. simpl. repeat split. rewrite map_map. apply map_ext.
  intros r. destruct (Schedule.id r =? id); [apply fold_assign_id | reflexivity].
Qed.

Lemma SchedulesWF_same_ids (db db' : Db) :
  map Schedule.id (schedules db') = map Schedule.id (schedules db) ->
  schedules_seq db' = schedules_seq db ->
  SchedulesWF db -> SchedulesWF db'.
Proof.
  intros Hids Hseq (Hnd & Hle). split; [now rewrite Hids|].
  rewrite Hseq. apply Forall_forall. intros r Hr.
  assert (Hin : In (Schedule.id r) (map Schedule.id (schedules db)))
    by (rewrite <- Hids; now apply in_map).
  apply in_map_iff in Hin. destruct Hin as (r0 & E & Hr0).
  rewrite Forall_forall in Hle. rewrite <- E. now apply Hle.
Qed.

Lemma insertDemoData_WF (t : Lifecycle.DemoTimes) (db : Db) :
  WF db -> WF (snd (Lifecycle.insertDemoData t db)).
Proof.
  intros [Hu Hs]. unfold Lifecycle.insertDemoData.
  destruct (select_users_by_username "demo" db); cbn [snd]; [|now split].
  destruct (insert_user _ _ _ _ db) as [e|[uid db1]] eqn:E1; cbn [snd]; [now split|].
  destruct (insert_user_WF _ _ _ _ _ _ _ E1 Hu) as (Hu1 & Hss1 & Hseq1).
  assert (Hs1 : SchedulesWF db1) by (unfold SchedulesWF; now rewrite Hss1, Hseq1).
  destruct (insert_schedule _ db1) as [e|[id2 db2]] eqn:E2; cbn [snd];
    [now split|].
  destruct (insert_schedule_WF _ _ _ _ E2 Hs1) as (Hs2 & Hus2 & Hseq2).
  assert (Hu2 : UsersWF db2) by (unfold UsersWF; now rewrite Hus2, Hseq2).
  destruct (insert_schedule _ db2) as [e|[id3 db3]] eqn:E3; cbn [snd];
    [now split|].
  destruct (insert_schedule_WF _ _ _ _ E3 Hs2) as (Hs3 & Hus3 & Hseq3).
  split; [|exact Hs3]. unfold UsersWF. now rewrite Hus3, Hseq3.
Qed.

(** X8.  The store stays well formed.  Starting from a store whose keys and UNIQUE
    columns are distinct and whose rowids are below the counters, every method
    of the service, of the legacy service, and the seeding of demo data leaves
    such a store, whether it resolves or is rejected. *)
Theorem store_stays_well_formed (db : Db) (Hwf : WF db) :
  (forall username email password now,
     WF (snd (DatabaseService.createUser username email password now db)))
  /\ (forall d now, WF (snd (DatabaseService.createSchedule d now db)))
  /\ (forall id p, WF (snd (DatabaseService.updateSchedule id p db)))
  /\ (forall id, WF (snd (DatabaseService.deleteSchedule id db)))
  /\ (forall d now, WF (snd (LegacyDatabaseService.createSchedule d now db)))
  /\ (forall id p, WF (snd (LegacyDatabaseService.updateSchedule id p db)))
  /\ (forall t, WF (snd (Lifecycle.insertDemoData t db))).
Proof.
  destruct Hwf as [Hu Hs]. repeat apply conj.
  - intros username email password now. unfold DatabaseService.createUser.
    destruct (insert_user username email password now db) as [e|[id db']] eqn:E;
      cbn [snd]; [now split|].
    destruct (insert_user_WF _ _ _ _ _ _ _ E Hu) as (Hu' & Hss & Hseq).
    split; [exact Hu'|]. unfold SchedulesWF. now rewrite Hss, Hseq.
  - intros d now. unfold DatabaseService.createSchedule.
    destruct (_ >=? 10); cbn [snd]; [now split|].
    destruct (insert_schedule (insertValues d now) db) as [e|[id db']] eqn:E;
      cbn [snd]; [now split|].
    destruct (insert_schedule_WF _ _ _ _ E Hs) as (Hs' & Hus & Hseq).
    split; [|exact Hs']. unfold UsersWF. now rewrite Hus, Hseq.
  - intros id p. unfold DatabaseService.updateSchedule.
    destruct (_ =? _)%nat; cbn [snd]; [now split|].
    destruct (update_schedules (fieldsAndValues p) id db) as [e|db'] eqn:E;
      cbn [snd]; [now split|].
    destruct (update_schedules_WF _ _ _ _ E) as (Hids & Hus & Huseq & Hsseq).
    split; [unfold UsersWF; now rewrite Hus, Huseq|].
    now apply (SchedulesWF_same_ids db db').
  - intros id. simpl. split; [exact Hu|]. destruct Hs as [Hnd Hle].
    split; simpl; [now apply NoDup_map_filter|].
    apply Forall_forall. intros r Hr. apply filter_In in Hr.
    rewrite Forall_forall in Hle. now apply Hle.
  - intros d now. now split.
  - intros id p. unfold LegacyDatabaseService.updateSchedule.
    destruct (_ =? _)%nat; now split.
  - intros t. apply insertDemoData_WF. now split.
Qed.

Lemma emptyDb_WF : WF emptyDb.
Proof. repeat split; constructor. Qed.

Lemma userDb_WF : WF userDb.
Proof.
  repeat split; simpl; repeat constructor; simpl; try tauto. lia.
Qed.

Lemma store_stays_well_formed_witness :
  WF userDb
  /\ WF (snd (DatabaseService.createSchedule (nightCharge 80)
                "2025-01-02T00:00:00.000Z" userDb)).
Proof.
  split; [exact userDb_WF|].
  destruct (store_stays_well_formed userDb userDb_WF) as (_ & H & _).
  apply H.
Defined.

End StoreInvariants.

(* ================================================================= *)
(** ** Users: lookup, registration, login, sessions *)

Section UserFacts.

Import SQLite AuthContext.

Lemma item0_filter_unique {A : Type} (f : A -> bool) (l : list A) (x : A) :
  In x l -> f x = true -> (forall y, In y l -> f y = true -> y = x) ->
  item0 (filter f l) = Some x.
Proof.
  intros Hin Hf Huniq.
  assert (Hx : In x (filter f l)) by (apply filter_In; auto).
  destruct (filter f l) as [|y rest] eqn:E; [destruct Hx|]. simpl. f_equal.
  assert (Hy : In y (filter f l)) by (rewrite E; now left).
  apply filter_In in Hy. now apply Huniq.
Qed.

Lemma NoDup_map_inj {A B : Type} (f : A -> B) (l : list A) (x y : A) :
  NoDup (map f l) -> In x l -> In y l -> f x = f y -> x = y.
Proof.
  induction l as [|a l IH]; simpl; intros Hnd Hx Hy E; [destruct Hx|].
  inversion Hnd as [|? ? Ha Hl]; subst.
  destruct Hx as [->|Hx], Hy as [->|Hy]; auto.
  - exfalso. apply Ha. rewrite E. now apply in_map.
  - exfalso. apply Ha. rewrite <- E. now apply in_map.
Qed.

Lemma item0_filter_In {A : Type} (f : A -> bool) (l : list A) (x : A) :
  item0 (filter f l) = Some x -> In x l /\ f x = true.
Proof.
  intros H. apply filter_In. destruct (filter f l); [discriminate|].
  injection H as ->. now left.
Qed.

Lemma getUserById_unique (db : Db) (u : User.t) :
  NoDup (map User.id (users db)) -> In u (users db) ->
  DatabaseService.getUserById (User.id u) db = (Resolved (Some u), db).
Proof.
  intros Hnd Hin. unfold DatabaseService.getUserById, select_users_by_id.
  rewrite (item0_filter_unique _ _ u); auto using Z.eqb_refl.
  intros y Hy E. apply Z.eqb_eq in E. exact (NoDup_map_inj _ _ _ _ Hnd Hy Hin E).
Qed.

Lemma getUserByUsername_unique (db : Db) (u : User.t) :
  NoDup (map User.username (users db)) -> In u (users db) ->
  DatabaseService.getUserByUsername (User.username u) db = (Resolved (Some u), db).
Proof.
  intros Hnd Hin. unfold DatabaseService.getUserByUsername, select_users_by_username.
  rewrite (item0_filter_unique _ _ u); auto using String.eqb_refl.
  intros y Hy E. apply String.eqb_eq in E. exact (NoDup_map_inj _ _ _ _ Hnd Hy Hin E).
Qed.

(** X9.  Looking users up.  In a well-formed store, [getUserById] and
    [getUserByUsername] resolve with a user exactly when that user is stored
    under the key, and with [null] exactly when no user has the key; neither
    changes the store. *)
Theorem user_lookup_exact (db : Db) (Hwf : UsersWF db) :
  (forall id u,
     DatabaseService.getUserById id db = (Resolved (Some u), db)
     <-> In u (users db) /\ User.id u = id)
  /\ (forall id,
        DatabaseService.getUserById id db = (Resolved None, db)
        <-> forall u, In u (users db) -> User.id u <> id)
  /\ (forall username u,
        DatabaseService.getUserByUsername username db = (Resolved (Some u), db)
        <-> In u (users db) /\ User.username u = username)
  /\ (forall username,
        DatabaseService.getUserByUsername username db = (Resolved None, db)
        <-> forall u, In u (users db) -> User.username u <> username).
Proof.
  destruct Hwf as (Hid & Hname & _ & _). repeat apply conj.
  - intros id u. split.
    + unfold DatabaseService.getUserById, select_users_by_id. intros [= H].
      apply item0_filter_In in H. now rewrite Z.eqb_eq in H.
    + intros [Hin <-]. now apply getUserById_unique.
  - intros id. split.
    + unfold DatabaseService.getUserById, select_users_by_id. intros [= H] u Hu E.
      assert (Hx : In u (filter (fun u => User.id u =? id) (users db)))
        by (apply filter_In; split; [exact Hu | now apply Z.eqb_eq]).
      destruct (filter _ (users db)); [destruct Hx | discriminate H].
    + intros H. unfold DatabaseService.getUserById, select_users_by_id.
      rewrite filter_none; [reflexivity|]. intros u Hu. apply Z.eqb_neq. now apply H.
  - intros username u. split.
    + unfold DatabaseService.getUserByUsername, select_users_by_username. intros [= H].
      apply item0_filter_In in H. now rewrite String.eqb_eq in H.
    + intros [Hin <-]. now apply getUserByUsername_unique.
  - intros username. split.
    + unfold DatabaseService.getUserByUsername, select_users_by_username.
      intros [= H] u Hu E.
      assert (Hx : In u (filter (fun u => (User.username u =? username)%string)
                           (users db)))
        by (apply filter_In; split; [exact Hu | now apply String.eqb_eq]).
      destruct (filter _ (users db)); [destruct Hx | discriminate H].
    + intros H. now apply getUserByUsername_not_found.
Qed.

Lemma demoDb_UsersWF : UsersWF (db demoState).
Proof.
  repeat split; simpl; repeat constructor; simpl; intuition; lia.
Qed.

Lemma user_lookup_exact_witness :
  UsersWF (db demoState)
  /\ DatabaseService.getUserByUsername "demo" (db demoState)
     = (Resolved (Some demoUser), db demoState).
Proof.
  split; [exact demoDb_UsersWF|].
  destruct (user_lookup_exact (db demoState) demoDb_UsersWF) as (_ & _ & H & _).
  apply H. split; [now left | reflexivity].
Defined.

(** [createUser] with a new username and a new email, in closed form. *)
Lemma createUser_new (username email password now : string) (db : Db) :
  (forall u, In u (users db) -> User.username u <> username) ->
  (forall u, In u (users db) -> User.email u <> email) ->
  let id := next_rowid User.id (users db) (users_seq db) in
  let u := User.mk id username email password now in
  DatabaseService.createUser username email password now db
  = (Resolved (Some u), mkDb (users db ++ [u]) (schedules db) id (schedules_seq db)).
Proof.
  intros Hname Hmail id u. unfold DatabaseService.createUser, insert_user.
  destruct (existsb (fun u => (User.username u =? username)%string) (users db))
    eqn:E1.
  { apply existsb_username in E1. destruct E1 as (x & Hx & E).
    now apply Hname in Hx. }
  destruct (existsb (fun u => (User.email u =? email)%string) (users db)) eqn:E2.
  { apply existsb_email in E2. destruct E2 as (x & Hx & E).
    now apply Hmail in Hx. }
  fold id. fold u. unfold select_users_by_id. simpl.
  rewrite filter_app. simpl. rewrite Z.eqb_refl.
  rewrite filter_none; [reflexivity|].
  intros x Hx. apply Z.eqb_neq. now apply next_rowid_fresh.
Qed.

(** X10.  Creating a user.  [createUser] resolves exactly when neither the username
    nor the email is stored yet.  It then appends one user with the given
    fields, an id no stored user has and the time of the call, touches no
    schedule, and that user is what [getUserById] and [getUserByUsername]
    return afterwards.  Otherwise it is rejected and the store is unchanged. *)
Theorem createUser_roundtrip (username email password now : string) (db : Db) :
  ((forall u, In u (users db) ->
      User.username u <> username /\ User.email u <> email) ->
   exists u db',
     DatabaseService.createUser username email password now db
     = (Resolved (Some u), db')
     /\ users db' = users db ++ [u]
     /\ schedules db' = schedules db
     /\ User.username u = username /\ User.email u = email
     /\ User.password u = password /\ User.createdAt u = now
     /\ (forall v, In v (users db) -> User.id v <> User.id u)
     /\ DatabaseService.getUserById (User.id u) db' = (Resolved (Some u), db')
     /\ DatabaseService.getUserByUsername username db' = (Resolved (Some u), db'))
  /\
  ((exists u, In u (users db)
              /\ (User.username u = username \/ User.email u = email)) ->
   exists e,
     DatabaseService.createUser username email password now db
     = (Rejected (SQLError e), db)).
Proof.
  split; [|apply createUser_duplicate].
  intros Hnew.
  assert (Hname : forall u, In u (users db) -> User.username u <> username)
    by (intros u Hu; now apply Hnew).
  assert (Hmail : forall u, In u (users db) -> User.email u <> email)
    by (intros u Hu; now apply Hnew).
  rewrite (createUser_new username email password now db Hname Hmail).
  do 2 eexists. split; [reflexivity|]. simpl. repeat apply conj; try reflexivity.
  - intros v Hv. now apply next_rowid_fresh.
  - unfold DatabaseService.getUserById, select_users_by_id. simpl.
    rewrite filter_app. simpl. rewrite Z.eqb_refl.
    rewrite filter_none; [reflexivity|].
    intros x Hx. apply Z.eqb_neq. now apply next_rowid_fresh.
  - unfold DatabaseService.getUserByUsername, select_users_by_username. simpl.
    rewrite filter_app. simpl. rewrite String.eqb_refl.
    rewrite filter_none; [reflexivity|].
    intros x Hx. apply String.eqb_neq. now apply Hname.
Qed.

Lemma createUser_roundtrip_witness :
  exists u db',
    DatabaseService.createUser "ada" "ada@andersenev.com" "secret"
      "2025-02-01T00:00:00.000Z" (db demoState) = (Resolved (Some u), db')
    /\ DatabaseService.getUserByUsername "ada" db' = (Resolved (Some u), db').
Proof.
  destruct (createUser_roundtrip "ada" "ada@andersenev.com" "secret"
              "2025-02-01T00:00:00.000Z" (db demoState)) as [Hnew _].
  destruct Hnew as (u & db' & Hc & _ & _ & _ & _ & _ & _ & _ & _ & Hl).
  - intros u [<-|[]]. split; discriminate.
  - exists u, db'. split; assumption.
Defined.

End UserFacts.

Section AuthFacts.

Import SQLite AuthContext.

(** X11.  Logging in.  [login] never changes the store.  In a well-formed store it
    returns true exactly when a stored user has the username and exactly that
    password; it then signs that user in and keeps its id, as text, under
    ['user_id'].  When it returns false the signed-in user and ['user_id'] are
    as before. *)
Theorem login_exact (username password : string) (st : State)
  (Hwf : UsersWF (db st)) :
  db (snd (login username password st)) = db st
  /\ (fst (login username password st) = true
      <-> exists u, In u (users (db st)) /\ User.username u = username
                    /\ User.password u = password)
  /\ (forall u, In u (users (db st)) -> User.username u = username ->
        User.password u = password ->
        login username password st
        = (true, mkState (db st) (Some u) (Some (JS.toString (User.id u)))
                   (calls st ++ [call_getUserByUsername username])))
  /\ (fst (login username password st) = false ->
        user (snd (login username password st)) = user st
        /\ user_id (snd (login username password st)) = user_id st).
Proof.
  destruct Hwf as (_ & Hname & _ & _).
  assert (Hfound : forall u, In u (users (db st)) -> User.username u = username ->
            DatabaseService.getUserByUsername username (db st)
            = (Resolved (Some u), db st)).
  { intros u Hu <-. now apply getUserByUsername_unique. }
  unfold login.
  destruct (DatabaseService.getUserByUsername username (db st)) as [found db1] eqn:E.
  assert (Hdb : db1 = db st) by (unfold DatabaseService.getUserByUsername in E; congruence).
  subst db1. split; [|split; [|split]].
  - destruct found as [[u|]|e]; [destruct (User.password u =? password)%string|..]; reflexivity.
  - split.
    + destruct found as [[u|]|e]; [|discriminate..].
      destruct (User.password u =? password)%string eqn:Hp; [|discriminate].
      intros _. exists u. apply String.eqb_eq in Hp.
      unfold DatabaseService.getUserByUsername, select_users_by_username in E.
      injection E as E. apply item0_filter_In in E.
      rewrite String.eqb_eq in E. tauto.
    + intros (u & Hu & Hn & Hp). pose proof (Hfound u Hu Hn) as E'.
      injection E' as ->. subst password. simpl.
      now rewrite String.eqb_refl.
  - intros u Hu Hn Hp. pose proof (Hfound u Hu Hn) as E'.
    injection E' as ->. subst password.
    now rewrite String.eqb_refl.
  - destruct found as [[u|]|e]; [destruct (User.password u =? password)%string|..];
      simpl; intros H; try discriminate H; split; reflexivity.
Qed.

Lemma login_exact_witness :
  UsersWF (db demoState)
  /\ login "demo" "demo123" demoState
     = (true, mkState (db demoState) (Some demoUser) (Some "1")
                [call_getUserByUsername "demo"]).
Proof.
  split; [exact demoDb_UsersWF|].
  destruct (login_exact "demo" "demo123" demoState demoDb_UsersWF)
    as (_ & _ & H & _).
  apply (H demoUser); [now left | reflexivity | reflexivity].
Defined.

(** X12.  Registering, then logging in.  With a username and an email that no stored
    user has, [register] returns true, stores one new user with the given
    fields and signs it in; afterwards, from any session state over that store,
    [login] with the same username and password returns true and signs the
    same user in, and [login] with another password returns false. *)
Theorem register_then_login
  (username email password now : string) (st : State)
  (Hname : forall u, In u (users (db st)) -> User.username u <> username)
  (Hmail : forall u, In u (users (db st)) -> User.email u <> email) :
  exists u st',
    register username email password now st = (true, st')
    /\ users (db st') = users (db st) ++ [u]
    /\ schedules (db st') = schedules (db st)
    /\ User.username u = username /\ User.email u = email
    /\ User.password u = password /\ User.createdAt u = now
    /\ user st' = Some u
    /\ user_id st' = Some (JS.toString (User.id u))
    /\ (forall st2, db st2 = db st' ->
          fst (login username password st2) = true
          /\ user (snd (login username password st2)) = Some u)
    /\ (forall st2 other, db st2 = db st' -> other <> password ->
          fst (login username other st2) = false).
Proof.
  unfold register.
  rewrite (getUserByUsername_not_found username (db st) Hname).
  rewrite (createUser_new username email password now (db st) Hname Hmail).
  set (u := User.mk (next_rowid User.id (users (db st)) (users_seq (db st)))
              username email password now).
  do 2 eexists. split; [reflexivity|]. simpl.
  assert (Hlookup : forall st2,
            db st2 = mkDb (users (db st) ++ [u]) (schedules (db st))
                       (User.id u) (schedules_seq (db st)) ->
            DatabaseService.getUserByUsername username (db st2)
            = (Resolved (Some u), db st2)).
  { intros st2 ->. unfold DatabaseService.getUserByUsername,
      select_users_by_username. simpl.
    rewrite filter_app. simpl. rewrite String.eqb_refl.
    rewrite filter_none; [reflexivity|].
    intros x Hx. apply String.eqb_neq. now apply Hname. }
  repeat apply conj; try reflexivity.
  - intros st2 Hdb. unfold login. rewrite (Hlookup st2 Hdb). simpl.
    rewrite String.eqb_refl. split; reflexivity.
  - intros st2 other Hdb Hother. unfold login. rewrite (Hlookup st2 Hdb). simpl.
    assert (E : (password =? other)%string = false)
      by (apply String.eqb_neq; congruence).
    now rewrite E.
Qed.

Lemma register_then_login_witness :
  exists u st',
    register "ada" "ada@andersenev.com" "secret" "2025-02-01T00:00:00.000Z" demoState
    = (true, st')
    /\ fst (login "ada" "secret" (logout st')) = true
    /\ user (snd (login "ada" "secret" (logout st'))) = Some u.
Proof.
  destruct (register_then_login "ada" "ada@andersenev.com" "secret"
              "2025-02-01T00:00:00.000Z" demoState)
    as (u & st' & Hr & _ & _ & _ & _ & _ & _ & _ & _ & Hl & _).
  - intros u [<-|[]]. discriminate.
  - intros u [<-|[]]. discriminate.
  - exists u, st'. split; [exact Hr|]. apply Hl. reflexivity.
Defined.

End AuthFacts.

(* ================================================================= *)
(** ** Start-up: demo data and the saved session *)

Section StartupFacts.

Import SQLite Lifecycle AuthContext.

(** Whether [INSERT INTO users] is refused does not depend on the time. *)
Lemma insert_user_refused_any_time (username email password now now' : string)
      (db : Db) (e : SqlError) :
  insert_user username email password now db = inl e ->
  insert_user username email password now' db = inl e.
Proof.
  unfold insert_user.
  destruct (existsb (fun u => (User.email u =? email)%string) (users db));
    [trivial|].
  destruct (existsb _ (users db)); [trivial | discriminate].
Qed.

(** [insertDemoData], in closed form. *)
Lemma insertDemoData_cases (t : DemoTimes) (db : Db) :
  (snd (insertDemoData t db) = db
   /\ ((exists u, In u (users db) /\ User.username u = "demo")
       \/ (exists u, In u (users db) /\ User.email u = "demo@andersenev.com")))
  \/
  (exists demo morning weekend,
     (forall u, In u (users db) -> User.username u <> "demo")
     /\ (forall u, In u (users db) -> User.email u <> "demo@andersenev.com")
     /\ users (snd (insertDemoData t db)) = users db ++ [demo]
     /\ schedules (snd (insertDemoData t db)) = schedules db ++ [morning; weekend]
     /\ demo = User.mk (next_rowid User.id (users db) (users_seq db))
                 "demo" "demo@andersenev.com" "demo123" (userTime t)
     /\ Schedule.userId morning = User.id demo
     /\ Schedule.userId weekend = User.id demo
     /\ Schedule.type morning = time /\ Schedule.type weekend = charge
     /\ Schedule.desiredChargeLevel weekend = Some 100).
Proof.
  unfold insertDemoData.
  destruct (select_users_by_username "demo" db) as [|x rest] eqn:Es.
  - unfold insert_user.
    assert (Hn : existsb (fun u => (User.username u =? "demo")%string) (users db)
                 = false).
    { destruct (existsb _ (users db)) eqn:E; [|reflexivity].
      apply existsb_username in E. destruct E as (u & Hu & E).
      assert (Hx : In u (select_users_by_username "demo" db)).
      { apply filter_In. split; [exact Hu | now apply String.eqb_eq]. }
      rewrite Es in Hx. destruct Hx. }
    rewrite Hn.
    destruct (existsb (fun u => (User.email u =? "demo@andersenev.com")%string)
                (users db)) eqn:He.
    + left. split; [reflexivity|]. right. now apply existsb_email.
    + right. unfold insert_schedule.
      cbn [Schedule.userId morningCharge weekendFullCharge users schedules
             users_seq schedules_seq].
      rewrite !has_user_inserted. cbn [snd users schedules].
      do 3 eexists.
      split.
      { intros u Hu E.
        assert (existsb (fun u => (User.username u =? "demo")%string) (users db)
                = true) by (apply existsb_username; eauto).
        congruence. }
      split.
      { intros u Hu E.
        assert (existsb (fun u => (User.email u =? "demo@andersenev.com")%string)
                  (users db) = true) by (apply existsb_email; eauto).
        congruence. }
      split; [reflexivity|]. split; [now rewrite <- app_assoc|].
      repeat split.
  - left. split; [reflexivity|]. left.
    assert (Hx : In x (select_users_by_username "demo" db)) by (rewrite Es; now left).
    apply filter_In in Hx. exists x. now rewrite String.eqb_eq in Hx.
Qed.

Lemma insertDemoData_resolves (t : DemoTimes) (db : Db) :
  fst (insertDemoData t db) = Resolved tt.
Proof.
  unfold insertDemoData.
  destruct (select_users_by_username "demo" db); [|reflexivity].
  destruct (insert_user _ _ _ _ db) as [e|[uid db1]]; [reflexivity|].
  destruct (insert_schedule _ db1) as [e|[id2 db2]]; [reflexivity|].
  destruct (insert_schedule _ db2) as [e|[id3 db3]]; reflexivity.
Qed.

Lemma insertDemoData_unchanged_any_time (t t' : DemoTimes) (db : Db) :
  snd (insertDemoData t db) = db -> snd (insertDemoData t' db) = db.
Proof.
  destruct (insertDemoData_cases t' db) as [[H _]|H]; [trivial|].
  destruct H as (demo & m & w & Hn & He & Hu & _). intros Hsame.
  destruct (insertDemoData_cases t db) as [[_ [H|H]]|H].
  - destruct H as (u & Hu' & E). now apply Hn in Hu'.
  - destruct H as (u & Hu' & E). now apply He in Hu'.
  - destruct H as (demo' & m' & w' & _ & _ & Hu' & _).
    rewrite Hsame in Hu'. exfalso.
    apply (f_equal (@List.length _)) in Hu'. rewrite length_app in Hu'. simpl in Hu'.
    lia.
Qed.

Lemma insertDemoData_again (t t' : DemoTimes) (db : Db) :
  snd (insertDemoData t' (snd (insertDemoData t db))) = snd (insertDemoData t db).
Proof.
  destruct (insertDemoData_cases t db) as [[H _]|H].
  - rewrite H. now apply (insertDemoData_unchanged_any_time t t').
  - destruct H as (demo & m & w & _ & _ & Hu & _ & Hdemo & _).
    destruct (insertDemoData_cases t' (snd (insertDemoData t db))) as [[H' _]|H'];
      [exact H'|].
    destruct H' as (d' & m' & w' & Hn' & _). exfalso.
    apply (Hn' demo); [rewrite Hu; apply in_or_app; right; now left|].
    now rewrite Hdemo.
Qed.

(** X13.  Demo data is seeded at most once.  [insertDemoData] always resolves and only
    ever appends rows; it leaves the store alone when a user [demo] exists;
    when neither the name [demo] nor the demo email is taken it adds the user
    [demo] and two schedules owned by it; and running it again, at any later
    time, changes nothing more.  So a service that is initialised, closed and
    initialised again has the store the first initialisation left, whether or
    not [close] gets to clear the flag. *)
Theorem demo_data_seeded_once (t t' : DemoTimes) (handleCloses : bool) (db : Db) :
  fst (insertDemoData t db) = Resolved tt
  /\ (exists us ss,
        users (snd (insertDemoData t db)) = users db ++ us
        /\ schedules (snd (insertDemoData t db)) = schedules db ++ ss)
  /\ ((exists u, In u (users db) /\ User.username u = "demo") ->
      snd (insertDemoData t db) = db)
  /\ ((forall u, In u (users db) ->
         User.username u <> "demo" /\ User.email u <> "demo@andersenev.com") ->
      exists demo,
        In demo (users (snd (insertDemoData t db)))
        /\ User.username demo = "demo" /\ User.password demo = "demo123"
        /\ count_schedules (User.id demo) (snd (insertDemoData t db))
           = count_schedules (User.id demo) db + 2)
  /\ snd (insertDemoData t' (snd (insertDemoData t db))) = snd (insertDemoData t db)
  /\ isInitialized (snd (initialize t (mkService db false))) = true
  /\ store (snd (initialize t' (close handleCloses
                                  (snd (initialize t (mkService db false))))))
     = store (snd (initialize t (mkService db false))).
Proof.
  assert (Hinit : forall time d,
            snd (initialize time (mkService d false))
            = mkService (snd (insertDemoData time d)) true).
  { intros time d. unfold initialize, createTables. cbn [isInitialized store].
    pose proof (insertDemoData_resolves time d) as H.
    destruct (insertDemoData time d) as [[[]|e] d2]; [reflexivity | discriminate]. }
  split; [apply insertDemoData_resolves|].
  split.
  { destruct (insertDemoData_cases t db) as [[H _]|H].
    - exists [], []. rewrite H. now rewrite !app_nil_r.
    - destruct H as (demo & m & w & _ & _ & Hu & Hs & _). eauto. }
  split.
  { intros (u & Hu & E).
    destruct (insertDemoData_cases t db) as [[H _]|H]; [exact H|].
    destruct H as (demo & m & w & Hn & _). now apply Hn in Hu. }
  split.
  { intros Hnew.
    destruct (insertDemoData_cases t db) as [[_ [H|H]]|H].
    - destruct H as (u & Hu & E). now apply Hnew in Hu.
    - destruct H as (u & Hu & E). now apply Hnew in Hu.
    - destruct H as (demo & m & w & _ & _ & Hu & Hs & Hdemo & Hm & Hw & _).
      exists demo. split; [rewrite Hu; apply in_or_app; right; now left|].
      split; [now rewrite Hdemo|]. split; [now rewrite Hdemo|].
      unfold count_schedules. rewrite Hs, filter_app, length_app. simpl.
      rewrite Hm, Hw, Z.eqb_refl. simpl. lia. }
  split; [apply insertDemoData_again|].
  rewrite Hinit. split; [reflexivity|].
  unfold close. destruct handleCloses.
  - cbn [store]. rewrite Hinit. cbn [store]. apply insertDemoData_again.
  - reflexivity.
Qed.

Lemma demo_data_seeded_once_witness :
  exists demo,
    In demo (users (snd (insertDemoData (mkDemoTimes "a" "b" "c") emptyDb)))
    /\ User.username demo = "demo"
    /\ count_schedules (User.id demo)
         (snd (insertDemoData (mkDemoTimes "a" "b" "c") emptyDb)) = 2.
Proof.
  destruct (demo_data_seeded_once (mkDemoTimes "a" "b" "c") (mkDemoTimes "d" "e" "f")
              true emptyDb) as (_ & _ & _ & H & _).
  destruct H as (demo & Hin & Hn & _ & Hc).
  - intros u [].
  - exists demo. repeat split; assumption.
Defined.

End StartupFacts.

Section SessionFacts.

Import SQLite Lifecycle AuthContext Session.

Lemma insertDemoData_keeps_users (t : DemoTimes) (db : Db) (u : User.t) :
  In u (users db) -> In u (users (snd (insertDemoData t db))).
Proof.
  intros Hu. destruct (insertDemoData_cases t db) as [[H _]|H].
  - now rewrite H.
  - destruct H as (demo & m & w & _ & _ & Hus & _). rewrite Hus.
    apply in_or_app. now left.
Qed.

Lemma initialize_store (t : DemoTimes) (db : Db) (flag : bool) :
  exists db',
    initialize t (mkService db flag) = (Resolved tt, mkService db' true)
    /\ (WF db -> WF db')
    /\ (forall u, In u (users db) -> In u (users db')).
Proof.
  unfold initialize, createTables. cbn [isInitialized store]. destruct flag.
  - exists db. split; [reflexivity|]. split; auto.
  - pose proof (insertDemoData_resolves t db) as Hr.
    pose proof (insertDemoData_WF t db) as Hwf.
    pose proof (insertDemoData_keeps_users t db) as Hk.
    destruct (insertDemoData t db) as [[[]|e] db2]; [|discriminate].
    exists db2. split; [reflexivity|]. split; auto.
Qed.

(** X14.  The session survives a restart.  When ['user_id'] holds the id of a stored
    user, as [login] and [register] write it, then after the application is
    closed and opened again [initApp] signs that user in again and keeps
    ['user_id'], whether or not the demo data has to be seeded first.  When
    ['user_id'] holds text that is not a number, [initApp] signs nobody in and
    removes it. *)
Theorem session_restored
  (t : DemoTimes) (initialized : bool) (st : State) (u : User.t)
  (Hwf : WF (db st)) (Hin : In u (users (db st))) :
  (user_id st = Some (JS.toString (User.id u)) ->
     user (fst (initApp t initialized (restart st))) = Some u
     /\ user_id (fst (initApp t initialized (restart st))) = user_id st
     /\ snd (initApp t initialized (restart st)) = true)
  /\ (forall text, user_id st = Some text -> text <> "" ->
        Builtins.parseInt10 text = None ->
        user (fst (initApp t initialized (restart st))) = None
        /\ user_id (fst (initApp t initialized (restart st))) = None).
Proof.
  unfold initApp, restart. cbn [db user user_id calls].
  destruct (initialize_store t (db st) initialized) as (db' & -> & Hwf' & Hkeep).
  cbn [store isInitialized]. unfold restore. cbn [db user user_id calls]. split.
  - intros ->. rewrite toString_truthy, parseInt10_toString.
    destruct (Hwf' Hwf) as [(Hid & _) _].
    rewrite (getUserById_unique db' u Hid (Hkeep u Hin)). repeat split.
  - intros text -> Hne Hnan. apply truthy_true_iff in Hne. rewrite Hne, Hnan.
    split; reflexivity.
Qed.

Lemma session_restored_witness :
  WF (db demoState)
  /\ user (fst (initApp (mkDemoTimes "a" "b" "c") false
                  (restart (snd (login "demo" "demo123" demoState)))))
     = Some demoUser.
Proof.
  assert (Hwf : WF (db demoState)).
  { split; [exact demoDb_UsersWF|]. split; constructor. }
  split; [exact Hwf|].
  destruct (session_restored (mkDemoTimes "a" "b" "c") false
              (snd (login "demo" "demo123" demoState)) demoUser) as [H _].
  - exact Hwf.
  - now left.
  - apply H. reflexivity.
Defined.

End SessionFacts.

(* ================================================================= *)
(** ** Schedules: the limit, counting, isolation, composition *)

Section ScheduleFacts.

Import SQLite UpdateSpec.

(** No user owns more than ten schedules. *)
Definition WithinQuota (db : Db) : Prop :=
  forall userId, count_schedules userId db <= 10.

Lemma count_schedules_nonneg (userId : Z) (db : Db) : 0 <= count_schedules userId db.
Proof. unfold count_schedules. lia. Qed.

Lemma filter_length_le {A : Type} (f : A -> bool) (l : list A) :
  (List.length (filter f l) <= List.length l)%nat.
Proof. induction l as [|x l IH]; simpl; [lia|]. destruct (f x); simpl; lia. Qed.

Lemma filter_filter_comm {A : Type} (f g : A -> bool) (l : list A) :
  filter f (filter g l) = filter g (filter f l).
Proof.
  induction l as [|x l IH]; simpl; [reflexivity|].
  destruct (f x) eqn:Hf, (g x) eqn:Hg; simpl; rewrite ?Hf, ?Hg, IH; reflexivity.
Qed.

Lemma filter_map_same_key {A : Type} (key : A -> bool) (g : A -> A) (l : list A) :
  (forall x, key (g x) = key x) ->
  filter key (map g l) = map g (filter key l).
Proof.
  intros H. induction l as [|x l IH]; simpl; [reflexivity|].
  rewrite H. destruct (key x); simpl; now rewrite IH.
Qed.

Lemma patch_userId (p : PartialSchedule.t) (r : Schedule.t) :
  PartialSchedule.userId p = None ->
  Schedule.userId (patch p r) = Schedule.userId r.
Proof. intros H. simpl. now rewrite H. Qed.

(** The rows of one user after [updateSchedule] with a payload that names no
    owner: the same rows, patched where the id matches. *)
Lemma update_rows_of (userId id : Z) (p : PartialSchedule.t) (db : Db) :
  PartialSchedule.userId p = None ->
  filter (fun r => Schedule.userId r =? userId)
    (schedules (snd (DatabaseService.updateSchedule id p db)))
  = map (fun r => if Schedule.id r =? id then patch p r else r)
      (filter (fun r => Schedule.userId r =? userId) (schedules db)).
Proof.
  intros Hp. rewrite updateSchedule_patch by now apply no_owner_not_missing.
  simpl. apply filter_map_same_key. intros r.
  destruct (Schedule.id r =? id); [|reflexivity]. now rewrite patch_userId.
Qed.

(** The three ways [createSchedule] can end. *)
Lemma createSchedule_rows (d : NewSchedule.t) (now : string) (db : Db) :
  (10 <= count_schedules (NewSchedule.userId d) db
   /\ DatabaseService.createSchedule d now db = (Rejected LimitError, db))
  \/ (count_schedules (NewSchedule.userId d) db < 10
      /\ (forall u, In u (users db) -> User.id u <> NewSchedule.userId d)
      /\ DatabaseService.createSchedule d now db
         = (Rejected (SQLError FOREIGNKEY_schedules), db))
  \/ (count_schedules (NewSchedule.userId d) db < 10
      /\ (exists u, In u (users db) /\ User.id u = NewSchedule.userId d)
      /\ exists row,
           DatabaseService.createSchedule d now db
           = (Resolved (Some row),
              mkDb (users db) (schedules db ++ [row]) (users_seq db) (Schedule.id row))
           /\ Schedule.userId row = NewSchedule.userId d
           /\ Schedule.id row = next_rowid Schedule.id (schedules db) (schedules_seq db)).
Proof.
  destruct (Z_lt_le_dec (count_schedules (NewSchedule.userId d) db) 10) as [Hlt|Hge].
  - right. destruct (has_user (NewSchedule.userId d) db) eqn:Hu.
    + right. apply has_user_true_iff in Hu. split; [exact Hlt|]. split; [exact Hu|].
      exists (with_id (next_rowid Schedule.id (schedules db) (schedules_seq db))
                (insertValues d now)).
      split; [|split; reflexivity].
      exact (createSchedule_below_limit d now db Hlt Hu).
    + left. pose proof (proj1 (has_user_false_iff _ _) Hu) as Hnone.
      split; [exact Hlt|]. split; [exact Hnone|].
      now apply createSchedule_no_owner.
  - left. split; [exact Hge|]. unfold DatabaseService.createSchedule.
    destruct (Z.geb_spec (count_schedules (NewSchedule.userId d) db) 10);
      [reflexivity | lia].
Qed.

Lemma createSchedule_WithinQuota (d : NewSchedule.t) (now : string) (db : Db) :
  WithinQuota db -> WithinQuota (snd (DatabaseService.createSchedule d now db)).
Proof.
  intros Hq.
  destruct (createSchedule_rows d now db)
    as [[_ ->]|[(_ & _ & ->)|(Hlt & _ & row & -> & Hu & _)]]; try exact Hq.
  intros userId. cbn [snd]. rewrite count_schedules_app, Hu.
  destruct (Z.eqb_spec (NewSchedule.userId d) userId) as [<-|_].
  - lia.
  - specialize (Hq userId). lia.
Qed.

Lemma deleteSchedule_count (id userId : Z) (db : Db) :
  count_schedules userId (snd (DatabaseService.deleteSchedule id db))
  <= count_schedules userId db.
Proof.
  unfold count_schedules. simpl. rewrite filter_filter_comm.
  pose proof (filter_length_le (fun r => negb (Schedule.id r =? id))
                (filter (fun r => Schedule.userId r =? userId) (schedules db))).
  lia.
Qed.

Lemma updateSchedule_count (id userId : Z) (p : PartialSchedule.t) (db : Db) :
  PartialSchedule.userId p = None ->
  count_schedules userId (snd (DatabaseService.updateSchedule id p db))
  = count_schedules userId db.
Proof.
  intros Hp. unfold count_schedules. rewrite (update_rows_of userId id p db Hp).
  now rewrite length_map.
Qed.

(** X15.  The limit is an invariant of the screen.  If no user owns more than ten
    schedules, that is still so after [createSchedule], after [deleteSchedule],
    after [updateSchedule] with a payload that names no owner, and therefore
    after the screen saves any payload the form submits, as a new schedule or
    over an existing one. *)
Theorem quota_invariant (db : Db) (Hq : WithinQuota db) :
  (forall d now, WithinQuota (snd (DatabaseService.createSchedule d now db)))
  /\ (forall id, WithinQuota (snd (DatabaseService.deleteSchedule id db)))
  /\ (forall id p, PartialSchedule.userId p = None ->
        WithinQuota (snd (DatabaseService.updateSchedule id p db)))
  /\ (forall f p now st,
        ScheduleForm.handleSubmit f = ScheduleForm.Submit p ->
        ScheduleScreen.db st = db ->
        WithinQuota (ScheduleScreen.db
                       (snd (ScheduleScreen.handleFormSubmit p now st)))).
Proof.
  split; [intros d now; now apply createSchedule_WithinQuota|].
  split.
  { intros id userId. pose proof (deleteSchedule_count id userId db).
    specialize (Hq userId). lia. }
  split.
  { intros id p Hp userId. rewrite (updateSchedule_count id userId p db Hp).
    apply Hq. }
  intros f p now st Hsubmit Hdb.
  assert (Hp : PartialSchedule.userId p = None).
  { destruct (handleSubmit_Submit_inv f p Hsubmit) as [Hpres Hr].
    destruct (ScheduleForm.type f) eqn:Hty.
    - rewrite (handleSubmit_time f Hpres Hty) in Hsubmit. now injection Hsubmit as <-.
    - rewrite (handleSubmit_charge f Hpres Hty) in Hsubmit.
      rewrite (inRange_not_outOfRange _ _ Hr) in Hsubmit. now injection Hsubmit as <-.
    - rewrite (handleSubmit_mileage f Hpres Hty) in Hsubmit.
      rewrite (inRange_not_outOfRange _ _ Hr) in Hsubmit. now injection Hsubmit as <-. }
  unfold ScheduleScreen.handleFormSubmit.
  destruct (ScheduleScreen.user st) as [u|]; [|cbn [snd]; now rewrite Hdb].
  assert (Hsave : WithinQuota (snd (ScheduleScreen.save p now u st))).
  { unfold ScheduleScreen.save, ScheduleService.updateSchedule,
      ScheduleService.createSchedule. rewrite Hdb.
    destruct (ScheduleScreen.editingSchedule st) as [e|].
    - intros userId. rewrite (updateSchedule_count _ userId p db Hp). apply Hq.
    - destruct (ScheduleScreen.withUserId p (User.id u)) as [d|]; [|exact Hq].
      pose proof (createSchedule_WithinQuota d now db Hq) as H.
      destruct (DatabaseService.createSchedule d now db) as [[r|e] db']; exact H. }
  destruct (ScheduleScreen.save p now u st) as [[r|e] db']; cbn [snd] in *.
  - unfold ScheduleScreen.loadSchedules. cbn [ScheduleScreen.user ScheduleScreen.db].
    unfold ScheduleService.getSchedulesByUserId, DatabaseService.getSchedulesByUserId.
    exact Hsave.
  - exact Hsave.
Qed.

Lemma userDb_WithinQuota : WithinQuota userDb.
Proof. intros userId. vm_compute. discriminate. Qed.

Lemma quota_invariant_witness :
  WithinQuota userDb
  /\ WithinQuota (snd (DatabaseService.createSchedule (nightCharge 80)
                         "2025-01-02T00:00:00.000Z" userDb)).
Proof.
  split; [exact userDb_WithinQuota|].
  destruct (quota_invariant userDb userDb_WithinQuota) as [H _]. apply H.
Defined.

(** Outside the screen the limit can be passed: [updateSchedule] with a new
    owner moves a schedule of user 2 to user 1, who already has ten. *)
Lemma updateSchedule_owner_exceeds_quota :
  count_schedules 1
    (snd (DatabaseService.updateSchedule 11 (ownerOnly 1)
            (mkDb [demoUser; secondUser]
                  (schedules fullDb ++ [timeRow 11 2 "2025-01-01T00:00:00.000Z"])
                  2 11)))
  = 11.
Proof. reflexivity. Qed.

End ScheduleFacts.

Section ScheduleFacts2.

Import SQLite UpdateSpec.

Lemma select_length (userId : Z) (db : Db) :
  Z.of_nat (List.length (select_schedules_by_userId userId db))
  = count_schedules userId db.
Proof.
  unfold select_schedules_by_userId, count_schedules. f_equal.
  apply Permutation_length. symmetry. apply Sorter.Permuted_sort.
Qed.

(** X16.  One count, two ways.  The count the schedule service derives from the
    list it reads is the count the limit check of [createSchedule] uses;
    [createSchedule] is rejected with the limit error exactly when that count
    is at least 10; and right after the screen has loaded the list of the
    signed-in user, its own gate for adding a schedule shows the limit alert
    exactly when [createSchedule] for that user would be rejected with the
    limit error. *)
Theorem schedule_counts_agree (userId : Z) (db : Db) :
  ScheduleService.getScheduleCount userId db
  = (Resolved (count_schedules userId db), db)
  /\ (forall d now, NewSchedule.userId d = userId ->
        (DatabaseService.createSchedule d now db = (Rejected LimitError, db)
         <-> 10 <= count_schedules userId db))
  /\ (forall st d now,
        ScheduleScreen.db st = db ->
        (exists u, ScheduleScreen.user st = Some u /\ User.id u = userId) ->
        NewSchedule.userId d = userId ->
        (fst (ScheduleScreen.handleAddSchedule (snd (ScheduleScreen.loadSchedules st)))
         = ScheduleScreen.alert "Limit Reached" "You can only have up to 10 schedules"
         <-> fst (DatabaseService.createSchedule d now db) = Rejected LimitError)).
Proof.
  split.
  { unfold ScheduleService.getScheduleCount, DatabaseService.getSchedulesByUserId.
    now rewrite select_length. }
  assert (Hlimit : forall d now, NewSchedule.userId d = userId ->
            (fst (DatabaseService.createSchedule d now db) = Rejected LimitError
             <-> 10 <= count_schedules userId db)).
  { intros d now <-.
    destruct (createSchedule_rows d now db)
      as [[Hge ->]|[(Hlt & _ & ->)|(Hlt & _ & row & -> & _)]];
      simpl; split; intros H; try reflexivity; try assumption; try discriminate; lia. }
  split.
  { intros d now Hd. rewrite <- (Hlimit d now Hd). split.
    - intros ->. reflexivity.
    - intros H. subst userId.
      destruct (createSchedule_rows d now db)
        as [[_ E]|[(_ & _ & E)|(_ & _ & row & E & _)]];
        [exact E | rewrite E in H; discriminate H | rewrite E in H; discriminate H]. }
  intros st d now Hdb (u & Hu & Hid) Hd. rewrite (Hlimit d now Hd).
  unfold ScheduleScreen.loadSchedules. rewrite Hu, Hid, Hdb.
  unfold ScheduleService.getSchedulesByUserId, DatabaseService.getSchedulesByUserId.
  unfold ScheduleScreen.handleAddSchedule. cbn [ScheduleScreen.schedules snd].
  rewrite <- select_length.
  destruct (Nat.leb_spec 10 (List.length (select_schedules_by_userId userId db)));
    simpl; split; intros H'; try reflexivity; try discriminate; lia.
Qed.

Lemma schedule_counts_agree_witness :
  DatabaseService.createSchedule (nightCharge 80) "2025-01-02T00:00:00.000Z" fullDb
  = (Rejected LimitError, fullDb).
Proof.
  destruct (schedule_counts_agree 1 fullDb) as (_ & H & _).
  apply (H (nightCharge 80) "2025-01-02T00:00:00.000Z" eq_refl).
  vm_compute. discriminate.
Defined.

(** X17.  Creating and then deleting.  For a stored owner below the limit, a
    schedule that [createSchedule] has just stored is removed again by
    [deleteSchedule] with its id: the rows of the table and the users are as
    before the creation, and the id is not handed out again by the next
    creation. *)
Theorem create_then_delete (d d' : NewSchedule.t) (now now' : string) (db : Db)
  (Hbelow : count_schedules (NewSchedule.userId d) db < 10)
  (Howner : exists u, In u (users db) /\ User.id u = NewSchedule.userId d) :
  exists row db1,
    DatabaseService.createSchedule d now db = (Resolved (Some row), db1)
    /\ schedules (snd (DatabaseService.deleteSchedule (Schedule.id row) db1))
       = schedules db
    /\ users (snd (DatabaseService.deleteSchedule (Schedule.id row) db1)) = users db
    /\ (forall row',
          fst (DatabaseService.createSchedule d' now'
                 (snd (DatabaseService.deleteSchedule (Schedule.id row) db1)))
          = Resolved (Some row') ->
          Schedule.id row < Schedule.id row').
Proof.
  destruct (createSchedule_rows d now db)
    as [[Hge _]|[(_ & Hnone & _)|(_ & _ & row & E & Hu & Hid)]].
  { lia. }
  { destruct Howner as (u & Hin & Hu). now apply Hnone in Hin. }
  rewrite E. do 2 eexists. split; [reflexivity|].
  assert (Hdel : filter (fun r => negb (Schedule.id r =? Schedule.id row))
                   (schedules db ++ [row]) = schedules db).
  { rewrite filter_app. simpl. rewrite Z.eqb_refl. simpl. rewrite app_nil_r.
    apply filter_all. intros r Hr. apply negb_true_iff, Z.eqb_neq.
    rewrite Hid. now apply next_rowid_fresh. }
  cbn [DatabaseService.deleteSchedule delete_schedules snd schedules users
       users_seq schedules_seq].
  rewrite Hdel. split; [reflexivity|]. split; [reflexivity|].
  intros row' H. unfold delete_schedules in H.
  cbn [schedules users users_seq schedules_seq] in H. rewrite Hdel in H.
  set (db2 := mkDb (users db) (schedules db) (users_seq db) (Schedule.id row)) in *.
  destruct (createSchedule_rows d' now' db2)
    as [[_ E2]|[(_ & _ & E2)|(_ & _ & r2 & E2 & _ & Hid2)]];
    rewrite E2 in H; try discriminate H.
  injection H as <-. rewrite Hid2. unfold db2. cbn [schedules schedules_seq].
  unfold next_rowid. lia.
Qed.

Lemma create_then_delete_witness :
  count_schedules 1 userDb < 10
  /\ (exists u, In u (users userDb) /\ User.id u = 1)
  /\ exists row db1,
       DatabaseService.createSchedule (nightCharge 80) "2025-01-02T00:00:00.000Z"
         userDb = (Resolved (Some row), db1)
       /\ schedules (snd (DatabaseService.deleteSchedule (Schedule.id row) db1)) = [].
Proof.
  assert (H : count_schedules 1 userDb < 10) by (vm_compute; reflexivity).
  assert (Ho : exists u, In u (users userDb) /\ User.id u = 1)
    by apply demoUser_stored.
  split; [exact H|]. split; [exact Ho|].
  destruct (create_then_delete (nightCharge 80) (nightCharge 80)
              "2025-01-02T00:00:00.000Z" "2025-01-03T00:00:00.000Z" userDb H Ho)
    as (row & db1 & Hc & Hd & _).
  exists row, db1. split; assumption.
Defined.

Lemma present_twice {A : Type} (v : option A) (x : A) :
  present v (present v x) = present v x.
Proof. now destruct v. Qed.

Lemma presentNullable_twice {A : Type} (v x : option A) :
  presentNullable v (presentNullable v x) = presentNullable v x.
Proof. now destruct v. Qed.

Lemma patch_twice (p : PartialSchedule.t) (r : Schedule.t) :
  patch p (patch p r) = patch p r.
Proof.
  unfold patch. cbn [Schedule.id Schedule.userId Schedule.type Schedule.name
    Schedule.days Schedule.startTime Schedule.endTime Schedule.readyByTime
    Schedule.desiredChargeLevel Schedule.desiredMileage Schedule.isActive
    Schedule.createdAt].
  now rewrite !present_twice, !presentNullable_twice.
Qed.

(** The row holds every value the payload names. *)
Definition carries (q : PartialSchedule.t) (r : Schedule.t) : Prop :=
  (forall v, PartialSchedule.userId q = Some v -> Schedule.userId r = v)
  /\ (forall v, PartialSchedule.type q = Some v -> Schedule.type r = v)
  /\ (forall v, PartialSchedule.name q = Some v -> Schedule.name r = v)
  /\ (forall v, PartialSchedule.days q = Some v -> Schedule.days r = v)
  /\ (forall v, PartialSchedule.startTime q = Some v -> Schedule.startTime r = Some v)
  /\ (forall v, PartialSchedule.endTime q = Some v -> Schedule.endTime r = Some v)
  /\ (forall v, PartialSchedule.readyByTime q = Some v ->
        Schedule.readyByTime r = Some v)
  /\ (forall v, PartialSchedule.desiredChargeLevel q = Some v ->
        Schedule.desiredChargeLevel r = Some v)
  /\ (forall v, PartialSchedule.desiredMileage q = Some v ->
        Schedule.desiredMileage r = Some v)
  /\ (forall v, PartialSchedule.isActive q = Some v -> Schedule.isActive r = v)
  /\ (forall v, PartialSchedule.createdAt q = Some v -> Schedule.createdAt r = v).

Lemma patch_carries (q : PartialSchedule.t) (r : Schedule.t) : carries q (patch q r).
Proof. unfold carries. repeat split; intros v H; simpl; now rewrite H. Qed.

(** Whether a payload is refused does not change when another payload has been
    written to the same id. *)
Lemma ownerMissing_after (id : Z) (p q : PartialSchedule.t) (db : Db) :
  ~ ownerMissing id p db ->
  (ownerMissing id q (snd (DatabaseService.updateSchedule id p db))
   <-> ownerMissing id q db).
Proof.
  intros Hok. rewrite (updateSchedule_patch id p db Hok). cbn [snd].
  unfold ownerMissing. cbn [schedules users].
  split; intros (v & r & E & Hin & Hid & Hno).
  - apply in_map_iff in Hin. destruct Hin as (r0 & Hr0 & Hin0).
    exists v, r0. repeat split; try assumption.
    destruct (Z.eqb_spec (Schedule.id r0) id) as [E0|E0]; [exact E0|]. congruence.
  - exists v, (patch p r). repeat split; try assumption.
    apply in_map_iff. exists r. split; [|exact Hin].
    subst id. now rewrite Z.eqb_refl.
Qed.

(** X18.  Updating twice.  Sending the same payload to the same id a second time
    ends as the first time did and changes nothing more.  When two payloads are
    sent one after the other to the same id and neither is refused for its
    owner, the second resolves, each row with the id ends up as the first
    payload and then the second make it, and so holds every value the second
    payload names.  A second payload that is refused leaves what the first has
    written. *)
Theorem updateSchedule_repeated (id : Z) (p q : PartialSchedule.t) (db : Db) :
  DatabaseService.updateSchedule id p (snd (DatabaseService.updateSchedule id p db))
  = DatabaseService.updateSchedule id p db
  /\ (~ ownerMissing id p db -> ~ ownerMissing id q db ->
      fst (DatabaseService.updateSchedule id q
             (snd (DatabaseService.updateSchedule id p db))) = Resolved tt
      /\ schedules (snd (DatabaseService.updateSchedule id q
                           (snd (DatabaseService.updateSchedule id p db))))
         = map (fun r => if Schedule.id r =? id then patch q (patch p r) else r)
             (schedules db)
      /\ (forall r',
            In r' (schedules (snd (DatabaseService.updateSchedule id q
                                     (snd (DatabaseService.updateSchedule id p db))))) ->
            Schedule.id r' = id -> carries q r'))
  /\ (ownerMissing id q db ->
      DatabaseService.updateSchedule id q (snd (DatabaseService.updateSchedule id p db))
      = (Rejected (SQLError FOREIGNKEY_schedules),
         snd (DatabaseService.updateSchedule id p db))).
Proof.
  assert (Htwo : forall q', ~ ownerMissing id p db -> ~ ownerMissing id q' db ->
            DatabaseService.updateSchedule id q'
              (snd (DatabaseService.updateSchedule id p db))
            = (Resolved tt,
               mkDb (users db)
                 (map (fun r => if Schedule.id r =? id then patch q' (patch p r) else r)
                    (schedules db))
                 (users_seq db) (schedules_seq db))).
  { intros q' Hp Hq'.
    assert (Hq1 : ~ ownerMissing id q' (snd (DatabaseService.updateSchedule id p db)))
      by (rewrite (ownerMissing_after id p q' db Hp); exact Hq').
    rewrite (updateSchedule_patch id q' _ Hq1), (updateSchedule_patch id p db Hp).
    cbn [snd schedules users users_seq schedules_seq]. do 2 f_equal.
    rewrite map_map. apply map_ext. intros r.
    destruct (Z.eqb_spec (Schedule.id r) id) as [E|E].
    - change (Schedule.id (patch p r)) with (Schedule.id r).
      destruct (Z.eqb_spec (Schedule.id r) id); [reflexivity | contradiction].
    - destruct (Z.eqb_spec (Schedule.id r) id); [contradiction | reflexivity]. }
  split; [|split].
  - destruct (ownerMissing_dec id p db) as [Hno|Hok].
    + rewrite (updateSchedule_refused id p db Hno). cbn [snd].
      exact (updateSchedule_refused id p db Hno).
    + rewrite (Htwo p Hok Hok), (updateSchedule_patch id p db Hok). do 2 f_equal.
      apply map_ext. intros r.
      destruct (Schedule.id r =? id); [apply patch_twice | reflexivity].
  - intros Hp Hq. rewrite (Htwo q Hp Hq). cbn [fst snd schedules].
    split; [reflexivity|]. split; [reflexivity|].
    intros r' Hin Hid. apply in_map_iff in Hin. destruct Hin as (r & Hr & _).
    destruct (Z.eqb_spec (Schedule.id r) id) as [E|E].
    + subst r'. apply patch_carries.
    + subst r'. contradiction.
  - intros Hq. apply updateSchedule_refused.
    destruct (ownerMissing_dec id p db) as [Hno|Hok].
    + now rewrite (updateSchedule_refused id p db Hno).
    + now apply (ownerMissing_after id p q db Hok).
Qed.

(** On [sampleDb]: the level of schedule 2 is set to 80 and then to 50. *)
Lemma updateSchedule_repeated_witness :
  ~ ownerMissing 2 (levelOnly 80) sampleDb
  /\ ~ ownerMissing 2 (levelOnly 50) sampleDb
  /\ map Schedule.desiredChargeLevel
       (schedules (snd (DatabaseService.updateSchedule 2 (levelOnly 50)
                          (snd (DatabaseService.updateSchedule 2 (levelOnly 80)
                                  sampleDb)))))
     = [None; Some 50; None].
Proof.
  assert (H80 : ~ ownerMissing 2 (levelOnly 80) sampleDb)
    by (apply no_owner_not_missing; reflexivity).
  assert (H50 : ~ ownerMissing 2 (levelOnly 50) sampleDb)
    by (apply no_owner_not_missing; reflexivity).
  split; [exact H80|]. split; [exact H50|].
  destruct (updateSchedule_repeated 2 (levelOnly 80) (levelOnly 50) sampleDb)
    as (_ & H & _).
  destruct (H H80 H50) as (_ & -> & _). reflexivity.
Defined.

(** X19.  Users are isolated.  What [getSchedulesByUserId] returns for one user is not
    changed by [createSchedule] for another user, nor by [deleteSchedule] or by
    [updateSchedule] (with a payload that names no owner) on an id that none of
    the user's schedules has. *)
Theorem other_users_unaffected (userId : Z) (db : Db) :
  (forall d now, NewSchedule.userId d <> userId ->
     fst (DatabaseService.getSchedulesByUserId userId
            (snd (DatabaseService.createSchedule d now db)))
     = fst (DatabaseService.getSchedulesByUserId userId db))
  /\ (forall id,
        (forall r, In r (schedules db) -> Schedule.userId r = userId ->
                   Schedule.id r <> id) ->
        fst (DatabaseService.getSchedulesByUserId userId
               (snd (DatabaseService.deleteSchedule id db)))
        = fst (DatabaseService.getSchedulesByUserId userId db))
  /\ (forall id p,
        PartialSchedule.userId p = None ->
        (forall r, In r (schedules db) -> Schedule.userId r = userId ->
                   Schedule.id r <> id) ->
        fst (DatabaseService.getSchedulesByUserId userId
               (snd (DatabaseService.updateSchedule id p db)))
        = fst (DatabaseService.getSchedulesByUserId userId db)).
Proof.
  unfold DatabaseService.getSchedulesByUserId, select_schedules_by_userId.
  cbn [fst]. repeat apply conj.
  - intros d now Hother.
    destruct (createSchedule_rows d now db)
      as [[_ ->]|[(_ & _ & ->)|(_ & _ & row & -> & Hu & _)]]; try reflexivity.
    cbn [snd schedules]. rewrite filter_app. simpl.
    destruct (Z.eqb_spec (Schedule.userId row) userId) as [E|_]; [congruence|].
    now rewrite app_nil_r.
  - intros id Hnot. cbn [DatabaseService.deleteSchedule delete_schedules snd schedules].
    rewrite filter_filter_comm. do 2 f_equal. apply filter_all.
    intros r Hr. apply filter_In in Hr. destruct Hr as [Hr Hu].
    apply negb_true_iff, Z.eqb_neq. apply Hnot; [exact Hr | now apply Z.eqb_eq].
  - intros id p Hp Hnot. rewrite (update_rows_of userId id p db Hp). do 2 f_equal.
    apply map_unchanged. intros r Hr. apply filter_In in Hr. destruct Hr as [Hr Hu].
    destruct (Z.eqb_spec (Schedule.id r) id) as [E|_]; [|reflexivity].
    exfalso. apply (Hnot r Hr); [now apply Z.eqb_eq | exact E].
Qed.

Lemma other_users_unaffected_witness :
  fst (DatabaseService.getSchedulesByUserId 2
         (snd (DatabaseService.createSchedule (nightCharge 80)
                 "2025-01-04T00:00:00.000Z" sampleDb)))
  = fst (DatabaseService.getSchedulesByUserId 2 sampleDb).
Proof.
  destruct (other_users_unaffected 2 sampleDb) as [H _].
  apply H. discriminate.
Defined.

End ScheduleFacts2.

Section OwnerFacts.

Import SQLite UpdateSpec.

(** Every schedule references an existing user. *)
Definition OwnersStored (db : Db) : Prop :=
  forall r, In r (schedules db) ->
    exists u, In u (users db) /\ User.id u = Schedule.userId r.

Lemma OwnersStored_more_users (db db' : Db) :
  schedules db' = schedules db ->
  (forall u, In u (users db) -> In u (users db')) ->
  OwnersStored db -> OwnersStored db'.
Proof.
  intros Hs Hu H r Hr. rewrite Hs in Hr. destruct (H r Hr) as (u & Hin & E).
  exists u. split; [now apply Hu | exact E].
Qed.

Lemma createUser_OwnersStored (username email password now : string) (db : Db) :
  OwnersStored db ->
  OwnersStored (snd (DatabaseService.createUser username email password now db)).
Proof.
  intros H. unfold DatabaseService.createUser, insert_user.
  destruct (existsb _ (users db)); [exact H|].
  destruct (existsb _ (users db)); [exact H|]. cbn [snd].
  apply (OwnersStored_more_users db); [reflexivity | | exact H].
  intros u Hu. simpl. apply in_or_app. now left.
Qed.

Lemma createSchedule_OwnersStored (d : NewSchedule.t) (now : string) (db : Db) :
  OwnersStored db -> OwnersStored (snd (DatabaseService.createSchedule d now db)).
Proof.
  intros H.
  destruct (createSchedule_rows d now db)
    as [[_ ->]|[(_ & _ & ->)|(_ & Howner & row & -> & Hu & _)]]; try exact H.
  intros r Hr. cbn [snd schedules users] in *. apply in_app_or in Hr.
  destruct Hr as [Hr|[<-|[]]]; [now apply H|]. now rewrite Hu.
Qed.

Lemma updateSchedule_OwnersStored (id : Z) (p : PartialSchedule.t) (db : Db) :
  OwnersStored db -> OwnersStored (snd (DatabaseService.updateSchedule id p db)).
Proof.
  intros H. destruct (ownerMissing_dec id p db) as [Hno|Hok].
  - now rewrite (updateSchedule_refused id p db Hno).
  - rewrite (updateSchedule_patch id p db Hok). intros r' Hr'.
    cbn [snd schedules users] in *. apply in_map_iff in Hr'.
    destruct Hr' as (r & E & Hr).
    destruct (Z.eqb_spec (Schedule.id r) id) as [Hid|_]; [|subst r'; now apply H].
    subst r'. destruct (PartialSchedule.userId p) as [v|] eqn:Hv.
    + replace (Schedule.userId (patch p r)) with v by (simpl; now rewrite Hv).
      destruct (has_user v db) eqn:Hu; [now apply has_user_true_iff|].
      exfalso. apply Hok. exists v, r. repeat split; try assumption.
      now apply has_user_false_iff.
    + rewrite (patch_userId p r Hv). now apply H.
Qed.

Lemma deleteSchedule_OwnersStored (id : Z) (db : Db) :
  OwnersStored db -> OwnersStored (snd (DatabaseService.deleteSchedule id db)).
Proof.
  intros H r Hr. cbn [DatabaseService.deleteSchedule delete_schedules snd schedules
                        users] in *.
  apply filter_In in Hr. now apply H.
Qed.

Lemma insertDemoData_OwnersStored (t : Lifecycle.DemoTimes) (db : Db) :
  OwnersStored db -> OwnersStored (snd (Lifecycle.insertDemoData t db)).
Proof.
  intros H. destruct (insertDemoData_cases t db) as [[-> _]|Hnew]; [exact H|].
  destruct Hnew as (demo & m & w & _ & _ & Hu & Hs & _ & Hm & Hw & _).
  intros r Hr. rewrite Hs in Hr. rewrite Hu. apply in_app_or in Hr.
  destruct Hr as [Hr|[<-|[<-|[]]]].
  - destruct (H r Hr) as (u & Hin & E). exists u. split; [|exact E].
    apply in_or_app. now left.
  - exists demo. split; [apply in_or_app; right; now left | now rewrite Hm].
  - exists demo. split; [apply in_or_app; right; now left | now rewrite Hw].
Qed.

(** X21.  Every schedule keeps a stored owner.  If each schedule of the store
    references an existing user, that is still so after [createUser], after
    [createSchedule] and [updateSchedule] with any payload (a payload that
    names an owner that is not stored is refused), after [deleteSchedule],
    after the seeding of demo data, and after the screen saves whatever it is
    handed. *)
Theorem owners_stay_stored (db : Db) (Howners : OwnersStored db) :
  (forall username email password now,
     OwnersStored (snd (DatabaseService.createUser username email password now db)))
  /\ (forall d now, OwnersStored (snd (DatabaseService.createSchedule d now db)))
  /\ (forall id p, OwnersStored (snd (DatabaseService.updateSchedule id p db)))
  /\ (forall id, OwnersStored (snd (DatabaseService.deleteSchedule id db)))
  /\ (forall t, OwnersStored (snd (Lifecycle.insertDemoData t db)))
  /\ (forall p now st,
        ScheduleScreen.db st = db ->
        OwnersStored (ScheduleScreen.db
                        (snd (ScheduleScreen.handleFormSubmit p now st)))).
Proof.
  split; [intros; now apply createUser_OwnersStored|].
  split; [intros; now apply createSchedule_OwnersStored|].
  split; [intros; now apply updateSchedule_OwnersStored|].
  split; [intros; now apply deleteSchedule_OwnersStored|].
  split; [intros; now apply insertDemoData_OwnersStored|].
  intros p now st Hdb. unfold ScheduleScreen.handleFormSubmit.
  destruct (ScheduleScreen.user st) as [u|]; [|cbn [snd]; now rewrite Hdb].
  assert (Hsave : OwnersStored (snd (ScheduleScreen.save p now u st))).
  { unfold ScheduleScreen.save, ScheduleService.updateSchedule,
      ScheduleService.createSchedule. rewrite Hdb.
    destruct (ScheduleScreen.editingSchedule st) as [e|].
    - now apply updateSchedule_OwnersStored.
    - destruct (ScheduleScreen.withUserId p (User.id u)) as [d|]; [|exact Howners].
      pose proof (createSchedule_OwnersStored d now db Howners) as H.
      destruct (DatabaseService.createSchedule d now db) as [[r|e] db']; exact H. }
  destruct (ScheduleScreen.save p now u st) as [[r|e] db']; cbn [snd] in *.
  - unfold ScheduleScreen.loadSchedules. cbn [ScheduleScreen.user ScheduleScreen.db].
    unfold ScheduleService.getSchedulesByUserId, DatabaseService.getSchedulesByUserId.
    exact Hsave.
  - exact Hsave.
Qed.

Lemma sampleDb_OwnersStored : OwnersStored sampleDb.
Proof.
  intros r [<-|[<-|[<-|[]]]]; simpl.
  - exists demoUser. split; [now left | reflexivity].
  - exists demoUser. split; [now left | reflexivity].
  - exists secondUser. split; [right; now left | reflexivity].
Qed.

(** On [sampleDb], handing schedule 2 to user 9, who is not stored, and to
    user 2, who is. *)
Lemma owners_stay_stored_witness :
  OwnersStored sampleDb
  /\ OwnersStored (snd (DatabaseService.updateSchedule 2 (ownerOnly 9) sampleDb))
  /\ OwnersStored (snd (DatabaseService.updateSchedule 2 (ownerOnly 2) sampleDb)).
Proof.
  split; [exact sampleDb_OwnersStored|].
  destruct (owners_stay_stored sampleDb sampleDb_OwnersStored) as (_ & _ & H & _).
  split; apply H.
Defined.

End OwnerFacts.

(* ================================================================= *)
(** ** The login form *)

Section LoginFormFacts.

Import Builtins LoginScreen.

(** Every character of [s] is in the class. *)
Fixpoint allIn (class : ascii -> bool) (s : string) : bool :=
  match s with
  | String c rest => class c && allIn class rest
  | EmptyString => true
  end.

(** [a] is a non-empty run of characters that are not white space. *)
Definition word (a : string) : Prop := a <> "" /\ allIn nonSpace a = true.

(** Somewhere in [s] stands a word, an at sign, a word, a point and a word. *)
Definition emailShape (s : string) : Prop :=
  exists before a b c after,
    s = (before ++ a ++ "@" ++ b ++ "." ++ c ++ after)%string
    /\ word a /\ word b /\ word c.

Lemma matchHere_One (class : ascii -> bool) (more : list Item) (s : string) :
  matchHere s (One class :: more) = true
  <-> exists c rest, s = String c rest /\ class c = true /\ matchHere rest more = true.
Proof.
  destruct s as [|c rest]; simpl.
  - split; [discriminate | intros (c & r & H & _); discriminate H].
  - rewrite andb_true_iff. split.
    + intros [Hc Hm]. now exists c, rest.
    + intros (c' & r' & [= -> ->] & Hc & Hm). now split.
Qed.

Lemma matchHere_Plus (class : ascii -> bool) (more : list Item) (s : string) :
  matchHere s (Plus class :: more) = true
  <-> exists a rest, s = (a ++ rest)%string /\ a <> "" /\ allIn class a = true
                     /\ matchHere rest more = true.
Proof.
  split.
  - induction s as [|c s IH]; simpl; [discriminate|].
    rewrite andb_true_iff, orb_true_iff. intros [Hc [Hm|Hm]].
    + destruct (IH Hm) as (a & rest & -> & Ha & Hall & Hrest).
      exists (String c a), rest. simpl. rewrite Hc, Hall.
      repeat split; [discriminate | exact Hrest].
    + exists (String c ""), s. simpl. rewrite Hc.
      repeat split; [discriminate | exact Hm].
  - intros (a & rest & -> & Ha & Hall & Hrest). revert Ha Hall.
    induction a as [|c a IH]; [congruence|]. intros _. simpl.
    rewrite andb_true_iff. intros [Hc Hall].
    change (matchHere (String c (a ++ rest)) (Plus class :: more))
      with (class c && (matchHere (a ++ rest)%string (Plus class :: more)
                        || matchHere (a ++ rest)%string more)).
    rewrite Hc. simpl. apply orb_true_iff.
    destruct a as [|c' a'].
    + right. exact Hrest.
    + left. apply IH; [discriminate | exact Hall].
Qed.

Lemma test_spec (pattern : list Item) (s : string) :
  test pattern s = true
  <-> exists before rest, s = (before ++ rest)%string /\ matchHere rest pattern = true.
Proof.
  split.
  - induction s as [|c s IH]; simpl; rewrite orb_true_iff.
    + intros [H|H]; [|discriminate]. now exists "", "".
    + intros [H|H].
      * now exists "", (String c s).
      * destruct (IH H) as (before & rest & -> & Hm).
        now exists (String c before), rest.
  - intros (before & rest & -> & Hm). induction before as [|c before IH].
    + change ("" ++ rest)%string with rest.
      destruct rest; cbn [test]; rewrite Hm; reflexivity.
    + change (String c before ++ rest)%string with (String c (before ++ rest)%string).
      cbn [test]. rewrite IH. apply orb_true_r.
Qed.

Lemma isChar_true (x c : ascii) : isChar x c = true <-> c = x.
Proof. unfold isChar. apply Ascii.eqb_eq. Qed.

(** The pattern of the form accepts exactly the texts of the shape above. *)
Lemma emailPattern_spec (s : string) :
  test emailPattern s = true <-> emailShape s.
Proof.
  unfold emailPattern, emailShape, word. rewrite test_spec. split.
  - intros (before & rest & -> & Hm).
    apply matchHere_Plus in Hm. destruct Hm as (a & r1 & -> & Ha & Halla & Hm).
    apply matchHere_One in Hm. destruct Hm as (x & r2 & -> & Hx & Hm).
    apply isChar_true in Hx. subst x.
    apply matchHere_Plus in Hm. destruct Hm as (b & r3 & -> & Hb & Hallb & Hm).
    apply matchHere_One in Hm. destruct Hm as (y & r4 & -> & Hy & Hm).
    apply isChar_true in Hy. subst y.
    apply matchHere_Plus in Hm. destruct Hm as (c & r5 & -> & Hc & Hallc & _).
    exists before, a, b, c, r5. repeat split; assumption.
  - intros (before & a & b & c & after & -> & [Ha Halla] & [Hb Hallb] & [Hc Hallc]).
    exists before, (a ++ "@" ++ b ++ "." ++ c ++ after)%string. split; [reflexivity|].
    apply matchHere_Plus. exists a, ("@" ++ b ++ "." ++ c ++ after)%string.
    repeat split; try assumption.
    apply matchHere_One. exists "@"%char, (b ++ "." ++ c ++ after)%string.
    repeat split.
    apply matchHere_Plus. exists b, ("." ++ c ++ after)%string.
    repeat split; try assumption.
    apply matchHere_One. exists "."%char, (c ++ after)%string.
    repeat split.
    apply matchHere_Plus. exists c, after. repeat split; try assumption.
    now destruct after.
Qed.

Lemma blank_false_iff (s : string) : blank s = false <-> JS.trim s <> "".
Proof. unfold blank. rewrite negb_false_iff. apply truthy_true_iff. Qed.

(** X20.  The gate of the login form.  [validateForm] accepts exactly when the
    username and the password are not blank and, when registering, the email is
    not blank, holds a word, an at sign, a word, a point and a word, and the
    password has at least six characters.  When it refuses, [handleLogin] and
    [handleRegister] show its errors and call nothing: the store, the session
    and the calls made to the service are as before.  When it accepts, they
    pass on the trimmed username (and email) and the password as typed. *)
Theorem login_form_gate (f : Form) (now : string) (st : AuthContext.State) :
  (snd (validateForm f) = true
   <-> JS.trim (username f) <> ""
       /\ JS.trim (password f) <> ""
       /\ (isRegistering f = true ->
           JS.trim (email f) <> "" /\ emailShape (email f)
           /\ (6 <= String.length (password f))%nat))
  /\ (snd (validateForm f) = false ->
      handleLogin f st = (fst (validateForm f), st)
      /\ handleRegister f now st = (fst (validateForm f), st))
  /\ (snd (validateForm f) = true ->
      snd (handleLogin f st)
      = snd (AuthContext.login (JS.trim (username f)) (password f) st)
      /\ snd (handleRegister f now st)
         = snd (AuthContext.register (JS.trim (username f)) (JS.trim (email f))
                  (password f) now st)).
Proof.
  split; [|split].
  - unfold validateForm. cbn [snd].
    destruct (blank (username f)) eqn:Hu.
    { split; [discriminate|]. intros (H & _). apply blank_false_iff in H. congruence. }
    apply blank_false_iff in Hu.
    destruct (isRegistering f) eqn:Hreg; cbn [andb].
    + destruct (Nat.ltb_spec (String.length (password f)) 6) as [Hlen|Hlen].
      { split; [discriminate|]. intros (_ & _ & H). destruct (H eq_refl) as (_ & _ & H6).
        lia. }
      destruct (blank (password f)) eqn:Hp.
      { split; [discriminate|]. intros (_ & H & _). apply blank_false_iff in H.
        congruence. }
      apply blank_false_iff in Hp.
      destruct (blank (email f)) eqn:He.
      { split; [discriminate|]. intros (_ & _ & H). destruct (H eq_refl) as (H' & _).
        apply blank_false_iff in H'. congruence. }
      apply blank_false_iff in He.
      destruct (test emailPattern (email f)) eqn:Ht; cbn [negb].
      * apply emailPattern_spec in Ht. split; [|reflexivity]. intros _.
        repeat split; auto.
      * split; [discriminate|]. intros (_ & _ & H). destruct (H eq_refl) as (_ & H' & _).
        apply emailPattern_spec in H'. congruence.
    + destruct (blank (password f)) eqn:Hp.
      { split; [discriminate|]. intros (_ & H & _). apply blank_false_iff in H.
        congruence. }
      apply blank_false_iff in Hp. split; [|reflexivity]. intros _.
      split; [exact Hu|]. split; [exact Hp | discriminate].
  - intros H. unfold handleLogin, handleRegister.
    destruct (validateForm f) as [errors ok]. cbn [snd fst] in *. subst ok.
    split; reflexivity.
  - intros H. unfold handleLogin, handleRegister.
    destruct (validateForm f) as [errors ok]. cbn [snd fst] in *. subst ok. split.
    + destruct (AuthContext.login _ _ st) as [[|] st']; reflexivity.
    + destruct (AuthContext.register _ _ _ now st) as [[|] st']; reflexivity.
Qed.

Lemma login_form_gate_witness :
  handleLogin (mkForm "   " "secret" "" false) demoState
  = (fst (validateForm (mkForm "   " "secret" "" false)), demoState).
Proof.
  destruct (login_form_gate (mkForm "   " "secret" "" false) "" demoState)
    as (_ & H & _).
  apply H. reflexivity.
Defined.

Example validateForm_examples :
  snd (validateForm (mkForm " ada " "secret" "ada@andersenev.com" true)) = true
  /\ snd (validateForm (mkForm "ada" "secret" "ada@andersenev" true)) = false
  /\ snd (validateForm (mkForm "ada" "12345" "ada@andersenev.com" true)) = false
  /\ snd (validateForm (mkForm "ada" "12345" "" false)) = true
  /\ snd (validateForm (mkForm "ada" "      " "ada@andersenev.com" true)) = false
  /\ snd (validateForm (mkForm "   " "secret" "" false)) = false.
Proof. repeat split. Qed.

End LoginFormFacts.
